(** * Prompt submitters: Gemini, xAI and Ollama command-line scripts

    A shallow embedding of the three scripts [gemini_api.py],
    [xai_prompt_submitter.py] and [ollama_prompt_submitter.py].

    Python text is modelled by [string] (a sequence of bytes: the UTF-8
    encoding of the Python [str]).  Code that touches the outside world
    (file system, standard input, clock, remote services, logging) runs in
    a small monad [M]: it reads an immutable [Host], threads a mutable
    [State], and emits a list of [Event]s; its outcome is a normal return,
    a raised exception, or [sys.exit].  Side effects made before an
    exception is raised are kept, as in Python.  The lengths quoted in log
    lines count bytes. *)

From Stdlib Require Import String Ascii List ZArith Bool Arith Lia DecimalString DecimalNat.
Import ListNotations.
Local Open Scope list_scope.
Local Open Scope string_scope.

(** ** Python runtime pieces used by the scripts *)

Module Py.

(** Truthiness of a [str]: only the empty string is falsy. *)
Definition truthy (s : string) : bool :=
  match s with EmptyString => false | String _ _ => true end.

(** Truthiness of an optional [str] ([None] is falsy). *)
Definition truthy_opt (o : option string) : bool :=
  match o with None => false | Some s => truthy s end.

(** [a or b] on optional strings. *)
Definition or_else (a : option string) (b : option string) : option string :=
  if truthy_opt a then a else b.

(** [s.startswith(p)] *)
Definition startswith (s p : string) : bool := String.prefix p s.

(** [sub in s] *)
Definition contains (sub s : string) : bool :=
  match String.index 0 sub s with Some _ => true | None => false end.

(** [str(n)] for a non-negative integer. *)
Definition str_of_nat (n : nat) : string := NilZero.string_of_uint (Nat.to_uint n).

(** Zero padding to a minimal width, as [%02d] and the like. *)
Fixpoint zeros (n : nat) : string :=
  match n with O => "" | S k => String "0" (zeros k) end.

Definition pad (width n : nat) : string :=
  let d := str_of_nat n in zeros (width - String.length d) ++ d.

(** *** [int(str)]

    Surrounding white space is stripped, one sign is allowed, then decimal
    digits, where single underscores may separate digits.  Anything else
    is a [ValueError], here [None].  (Non-ASCII decimal digits and white
    space, which [int] also accepts, are outside the byte model; so is the
    interpreter's limit on the number of digits.) *)

Definition is_space (c : ascii) : bool :=
  let n := nat_of_ascii c in
  ((9 <=? n) && (n <=? 13) || (28 <=? n) && (n <=? 32))%nat.

Definition is_digit (c : ascii) : bool :=
  let n := nat_of_ascii c in ((48 <=? n) && (n <=? 57))%nat.

Definition digit_value (c : ascii) : Z := (Z.of_nat (nat_of_ascii c) - 48)%Z.

Fixpoint lstrip (l : list ascii) : list ascii :=
  match l with
  | c :: r => if is_space c then lstrip r else l
  | [] => []
  end.

Definition strip (l : list ascii) : list ascii := rev (lstrip (rev (lstrip l))).

Fixpoint digits_value (acc : Z) (l : list ascii) : option Z :=
  match l with
  | [] => Some acc
  | c :: r =>
      if is_digit c then digits_value (10 * acc + digit_value c)%Z r
      else if Ascii.eqb c "_" then
        match r with
        | d :: _ => if is_digit d then digits_value acc r else None
        | [] => None
        end
      else None
  end.

Definition parse_unsigned (l : list ascii) : option Z :=
  match l with
  | c :: _ => if is_digit c then digits_value 0 l else None
  | [] => None
  end.

Definition int (s : string) : option Z :=
  let l := strip (list_ascii_of_string s) in
  match l with
  | c :: r =>
      if Ascii.eqb c "+" then parse_unsigned r
      else if Ascii.eqb c "-" then option_map Z.opp (parse_unsigned r)
      else parse_unsigned l
  | [] => None
  end.

(** *** Exceptions

    Every class below derives from [Exception]; [SystemExit] does not and
    is a separate outcome.  [str(e)] is [exn_msg]. *)

Inductive ExnClass :=
  | ValueError | TypeError | IndexError | EOFError
  | FileNotFoundError | FileExistsError | IsADirectoryError
  | OtherException.

Record exn := Exn { exn_class : ExnClass; exn_msg : string }.

Definition is_ValueError (e : exn) : bool :=
  match exn_class e with ValueError => true | _ => false end.

Definition is_TypeError (e : exn) : bool :=
  match exn_class e with TypeError => true | _ => false end.

(** [except Exception] *)
Definition is_Exception (e : exn) : bool := true.

Inductive Outcome (A : Type) :=
  | Returns (a : A)
  | Raises (e : exn)
  | Exits (code : Z).
Arguments Returns {A} a.
Arguments Raises {A} e.
Arguments Exits {A} code.

(** The status the interpreter exits with when [main()] ends this way: an
    uncaught exception prints a traceback and exits with status 1. *)
Definition exit_status {A} (o : Outcome A) : Z :=
  match o with
  | Returns _ => 0%Z
  | Raises _ => 1%Z
  | Exits c => c
  end.

End Py.

(** ** Paths ([pathlib]) *)

Module PathLib.

(** Text after the last occurrence of [c]; [None] when [c] does not occur. *)
Fixpoint after_last (c : ascii) (s : string) : option string :=
  match s with
  | EmptyString => None
  | String a r =>
      match after_last c r with
      | Some t => Some t
      | None => if Ascii.eqb a c then Some r else None
      end
  end.

(** Text before the last occurrence of [c]. *)
Fixpoint before_last (c : ascii) (s : string) : option string :=
  match s with
  | EmptyString => None
  | String a r =>
      match before_last c r with
      | Some t => Some (String a t)
      | None => if Ascii.eqb a c then Some EmptyString else None
      end
  end.

(** [Path(s)]: the empty path is the current directory.  (Other
    normalisation done by [pathlib], such as collapsing doubled
    separators, is not modelled.) *)
Definition Path (s : string) : string :=
  match s with EmptyString => "." | _ => s end.

(** [d / f]: an absolute right operand replaces the left one. *)
Definition join (d f : string) : string :=
  if Py.startswith f "/" then f else d ++ "/" ++ f.

(** [p.name] *)
Definition name (p : string) : string :=
  match after_last "/" p with Some t => t | None => p end.

(** [p.stem]: the name without its last suffix; a dot in first or last
    position does not start a suffix. *)
Definition stem (p : string) : string :=
  let n := name p in
  match before_last "." n with
  | Some b =>
      if ((0 <? String.length b) && (String.length b <? String.length n - 1))%nat
      then b else n
  | None => n
  end.

(** [p.parent] *)
Definition parent (p : string) : string :=
  match before_last "/" p with
  | Some EmptyString => "/"
  | Some d => d
  | None => "."
  end.

(** Does the name match the pattern [*.txt]? *)
Definition matches_txt (n : string) : bool :=
  match before_last "." n with
  | Some _ => match after_last "." n with
              | Some e => String.eqb e "txt"
              | None => false
              end
  | None => false
  end.

End PathLib.

(** ** The world the scripts run in *)

(** A local time, as [datetime.now()] returns it. *)
Record DateTime := {
  dt_year : nat; dt_month : nat; dt_day : nat;
  dt_hour : nat; dt_minute : nat; dt_second : nat
}.

(** [strftime('%Y%m%d_%H%M%S')] *)
Definition strftime_compact (d : DateTime) : string :=
  Py.pad 4 (dt_year d) ++ Py.pad 2 (dt_month d) ++ Py.pad 2 (dt_day d) ++ "_"
  ++ Py.pad 2 (dt_hour d) ++ Py.pad 2 (dt_minute d) ++ Py.pad 2 (dt_second d).

(** [strftime('%Y-%m-%d %H:%M:%S')] *)
Definition strftime_iso (d : DateTime) : string :=
  Py.pad 4 (dt_year d) ++ "-" ++ Py.pad 2 (dt_month d) ++ "-" ++ Py.pad 2 (dt_day d)
  ++ " " ++ Py.pad 2 (dt_hour d) ++ ":" ++ Py.pad 2 (dt_minute d) ++ ":"
  ++ Py.pad 2 (dt_second d).

(** *** File system: entries by path, in directory-listing order *)

Inductive Node := File (content : string) | Dir.

Definition FS := list (string * Node).

Fixpoint lookup (p : string) (fs : FS) : option Node :=
  match fs with
  | [] => None
  | (q, n) :: r => if String.eqb q p then Some n else lookup p r
  end.

(** Replace the entry at [p], or add it at the end of the listing. *)
Fixpoint store (p : string) (n : Node) (fs : FS) : FS :=
  match fs with
  | [] => [(p, n)]
  | (q, m) :: r => if String.eqb q p then (q, n) :: r else (q, m) :: store p n r
  end.

Definition is_dir (p : string) (fs : FS) : bool :=
  match lookup p fs with Some Dir => true | _ => false end.

(** The current directory and the root always exist. *)
Definition dir_exists (d : string) (fs : FS) : bool :=
  String.eqb d "." || String.eqb d "/" || is_dir d fs.

(** [Path(d).glob("*.txt")]: the entries directly under [d] whose name
    ends in [.txt], in listing order; nothing when [d] is missing. *)
Definition glob_txt (d : string) (fs : FS) : list string :=
  map fst
    (filter (fun e => String.eqb (PathLib.parent (fst e)) d
                      && PathLib.matches_txt (PathLib.name (fst e))) fs).

(** *** Replies of the remote services *)

(** [generate_content]: raises, or returns a response whose [text] may be
    [None]. *)
Inductive GenaiReply := GenaiRaises (e : Py.exn) | GenaiResponse (text : option string).

(** [chat.completions.create]: raises, or returns the [content] of each
    choice. *)
Inductive ChatReply := ChatRaises (e : Py.exn) | ChatCompletion (choices : list (option string)).

(** One entry of the catalog [ollama.list()] returns. *)
Record ModelInfo := {
  mi_model : option string;
  mi_name : option string;
  mi_size : option Z;
  mi_modified_at : option string
}.

(** [ollama.list()]: raises, or returns a response that may lack the key
    ['models']. *)
Inductive ListReply := ListRaises (e : Py.exn) | ListResponse (models : option (list ModelInfo)).

(** [ollama.generate]: raises, or returns a response that may lack the
    key ['response']. *)
Inductive GenerateReply := GenerateRaises (e : Py.exn) | GenerateResponse (response : option string).

(** What the process cannot change: the environment once the dotenv
    file is loaded, the time at the n-th reading of the clock, and what
    each service does when called.  A constructor or a pull is given by
    the exception it raises, if any; a generation by the model and the
    prompt.  [OpenAI_with_transport] is the [try] block that builds the
    client over the [httpx] transport with three retries,
    [OpenAI_default] the construction that follows a [TypeError]. *)
Record Host := {
  getenv : string -> option string;
  clock : nat -> DateTime;
  genai_Client : string -> option Py.exn;
  genai_generate_content : string -> string -> GenaiReply;
  OpenAI_with_transport : string -> option Py.exn;
  OpenAI_default : string -> option Py.exn;
  chat_completions_create : string -> string -> ChatReply;
  ollama_list : ListReply;
  ollama_pull : string -> option Py.exn;
  ollama_generate : string -> string -> GenerateReply
}.

(** What the process changes: the file system, the lines left on
    standard input, and the number of readings of the clock so far. *)
Record State := {
  st_fs : FS;
  st_stdin : list string;
  st_tick : nat
}.

Inductive Level := INFO | WARNING | ERROR.

(** What the process does to the outside, in order.  [OpenRead] is an
    attempt to open a file for reading, [WriteFile] a file opened and
    written, [WriteRefused] a file that could not be opened for writing,
    [Usage] what [argparse] prints before it ends the process; the three
    service events are emitted when the call is made. *)
Inductive Event :=
  | Log (level : Level) (msg : string)
  | Print (line : string)
  | Usage (msg : string)
  | Input (prompt : string)
  | Makedirs (path : string)
  | Glob (dir : string)
  | OpenRead (path : string)
  | WriteFile (path content : string)
  | WriteRefused (path : string)
  | GenaiGenerate (model contents : string)
  | ChatCreate (model content : string)
  | OllamaList
  | OllamaPull (model : string)
  | OllamaGenerate (model prompt : string).

(** ** The monad *)

Record Run (A : Type) := mkRun {
  outcome : Py.Outcome A;
  final : State;
  events : list Event
}.
Arguments mkRun {A} outcome final events.
Arguments outcome {A} r.
Arguments final {A} r.
Arguments events {A} r.

Definition M (A : Type) := Host -> State -> Run A.

Definition ret {A} (a : A) : M A := fun _ s => mkRun (Py.Returns a) s [].

Definition bind {A B} (m : M A) (f : A -> M B) : M B := fun h s =>
  match m h s with
  | mkRun (Py.Returns a) s1 ev1 =>
      match f a h s1 with
      | mkRun o s2 ev2 => mkRun o s2 (ev1 ++ ev2)%list
      end
  | mkRun (Py.Raises e) s1 ev1 => mkRun (Py.Raises e) s1 ev1
  | mkRun (Py.Exits c) s1 ev1 => mkRun (Py.Exits c) s1 ev1
  end.

Notation "x <- m ;; k" := (bind m (fun x => k))
  (at level 61, m at next level, right associativity).
Notation "m ;; k" := (bind m (fun _ => k))
  (at level 61, right associativity).

(** [raise e] *)
Definition raise {A} (e : Py.exn) : M A := fun _ s => mkRun (Py.Raises e) s [].

(** [sys.exit(code)] *)
Definition sys_exit {A} (code : Z) : M A := fun _ s => mkRun (Py.Exits code) s [].

(** [try: body except <class> as e: handler e]; [SystemExit] passes. *)
Definition try_except {A} (body : M A) (caught : Py.exn -> bool) (handler : Py.exn -> M A) : M A :=
  fun h s =>
  match body h s with
  | mkRun (Py.Raises e) s1 ev1 =>
      if caught e then
        match handler e h s1 with
        | mkRun o s2 ev2 => mkRun o s2 (ev1 ++ ev2)%list
        end
      else mkRun (Py.Raises e) s1 ev1
  | r => r
  end.

Definition emit (e : Event) : M unit := fun _ s => mkRun (Py.Returns tt) s [e].

Definition ask {A} (f : Host -> A) : M A := fun h s => mkRun (Py.Returns (f h)) s [].

Definition get_fs : M FS := fun _ s => mkRun (Py.Returns (st_fs s)) s [].

Definition put_fs (fs : FS) : M unit := fun _ s =>
  mkRun (Py.Returns tt) {| st_fs := fs; st_stdin := st_stdin s; st_tick := st_tick s |} [].

(** *** Primitives *)

Definition logger_info (msg : string) : M unit := emit (Log INFO msg).
Definition logger_warning (msg : string) : M unit := emit (Log WARNING msg).
Definition logger_error (msg : string) : M unit := emit (Log ERROR msg).
Definition print (line : string) : M unit := emit (Print line).

(** [input(prompt)]: one line of standard input; [EOFError] at its end. *)
Definition input (prompt : string) : M string := fun _ s =>
  match st_stdin s with
  | line :: rest =>
      mkRun (Py.Returns line)
            {| st_fs := st_fs s; st_stdin := rest; st_tick := st_tick s |}
            [Input prompt]
  | [] => mkRun (Py.Raises (Py.Exn Py.EOFError "EOF when reading a line")) s [Input prompt]
  end.

(** [datetime.now()] *)
Definition datetime_now : M DateTime := fun h s =>
  mkRun (Py.Returns (clock h (st_tick s)))
        {| st_fs := st_fs s; st_stdin := st_stdin s; st_tick := S (st_tick s) |} [].

(** [os.makedirs(p, exist_ok=True)] for a path of one component. *)
Definition os_makedirs (p : string) : M unit :=
  emit (Makedirs p) ;;
  fs <- get_fs ;;
  match lookup p fs with
  | Some Dir => ret tt
  | Some (File _) =>
      raise (Py.Exn Py.FileExistsError ("[Errno 17] File exists: '" ++ p ++ "'"))
  | None => put_fs (store p Dir fs)
  end.

(** [list(Path(d).glob("*.txt"))] *)
Definition glob (d : string) : M (list string) :=
  emit (Glob d) ;;
  fs <- get_fs ;;
  ret (glob_txt d fs).

(** [p.exists()] *)
Definition path_exists (p : string) : M bool :=
  fs <- get_fs ;;
  ret (match lookup p fs with Some _ => true | None => false end).

(** [with open(p, 'r', encoding='utf-8') as f: return f.read()] *)
Definition open_read (p : string) : M string :=
  emit (OpenRead p) ;;
  fs <- get_fs ;;
  match lookup p fs with
  | Some (File c) => ret c
  | Some Dir => raise (Py.Exn Py.IsADirectoryError ("[Errno 21] Is a directory: '" ++ p ++ "'"))
  | None => raise (Py.Exn Py.FileNotFoundError ("[Errno 2] No such file or directory: '" ++ p ++ "'"))
  end.

(** Can [open(p, 'w')] succeed? *)
Definition writable (p : string) (fs : FS) : bool :=
  negb (dir_exists p fs) && dir_exists (PathLib.parent p) fs.

(** [with open(p, 'w', encoding='utf-8') as f: f.write(content)] *)
Definition open_write (p content : string) : M unit :=
  fs <- get_fs ;;
  if dir_exists p fs then
    emit (WriteRefused p) ;;
    raise (Py.Exn Py.IsADirectoryError ("[Errno 21] Is a directory: '" ++ p ++ "'"))
  else if dir_exists (PathLib.parent p) fs then
    put_fs (store p (File content) fs) ;;
    emit (WriteFile p content)
  else
    emit (WriteRefused p) ;;
    raise (Py.Exn Py.FileNotFoundError ("[Errno 2] No such file or directory: '" ++ p ++ "'")).

(** Exceptions raised by a service call. *)
Definition call_raising (r : option Py.exn) : M unit :=
  match r with Some e => raise e | None => ret tt end.

(** A line feed. *)
Definition LF : string := String "010"%char EmptyString.

(** ** Command line ([argparse])

    The command line after [argparse] has split it: an option with its
    value ([--flag value] or [--flag=value]), or an option alone.  An
    abbreviated long option stands here under its full option string. *)

Inductive CliArg :=
  | OptValue (flag value : string)
  | OptSwitch (flag : string).

(** What one argument does to the namespace being built. *)
Inductive Step (Args : Type) :=
  | Set_ (ns : Args)        (* a declared option, stored *)
  | SetStray (ns : Args)    (* a declared switch followed by a stray word *)
  | Missing                 (* a declared option that lacks its value *)
  | Unrecognized.           (* not declared by this parser *)
Arguments Set_ {Args} ns.
Arguments SetStray {Args} ns.
Arguments Missing {Args}.
Arguments Unrecognized {Args}.

Definition flag_of (a : CliArg) : string :=
  match a with OptValue f _ => f | OptSwitch f => f end.

Definition is_help (a : CliArg) : bool :=
  String.eqb (flag_of a) "--help" || String.eqb (flag_of a) "-h".

Inductive Parsed (Args : Type) :=
  | Namespace (ns : Args)
  | Help
  | Error.
Arguments Namespace {Args} ns.
Arguments Help {Args}.
Arguments Error {Args}.

(** Arguments are consumed from left to right: the help option ends the
    run at once, and so does a missing value; unrecognized arguments are
    reported once all arguments are consumed. *)
Fixpoint consume {Args} (step : CliArg -> Args -> Step Args)
         (argv : list CliArg) (ns : Args) (stray : bool) : Parsed Args :=
  match argv with
  | [] => if stray then Error else Namespace ns
  | a :: rest =>
      if is_help a then Help
      else match step a ns with
           | Set_ ns' => consume step rest ns' stray
           | SetStray ns' => consume step rest ns' true
           | Missing => Error
           | Unrecognized => consume step rest ns true
           end
  end.

(** [parser.parse_args()] *)
Definition parse_args {Args} (step : CliArg -> Args -> Step Args)
           (defaults : Args) (argv : list CliArg) : M Args :=
  match consume step argv defaults false with
  | Namespace ns => ret ns
  | Help => emit (Usage "help") ;; sys_exit 0
  | Error => emit (Usage "error") ;; sys_exit 2
  end.

(** [for i, prompt in enumerate(prompts, i): print(f"{i}. {prompt.stem}")] *)
Fixpoint print_numbered (i : nat) (prompts : list string) : M unit :=
  match prompts with
  | [] => ret tt
  | p :: rest =>
      print (Py.str_of_nat i ++ ". " ++ PathLib.stem p) ;;
      print_numbered (S i) rest
  end.

(** [prompts[idx]] for an index already known to be non-negative. *)
Definition list_item (prompts : list string) (idx : Z) : M string :=
  match nth_error prompts (Z.to_nat idx) with
  | Some p => ret p
  | None => raise (Py.Exn Py.IndexError "list index out of range")
  end.

(** The [ValueError] of [int(selection)]. *)
Definition int_error (selection : string) : Py.exn :=
  Py.Exn Py.ValueError ("invalid literal for int() with base 10: '" ++ selection ++ "'").

(** ** gemini_api.py *)

Module Gemini.

Definition PROMPTS_DIR : string := "prompts".
Definition REPORTS_DIR : string := "reports".
Definition DEFAULT_MODEL : string := "gemini-2.5-flash-preview-04-17".

(** The submitter object; [client] holds the key the client was built
    with, [None] when there is no client. *)
Record GeminiPromptSubmitter := {
  api_key : option string;
  client : option string
}.

(** [GeminiPromptSubmitter.__init__] *)
Definition init (api_key_arg : option string) : M GeminiPromptSubmitter :=
  env <- ask (fun h => getenv h "GEMINI_API_KEY") ;;
  let key := Py.or_else api_key_arg env in
  match key with
  | Some k =>
      if negb (Py.truthy k) then
        logger_error "GEMINI_API_KEY not found in environment variables or .env file." ;;
        ret {| api_key := key; client := None |}
      else
        try_except
          (r <- ask (fun h => genai_Client h k) ;;
           call_raising r ;;
           logger_info "Gemini API client initialized successfully." ;;
           ret {| api_key := key; client := Some k |})
          Py.is_Exception
          (fun e =>
             logger_error ("Error initializing Gemini API client: " ++ Py.exn_msg e) ;;
             ret {| api_key := key; client := None |})
  | None =>
      logger_error "GEMINI_API_KEY not found in environment variables or .env file." ;;
      ret {| api_key := key; client := None |}
  end.

(** [read_prompt] *)
Definition read_prompt (self : GeminiPromptSubmitter) (prompt_file : string) : M string :=
  open_read prompt_file.

Definition error_response (detail : string) : string :=
  "# Gemini API Error" ++ LF ++ LF ++ "```" ++ LF ++ detail ++ LF ++ "```".

Definition simulation_response : string :=
  "# Gemini Response (Simulation)" ++ LF ++ LF
  ++ "This is a simulated response because the Gemini API client was not available.".

(** [submit_prompt].  The preview handed to [logger.debug] is not printed
    at the configured level, but it is computed: slicing a missing text
    raises. *)
Definition submit_prompt (self : GeminiPromptSubmitter) (prompt model : string) : M string :=
  logger_info ("Submitting prompt to Gemini. Prompt length: "
               ++ Py.str_of_nat (String.length prompt) ++ ". Model: " ++ model) ;;
  match client self with
  | Some _ =>
      try_except
        (emit (GenaiGenerate model prompt) ;;
         reply <- ask (fun h => genai_generate_content h model prompt) ;;
         match reply with
         | GenaiRaises e => raise e
         | GenaiResponse text =>
             logger_info "Gemini submission complete. Response received." ;;
             match text with
             | Some t => ret t
             | None => raise (Py.Exn Py.TypeError "'NoneType' object is not subscriptable")
             end
         end)
        Py.is_Exception
        (fun e =>
           logger_error ("Error calling Gemini API: " ++ Py.exn_msg e) ;;
           ret (error_response (Py.exn_msg e)))
  | None =>
      logger_info "[SIMULATION] Would send prompt to Gemini here..." ;;
      ret simulation_response
  end.

Definition metadata (prompt_name submission_time : string) : string :=
  "---" ++ LF
  ++ "prompt: " ++ prompt_name ++ LF
  ++ "submitted_at: " ++ submission_time ++ LF
  ++ "model: gemini-2.5-flash-preview-04-17" ++ LF
  ++ "---" ++ LF ++ LF.

(** [save_response] *)
Definition save_response (self : GeminiPromptSubmitter)
           (response output_file prompt_name submission_time : string) : M unit :=
  try_except
    (open_write output_file (metadata prompt_name submission_time ++ response) ;;
     logger_info ("Response saved to " ++ output_file))
    Py.is_Exception
    (fun e => logger_error ("Error saving response: " ++ Py.exn_msg e)).

(** [find_prompt_file] *)
Definition find_prompt_file (prompt_name : option string) : M string :=
  let prompts_dir := PathLib.Path PROMPTS_DIR in
  if negb (Py.truthy_opt prompt_name) then
    prompts <- glob prompts_dir ;;
    match prompts with
    | [] =>
        logger_error ("No prompt files found in " ++ prompts_dir) ;;
        sys_exit 1
    | _ :: _ =>
        print "Available prompts:" ;;
        print_numbered 1 prompts ;;
        selection <- input (LF ++ "Enter prompt number to use: ") ;;
        try_except
          (match Py.int selection with
           | Some i =>
               let selected_idx := (i - 1)%Z in
               if ((0 <=? selected_idx) && (selected_idx <? Z.of_nat (List.length prompts)))%Z
               then list_item prompts selected_idx
               else logger_error "Invalid selection" ;; sys_exit 1
           | None => raise (int_error selection)
           end)
          Py.is_ValueError
          (fun _ => logger_error "Invalid input" ;; sys_exit 1)
    end
  else
    let prompt_file :=
      PathLib.join prompts_dir
        (match prompt_name with Some n => n | None => "" end ++ ".txt") in
    found <- path_exists prompt_file ;;
    if negb found then
      logger_error ("Prompt file not found: " ++ prompt_file) ;;
      sys_exit 1
    else ret prompt_file.

(** The namespace [parse_args] returns. *)
Record Args := {
  prompt : option string;
  output : option string;
  model : string
}.

Definition defaults : Args :=
  {| prompt := None; output := None; model := DEFAULT_MODEL |}.

(** The three [add_argument] declarations. *)
Definition add_arguments (a : CliArg) (ns : Args) : Step Args :=
  match a with
  | OptValue f v =>
      if String.eqb f "--prompt" then
        Set_ {| prompt := Some v; output := output ns; model := model ns |}
      else if String.eqb f "--output" then
        Set_ {| prompt := prompt ns; output := Some v; model := model ns |}
      else if String.eqb f "--model" then
        Set_ {| prompt := prompt ns; output := output ns; model := v |}
      else Unrecognized
  | OptSwitch f =>
      if String.eqb f "--prompt" || String.eqb f "--output" || String.eqb f "--model"
      then Missing else Unrecognized
  end.

(** [main]; [argv] is [sys.argv[1:]]. *)
Definition main (argv : list CliArg) : M unit :=
  args <- parse_args add_arguments defaults argv ;;
  prompt_file <- find_prompt_file (prompt args) ;;
  let prompt_name := PathLib.stem prompt_file in
  now <- datetime_now ;;
  let submission_time := strftime_compact now in
  let reports_dir := PathLib.Path REPORTS_DIR in
  os_makedirs reports_dir ;;
  let output_file :=
    match output args with
    | Some o => PathLib.Path o
    | None => PathLib.join reports_dir
                ("gemini_" ++ prompt_name ++ "_" ++ submission_time ++ ".md")
    end in
  submitter <- init None ;;
  prompt <- read_prompt submitter prompt_file ;;
  response <- submit_prompt submitter prompt (model args) ;;
  now' <- datetime_now ;;
  let formatted_time := strftime_iso now' in
  save_response submitter response output_file prompt_name formatted_time.

End Gemini.

(** ** xai_prompt_submitter.py *)

Module XAI.

Definition PROMPTS_DIR : string := "prompts".
Definition REPORTS_DIR : string := "reports".

Record XAIPromptSubmitter := {
  api_key : option string;
  client : option string
}.

(** [XAIPromptSubmitter.__init__]: only a [TypeError] of the first
    construction leads to the second one. *)
Definition init (api_key_arg : option string) : M XAIPromptSubmitter :=
  env <- ask (fun h => getenv h "XAI_API_KEY") ;;
  let key := Py.or_else api_key_arg env in
  (if negb (Py.truthy_opt key) then
     logger_error "XAI_API_KEY not found in environment variables or .env file."
   else ret tt) ;;
  match key with
  | Some k =>
      if Py.truthy k then
        try_except
          (r <- ask (fun h => OpenAI_with_transport h k) ;;
           call_raising r ;;
           ret {| api_key := key; client := Some k |})
          Py.is_TypeError
          (fun _ =>
             logger_warning "Could not configure custom httpx transport, using default client" ;;
             r <- ask (fun h => OpenAI_default h k) ;;
             call_raising r ;;
             ret {| api_key := key; client := Some k |})
      else ret {| api_key := key; client := None |}
  | None => ret {| api_key := key; client := None |}
  end.

(** [read_prompt] *)
Definition read_prompt (self : XAIPromptSubmitter) (prompt_file : string) : M string :=
  open_read prompt_file.

Definition error_response (detail : string) : string :=
  "# xAI API Error" ++ LF ++ LF ++ "```" ++ LF ++ detail ++ LF ++ "```".

Definition simulation_response : string :=
  "# xAI Response (Simulation)" ++ LF ++ LF
  ++ "This is a simulated response because the xAI API client was not available.".

(** [submit_prompt]: the model is fixed; [choices[0]] of an empty list and
    slicing a missing content raise inside the [try]. *)
Definition submit_prompt (self : XAIPromptSubmitter) (prompt : string) : M string :=
  logger_info ("Submitting prompt to xAI. Prompt length: "
               ++ Py.str_of_nat (String.length prompt) ++ ".") ;;
  match client self with
  | Some _ =>
      try_except
        (emit (ChatCreate "grok-3-beta" prompt) ;;
         reply <- ask (fun h => chat_completions_create h "grok-3-beta" prompt) ;;
         match reply with
         | ChatRaises e => raise e
         | ChatCompletion choices =>
             logger_info "xAI submission complete. Response received." ;;
             match choices with
             | Some t :: _ => ret t
             | None :: _ => raise (Py.Exn Py.TypeError "'NoneType' object is not subscriptable")
             | [] => raise (Py.Exn Py.IndexError "list index out of range")
             end
         end)
        Py.is_Exception
        (fun e =>
           logger_error ("Error calling xAI API: " ++ Py.exn_msg e) ;;
           ret (error_response (Py.exn_msg e)))
  | None =>
      logger_info "[SIMULATION] Would send prompt to xAI here..." ;;
      ret simulation_response
  end.

Definition metadata (prompt_name submission_time : string) : string :=
  "---" ++ LF
  ++ "prompt: " ++ prompt_name ++ LF
  ++ "submitted_at: " ++ submission_time ++ LF
  ++ "---" ++ LF ++ LF.

(** [save_response] *)
Definition save_response (self : XAIPromptSubmitter)
           (response output_file prompt_name submission_time : string) : M unit :=
  try_except
    (open_write output_file (metadata prompt_name submission_time ++ response) ;;
     logger_info ("Response saved to " ++ output_file))
    Py.is_Exception
    (fun e => logger_error ("Error saving response: " ++ Py.exn_msg e)).

(** [find_prompt_file] *)
Definition find_prompt_file (prompt_name : option string) : M string :=
  let prompts_dir := PathLib.Path PROMPTS_DIR in
  if negb (Py.truthy_opt prompt_name) then
    prompts <- glob prompts_dir ;;
    match prompts with
    | [] =>
        logger_error ("No prompt files found in " ++ prompts_dir) ;;
        sys_exit 1
    | _ :: _ =>
        print "Available prompts:" ;;
        print_numbered 1 prompts ;;
        selection <- input (LF ++ "Enter prompt number to use: ") ;;
        try_except
          (match Py.int selection with
           | Some i =>
               let selected_idx := (i - 1)%Z in
               if ((0 <=? selected_idx) && (selected_idx <? Z.of_nat (List.length prompts)))%Z
               then list_item prompts selected_idx
               else logger_error "Invalid selection" ;; sys_exit 1
           | None => raise (int_error selection)
           end)
          Py.is_ValueError
          (fun _ => logger_error "Invalid input" ;; sys_exit 1)
    end
  else
    let prompt_file :=
      PathLib.join prompts_dir
        (match prompt_name with Some n => n | None => "" end ++ ".txt") in
    found <- path_exists prompt_file ;;
    if negb found then
      logger_error ("Prompt file not found: " ++ prompt_file) ;;
      sys_exit 1
    else ret prompt_file.

(** The namespace [parse_args] returns: this parser declares no model. *)
Record Args := {
  prompt : option string;
  output : option string
}.

Definition defaults : Args := {| prompt := None; output := None |}.

(** The two [add_argument] declarations. *)
Definition add_arguments (a : CliArg) (ns : Args) : Step Args :=
  match a with
  | OptValue f v =>
      if String.eqb f "--prompt" then
        Set_ {| prompt := Some v; output := output ns |}
      else if String.eqb f "--output" then
        Set_ {| prompt := prompt ns; output := Some v |}
      else Unrecognized
  | OptSwitch f =>
      if String.eqb f "--prompt" || String.eqb f "--output"
      then Missing else Unrecognized
  end.

(** [main]; [argv] is [sys.argv[1:]]. *)
Definition main (argv : list CliArg) : M unit :=
  args <- parse_args add_arguments defaults argv ;;
  prompt_file <- find_prompt_file (prompt args) ;;
  let prompt_name := PathLib.stem prompt_file in
  now <- datetime_now ;;
  let submission_time := strftime_compact now in
  let reports_dir := PathLib.Path REPORTS_DIR in
  os_makedirs reports_dir ;;
  let output_file :=
    match output args with
    | Some o => PathLib.Path o
    | None => PathLib.join reports_dir
                ("xai_" ++ prompt_name ++ "_" ++ submission_time ++ ".md")
    end in
  submitter <- init None ;;
  prompt <- read_prompt submitter prompt_file ;;
  response <- submit_prompt submitter prompt ;;
  now' <- datetime_now ;;
  let formatted_time := strftime_iso now' in
  save_response submitter response output_file prompt_name formatted_time.

End XAI.

(** ** ollama_prompt_submitter.py *)

Module Ollama.

Definition PROMPTS_DIR : string := "prompts".
Definition REPORTS_DIR : string := "reports".
Definition DEFAULT_MODEL : string := "gemma3:12b-it-q8_0".

Record OllamaPromptSubmitter := { model : string }.

(** [model_info.get('model') or model_info.get('name', '')] *)
Definition model_name_of (model_info : ModelInfo) : string :=
  let by_name := match mi_name model_info with Some n => n | None => "" end in
  match mi_model model_info with
  | Some m => if Py.truthy m then m else by_name
  | None => by_name
  end.

(** [model_name == self.model or model_name.startswith(f"{self.model}:")] *)
Definition matches (self_model model_name : string) : bool :=
  String.eqb model_name self_model || Py.startswith model_name (self_model ++ ":").

(** The loop over the catalog, left at the first match. *)
Fixpoint find_model (self_model : string) (models : list ModelInfo) : M bool :=
  match models with
  | [] => ret false
  | model_info :: rest =>
      let model_name := model_name_of model_info in
      if matches self_model model_name then
        logger_info ("Found model: " ++ model_name) ;;
        ret true
      else find_model self_model rest
  end.

(** [OllamaPromptSubmitter.__init__] *)
Definition init (model_arg : option string) : M OllamaPromptSubmitter :=
  let self_model :=
    match model_arg with
    | Some m => if Py.truthy m then m else DEFAULT_MODEL
    | None => DEFAULT_MODEL
    end in
  logger_info ("Initialized Ollama client with model: " ++ self_model) ;;
  try_except
    (emit OllamaList ;;
     reply <- ask ollama_list ;;
     match reply with
     | ListRaises e => raise e
     | ListResponse models =>
         model_found <-
           match models with
           | Some ((_ :: _) as l) => find_model self_model l
           | _ => ret false
           end ;;
         if negb model_found then
           logger_info ("Model '" ++ self_model ++ "' not found locally. Attempting to pull...") ;;
           emit (OllamaPull self_model) ;;
           r <- ask (fun h => ollama_pull h self_model) ;;
           call_raising r ;;
           logger_info ("Successfully pulled model: " ++ self_model)
         else ret tt
     end)
    Py.is_Exception
    (fun e =>
       logger_error ("Error initializing Ollama: " ++ Py.exn_msg e) ;;
       logger_error "Make sure the Ollama service is running. You can start it with 'ollama serve'" ;;
       raise e) ;;
  ret {| model := self_model |}.

(** [read_prompt] *)
Definition read_prompt (self : OllamaPromptSubmitter) (prompt_file : string) : M string :=
  open_read prompt_file.

Definition error_response (error_msg : string) : string :=
  "# Ollama API Error" ++ LF ++ LF ++ "```" ++ LF ++ error_msg ++ LF ++ "```".

(** [submit_prompt]; the sampling options are constants of the call. *)
Definition submit_prompt (self : OllamaPromptSubmitter) (prompt : string) : M string :=
  logger_info ("Submitting prompt to Ollama model '" ++ model self
               ++ "'. Prompt length: " ++ Py.str_of_nat (String.length prompt)) ;;
  try_except
    (emit (OllamaGenerate (model self) prompt) ;;
     reply <- ask (fun h => ollama_generate h (model self) prompt) ;;
     match reply with
     | GenerateRaises e => raise e
     | GenerateResponse response =>
         logger_info "Ollama generation complete. Response received." ;;
         ret (match response with Some t => t | None => "No response generated." end)
     end)
    Py.is_Exception
    (fun e =>
       let error_msg := "Error calling Ollama API: " ++ Py.exn_msg e in
       logger_error error_msg ;;
       ret (error_response error_msg)).

Definition metadata (self : OllamaPromptSubmitter) (prompt_name submission_time : string) : string :=
  "---" ++ LF
  ++ "model: " ++ model self ++ LF
  ++ "prompt: " ++ prompt_name ++ LF
  ++ "submitted_at: " ++ submission_time ++ LF
  ++ "---" ++ LF ++ LF.

(** [save_response] *)
Definition save_response (self : OllamaPromptSubmitter)
           (response output_file prompt_name submission_time : string) : M unit :=
  try_except
    (open_write output_file (metadata self prompt_name submission_time ++ response) ;;
     logger_info ("Response saved to " ++ output_file))
    Py.is_Exception
    (fun e => logger_error ("Error saving response: " ++ Py.exn_msg e)).

(** [find_prompt_file] *)
Definition find_prompt_file (prompt_name : option string) : M string :=
  let prompts_dir := PathLib.Path PROMPTS_DIR in
  os_makedirs prompts_dir ;;
  if negb (Py.truthy_opt prompt_name) then
    prompts <- glob prompts_dir ;;
    match prompts with
    | [] =>
        logger_error ("No prompt files found in " ++ prompts_dir) ;;
        print ("No prompt files found in " ++ prompts_dir
               ++ ". Please create a prompt file in the 'prompts' directory.") ;;
        sys_exit 1
    | _ :: _ =>
        print "Available prompts:" ;;
        print_numbered 1 prompts ;;
        selection <- input (LF ++ "Enter prompt number to use: ") ;;
        try_except
          (match Py.int selection with
           | Some i =>
               let selected_idx := (i - 1)%Z in
               if ((0 <=? selected_idx) && (selected_idx <? Z.of_nat (List.length prompts)))%Z
               then list_item prompts selected_idx
               else logger_error "Invalid selection" ;; sys_exit 1
           | None => raise (int_error selection)
           end)
          Py.is_ValueError
          (fun _ => logger_error "Invalid input" ;; sys_exit 1)
    end
  else
    let n := match prompt_name with Some n => n | None => "" end in
    let prompt_file := PathLib.join prompts_dir (n ++ ".txt") in
    found <- path_exists prompt_file ;;
    if negb found then
      logger_error ("Prompt file not found: " ++ prompt_file) ;;
      print ("Error: Prompt file '" ++ n ++ ".txt' not found in the 'prompts' directory.") ;;
      sys_exit 1
    else ret prompt_file.

(** [f"{model_size/1024/1024/1024:.1f}GB"]: the size in units of 2^30
    bytes, rounded to one decimal, ties to the even digit (exact for the
    sizes a double holds exactly, below 2^53). *)
Definition format_gb (size : Z) : string :=
  let q := (size * 10 / 2 ^ 30)%Z in
  let r := (size * 10 mod 2 ^ 30)%Z in
  let tenths :=
    if (r <? 2 ^ 29)%Z then q
    else if (2 ^ 29 <? r)%Z then (q + 1)%Z
    else if Z.even q then q else (q + 1)%Z in
  Py.str_of_nat (Z.to_nat (tenths / 10)) ++ "."
  ++ Py.str_of_nat (Z.to_nat (tenths mod 10)) ++ "GB".

(** The loop of [--list-models] over the catalog. *)
Fixpoint print_models (models : list ModelInfo) : M unit :=
  match models with
  | [] => ret tt
  | m :: rest =>
      let model_name := match mi_name m with Some n => n | None => "unnamed" end in
      let size := match mi_size m with Some z => z | None => 0%Z end in
      let model_size := if (0 <? size)%Z then format_gb size else "N/A" in
      let modified := match mi_modified_at m with Some d => d | None => "N/A" end in
      print ("- " ++ model_name ++ " (size: " ++ model_size
             ++ ", modified: " ++ modified ++ ")") ;;
      print_models rest
  end.

(** The namespace [parse_args] returns. *)
Record Args := {
  prompt : option string;
  output : option string;
  arg_model : string;
  list_models : bool
}.

Definition defaults : Args :=
  {| prompt := None; output := None; arg_model := DEFAULT_MODEL; list_models := false |}.

(** The four [add_argument] declarations. *)
Definition add_arguments (a : CliArg) (ns : Args) : Step Args :=
  let listing := {| prompt := prompt ns; output := output ns;
                    arg_model := arg_model ns; list_models := true |} in
  match a with
  | OptValue f v =>
      if String.eqb f "--prompt" then
        Set_ {| prompt := Some v; output := output ns;
                arg_model := arg_model ns; list_models := list_models ns |}
      else if String.eqb f "--output" then
        Set_ {| prompt := prompt ns; output := Some v;
                arg_model := arg_model ns; list_models := list_models ns |}
      else if String.eqb f "--model" then
        Set_ {| prompt := prompt ns; output := output ns;
                arg_model := v; list_models := list_models ns |}
      else if String.eqb f "--list-models" then SetStray listing
      else Unrecognized
  | OptSwitch f =>
      if String.eqb f "--prompt" || String.eqb f "--output" || String.eqb f "--model"
      then Missing
      else if String.eqb f "--list-models" then Set_ listing
      else Unrecognized
  end.

(** [main]; [argv] is [sys.argv[1:]]. *)
Definition main (argv : list CliArg) : M unit :=
  args <- parse_args add_arguments defaults argv ;;
  if list_models args then
    try_except
      (print "Available Ollama models:" ;;
       emit OllamaList ;;
       reply <- ask ollama_list ;;
       match reply with
       | ListRaises e => raise e
       | ListResponse (Some models) => print_models models
       | ListResponse None =>
           print "No models found. Try running 'ollama pull <model_name>' first."
       end)
      Py.is_Exception
      (fun e =>
         print ("Error listing models: " ++ Py.exn_msg e) ;;
         print "Make sure the Ollama service is running. You can start it by running 'ollama serve' in a terminal.")
  else
    prompt_file <- find_prompt_file (prompt args) ;;
    let prompt_name := PathLib.stem prompt_file in
    now <- datetime_now ;;
    let submission_time := strftime_compact now in
    let reports_dir := PathLib.Path REPORTS_DIR in
    os_makedirs reports_dir ;;
    let output_file :=
      match output args with
      | Some o => PathLib.Path o
      | None => PathLib.join reports_dir
                  ("ollama_" ++ prompt_name ++ "_" ++ submission_time ++ ".md")
      end in
    try_except
      (submitter <- init (Some (arg_model args)) ;;
       prompt <- read_prompt submitter prompt_file ;;
       response <- submit_prompt submitter prompt ;;
       now' <- datetime_now ;;
       let formatted_time := strftime_iso now' in
       save_response submitter response output_file prompt_name formatted_time ;;
       print (LF ++ "Response saved to: " ++ output_file))
      Py.is_Exception
      (fun e =>
         logger_error ("An error occurred: " ++ Py.exn_msg e) ;;
         sys_exit 1).

End Ollama.

(** ** Vocabulary of the properties *)

(** The three scripts. *)
Inductive Script := CloudA | CloudB | Local.

(** A constructed submitter of one of the scripts. *)
Inductive Submitter :=
  | GeminiSelf (self : Gemini.GeminiPromptSubmitter)
  | XAISelf (self : XAI.XAIPromptSubmitter)
  | OllamaSelf (self : Ollama.OllamaPromptSubmitter).

Definition save_response (sub : Submitter) : string -> string -> string -> string -> M unit :=
  match sub with
  | GeminiSelf self => Gemini.save_response self
  | XAISelf self => XAI.save_response self
  | OllamaSelf self => Ollama.save_response self
  end.

Definition find_prompt_file (v : Script) : option string -> M string :=
  match v with
  | CloudA => Gemini.find_prompt_file
  | CloudB => XAI.find_prompt_file
  | Local => Ollama.find_prompt_file
  end.

Definition main (v : Script) : list CliArg -> M unit :=
  match v with
  | CloudA => Gemini.main
  | CloudB => XAI.main
  | Local => Ollama.main
  end.

(** Files written, files opened for reading, submissions made (model and
    prompt), models pulled, directories asked for, lines asked for, error
    log lines and printed lines of a run. *)
Definition written (evs : list Event) : list (string * string) :=
  flat_map (fun e => match e with WriteFile p c => [(p, c)] | _ => [] end) evs.

Definition opened (evs : list Event) : list string :=
  flat_map (fun e => match e with OpenRead p => [p] | _ => [] end) evs.

Definition submitted (evs : list Event) : list (string * string) :=
  flat_map (fun e => match e with
                     | GenaiGenerate m p => [(m, p)]
                     | ChatCreate m p => [(m, p)]
                     | OllamaGenerate m p => [(m, p)]
                     | _ => []
                     end) evs.

Definition pulled (evs : list Event) : list string :=
  flat_map (fun e => match e with OllamaPull m => [m] | _ => [] end) evs.

Definition made_dirs (evs : list Event) : list string :=
  flat_map (fun e => match e with Makedirs p => [p] | _ => [] end) evs.

Definition asked (evs : list Event) : list string :=
  flat_map (fun e => match e with Input p => [p] | _ => [] end) evs.

Definition error_log (evs : list Event) : list string :=
  flat_map (fun e => match e with Log ERROR m => [m] | _ => [] end) evs.

Definition printed (evs : list Event) : list string :=
  flat_map (fun e => match e with Print l => [l] | _ => [] end) evs.

(** [l] is the first line of [s]. *)
Definition first_line (l s : string) : Prop :=
  exists rest, s = l ++ LF ++ rest.

(** [s] holds the text [l] from the start of a line up to a line feed. *)
Definition has_line (l s : string) : Prop :=
  exists pre post,
    s = pre ++ l ++ LF ++ post /\ (pre = "" \/ exists pre', pre = pre' ++ LF).

(** [s] ends with a line [---], one empty line, and then [body]. *)
Definition body_after_header (s body : string) : Prop :=
  exists hdr, s = hdr ++ LF ++ "---" ++ LF ++ LF ++ body.

(** [s.split("\n")] *)
Fixpoint split_lines (s : string) : list string :=
  match s with
  | EmptyString => [EmptyString]
  | String c r =>
      if Ascii.eqb c "010" then EmptyString :: split_lines r
      else match split_lines r with
           | l :: ls => String c l :: ls
           | [] => [String c EmptyString]
           end
  end.

(** No line feed occurs in [s]. *)
Fixpoint one_line (s : string) : bool :=
  match s with
  | EmptyString => true
  | String c r => negb (Ascii.eqb c "010") && one_line r
  end.

(** A [save_response] whose [try] block writes [c] to [out]. *)
Definition saving (out c : string) : M unit :=
  try_except
    (open_write out c ;; logger_info ("Response saved to " ++ out))
    Py.is_Exception
    (fun e => logger_error ("Error saving response: " ++ Py.exn_msg e)).

(** The lines [print_numbered] prints. *)
Fixpoint numbered (i : nat) (prompts : list string) : list Event :=
  match prompts with
  | [] => []
  | p :: rest => Print (Py.str_of_nat i ++ ". " ++ PathLib.stem p) :: numbered (S i) rest
  end.

(** The [try] block of the interactive selection, as the three scripts
    have it. *)
Definition pick (prompts : list string) (selection : string) : M string :=
  try_except
    (match Py.int selection with
     | Some i =>
         let selected_idx := (i - 1)%Z in
         if ((0 <=? selected_idx) && (selected_idx <? Z.of_nat (List.length prompts)))%Z
         then list_item prompts selected_idx
         else logger_error "Invalid selection" ;; sys_exit 1
     | None => raise (int_error selection)
     end)
    Py.is_ValueError
    (fun _ => logger_error "Invalid input" ;; sys_exit 1).

(** The listing and the question of the interactive selection. *)
Definition choose (prompts : list string) : M string :=
  print "Available prompts:" ;;
  print_numbered 1 prompts ;;
  selection <- input (LF ++ "Enter prompt number to use: ") ;;
  pick prompts selection.

(** Does this command line reach the interactive selection? *)
Definition interactive (v : Script) (argv : list CliArg) : bool :=
  match v with
  | CloudA =>
      match consume Gemini.add_arguments argv Gemini.defaults false with
      | Namespace a => negb (Py.truthy_opt (Gemini.prompt a))
      | _ => false
      end
  | CloudB =>
      match consume XAI.add_arguments argv XAI.defaults false with
      | Namespace a => negb (Py.truthy_opt (XAI.prompt a))
      | _ => false
      end
  | Local =>
      match consume Ollama.add_arguments argv Ollama.defaults false with
      | Namespace a => negb (Py.truthy_opt (Ollama.prompt a)) && negb (Ollama.list_models a)
      | _ => false
      end
  end.

(** Events of the console and of directory housekeeping: no file is
    opened, no service is called. *)
Definition console (e : Event) : bool :=
  match e with
  | Log _ _ | Print _ | Usage _ | Input _ | Makedirs _ | Glob _ => true
  | _ => false
  end.

(** [main] of [gemini_api.py] once the prompt file is found. *)
Definition gemini_tail (args : Gemini.Args) (prompt_file : string) : M unit :=
  let prompt_name := PathLib.stem prompt_file in
  now <- datetime_now ;;
  let submission_time := strftime_compact now in
  let reports_dir := PathLib.Path Gemini.REPORTS_DIR in
  os_makedirs reports_dir ;;
  let output_file :=
    match Gemini.output args with
    | Some o => PathLib.Path o
    | None => PathLib.join reports_dir
                ("gemini_" ++ prompt_name ++ "_" ++ submission_time ++ ".md")
    end in
  submitter <- Gemini.init None ;;
  prompt <- Gemini.read_prompt submitter prompt_file ;;
  response <- Gemini.submit_prompt submitter prompt (Gemini.model args) ;;
  now' <- datetime_now ;;
  let formatted_time := strftime_iso now' in
  Gemini.save_response submitter response output_file prompt_name formatted_time.

(** [main] of [xai_prompt_submitter.py] once the prompt file is found. *)
Definition xai_tail (args : XAI.Args) (prompt_file : string) : M unit :=
  let prompt_name := PathLib.stem prompt_file in
  now <- datetime_now ;;
  let submission_time := strftime_compact now in
  let reports_dir := PathLib.Path XAI.REPORTS_DIR in
  os_makedirs reports_dir ;;
  let output_file :=
    match XAI.output args with
    | Some o => PathLib.Path o
    | None => PathLib.join reports_dir
                ("xai_" ++ prompt_name ++ "_" ++ submission_time ++ ".md")
    end in
  submitter <- XAI.init None ;;
  prompt <- XAI.read_prompt submitter prompt_file ;;
  response <- XAI.submit_prompt submitter prompt ;;
  now' <- datetime_now ;;
  let formatted_time := strftime_iso now' in
  XAI.save_response submitter response output_file prompt_name formatted_time.

(** The [try] block that ends [main] of [ollama_prompt_submitter.py]. *)
Definition ollama_work (args : Ollama.Args) (prompt_file output_file : string) : M unit :=
  submitter <- Ollama.init (Some (Ollama.arg_model args)) ;;
  prompt <- Ollama.read_prompt submitter prompt_file ;;
  response <- Ollama.submit_prompt submitter prompt ;;
  now' <- datetime_now ;;
  let formatted_time := strftime_iso now' in
  Ollama.save_response submitter response output_file (PathLib.stem prompt_file) formatted_time ;;
  print (LF ++ "Response saved to: " ++ output_file).

(** [main] of [ollama_prompt_submitter.py] once the prompt file is found. *)
Definition ollama_tail (args : Ollama.Args) (prompt_file : string) : M unit :=
  let prompt_name := PathLib.stem prompt_file in
  now <- datetime_now ;;
  let submission_time := strftime_compact now in
  let reports_dir := PathLib.Path Ollama.REPORTS_DIR in
  os_makedirs reports_dir ;;
  let output_file :=
    match Ollama.output args with
    | Some o => PathLib.Path o
    | None => PathLib.join reports_dir
                ("ollama_" ++ prompt_name ++ "_" ++ submission_time ++ ".md")
    end in
  try_except
    (ollama_work args prompt_file output_file)
    Py.is_Exception
    (fun e =>
       logger_error ("An error occurred: " ++ Py.exn_msg e) ;;
       sys_exit 1).

(** The [--list-models] branch of [main]. *)
Definition ollama_listing : M unit :=
  try_except
    (print "Available Ollama models:" ;;
     emit OllamaList ;;
     reply <- ask ollama_list ;;
     match reply with
     | ListRaises e => raise e
     | ListResponse (Some models) => Ollama.print_models models
     | ListResponse None =>
         print "No models found. Try running 'ollama pull <model_name>' first."
     end)
    Py.is_Exception
    (fun e =>
       print ("Error listing models: " ++ Py.exn_msg e) ;;
       print "Make sure the Ollama service is running. You can start it by running 'ollama serve' in a terminal.").

(** Events of the console and of the listing of a directory. *)
Definition chatter (e : Event) : bool :=
  match e with
  | Log _ _ | Print _ | Input _ | Glob _ => true
  | _ => false
  end.

(** The events that are not of the console. *)
Definition significant (evs : list Event) : list Event :=
  filter (fun e => negb (console e)) evs.

(** Paths that could not be opened for writing. *)
Definition refused (evs : list Event) : list string :=
  flat_map (fun e => match e with WriteRefused p => [p] | _ => [] end) evs.

(** [fs] once [os.makedirs(d, exist_ok=True)] has succeeded. *)
Definition with_dir (d : string) (fs : FS) : FS :=
  match lookup d fs with
  | None => store d Dir fs
  | Some _ => fs
  end.

(** The client [GeminiPromptSubmitter()] ends up with: none without a
    key, none when the client cannot be built. *)
Definition gemini_client (h : Host) : option string :=
  match getenv h "GEMINI_API_KEY" with
  | Some k =>
      if Py.truthy k then
        match genai_Client h k with
        | None => Some k
        | Some _ => None
        end
      else None
  | None => None
  end.

(** What [submit_prompt] of [gemini_api.py] returns, and the call it
    makes. *)
Definition gemini_answer (h : Host) (client : option string) (model prompt : string) : string :=
  match client with
  | Some _ =>
      match genai_generate_content h model prompt with
      | GenaiRaises e => Gemini.error_response (Py.exn_msg e)
      | GenaiResponse (Some t) => t
      | GenaiResponse None => Gemini.error_response "'NoneType' object is not subscriptable"
      end
  | None => Gemini.simulation_response
  end.

Definition gemini_calls (client : option string) (model prompt : string) : list Event :=
  match client with
  | Some _ => [GenaiGenerate model prompt]
  | None => []
  end.

(** The same for [xai_prompt_submitter.py]; building the client may
    raise. *)
Definition xai_client (h : Host) : Py.Outcome (option string) :=
  match getenv h "XAI_API_KEY" with
  | Some k =>
      if Py.truthy k then
        match OpenAI_with_transport h k with
        | None => Py.Returns (Some k)
        | Some e =>
            if Py.is_TypeError e then
              match OpenAI_default h k with
              | None => Py.Returns (Some k)
              | Some e' => Py.Raises e'
              end
            else Py.Raises e
        end
      else Py.Returns None
  | None => Py.Returns None
  end.

Definition xai_answer (h : Host) (client : option string) (prompt : string) : string :=
  match client with
  | Some _ =>
      match chat_completions_create h "grok-3-beta" prompt with
      | ChatRaises e => XAI.error_response (Py.exn_msg e)
      | ChatCompletion (Some t :: _) => t
      | ChatCompletion (None :: _) => XAI.error_response "'NoneType' object is not subscriptable"
      | ChatCompletion [] => XAI.error_response "list index out of range"
      end
  | None => XAI.simulation_response
  end.

Definition xai_calls (client : option string) (prompt : string) : list Event :=
  match client with
  | Some _ => [ChatCreate "grok-3-beta" prompt]
  | None => []
  end.

(** The model [OllamaPromptSubmitter(model=m)] works with. *)
Definition ollama_model (m : option string) : string :=
  match m with
  | Some m => if Py.truthy m then m else Ollama.DEFAULT_MODEL
  | None => Ollama.DEFAULT_MODEL
  end.

(** The entries of a catalog. *)
Definition catalog (models : option (list ModelInfo)) : list ModelInfo :=
  match models with Some l => l | None => [] end.

(** Is the model in the catalog, as the constructor looks for it? *)
Definition in_catalog (m : string) (models : option (list ModelInfo)) : bool :=
  existsb (fun mi => Ollama.matches m (Ollama.model_name_of mi)) (catalog models).

(** How the constructor of the Ollama submitter ends: [None] when it
    returns. *)
Definition ollama_init_failure (h : Host) (m : string) : option Py.exn :=
  match ollama_list h with
  | ListRaises e => Some e
  | ListResponse models => if in_catalog m models then None else ollama_pull h m
  end.

(** The service calls of the constructor. *)
Definition ollama_init_calls (h : Host) (m : string) : list Event :=
  match ollama_list h with
  | ListRaises e => [OllamaList]
  | ListResponse models => if in_catalog m models then [OllamaList] else [OllamaList; OllamaPull m]
  end.

Definition ollama_answer (h : Host) (model prompt : string) : string :=
  match ollama_generate h model prompt with
  | GenerateRaises e => Ollama.error_response ("Error calling Ollama API: " ++ Py.exn_msg e)
  | GenerateResponse (Some t) => t
  | GenerateResponse None => "No response generated."
  end.

(** A run summed up: how it ends, the state it leaves, and its
    significant events. *)
Definition Runs {A} (r : Run A) (o : Py.Outcome A) (s' : State) (sig : list Event) : Prop :=
  outcome r = o /\ final r = s' /\ significant (events r) = sig.

(** The output path [main] settles on. *)
Definition output_path (backend : string) (output : option string)
           (prompt_file : string) (now : DateTime) : string :=
  match output with
  | Some o => PathLib.Path o
  | None => PathLib.join "reports"
              (backend ++ "_" ++ PathLib.stem prompt_file ++ "_" ++ strftime_compact now ++ ".md")
  end.

(** The state after the two readings of the clock in [main]. *)
Definition later (n : nat) (fs : FS) (s : State) : State :=
  {| st_fs := fs; st_stdin := st_stdin s; st_tick := n + st_tick s |}.

(** A run summed up by its outcome, the file system it leaves, and its
    significant events. *)
Definition Ends {A} (r : Run A) (o : Py.Outcome A) (fs : FS) (sig : list Event) : Prop :=
  outcome r = o /\ st_fs (final r) = fs /\ significant (events r) = sig.

(** The events of an attempt to save [c] at [out]. *)
Definition save_events (out c : string) (fs : FS) : list Event :=
  if writable out fs then [WriteFile out c] else [WriteRefused out].

(** The file system after that attempt. *)
Definition saved (out c : string) (fs : FS) : FS :=
  if writable out fs then store out (File c) fs else fs.

(** [submit_prompt] of a constructed submitter; only the Gemini one takes
    the model as an argument. *)
Definition submit_prompt (sub : Submitter) (prompt model : string) : M string :=
  match sub with
  | GeminiSelf self => Gemini.submit_prompt self prompt model
  | XAISelf self => XAI.submit_prompt self prompt
  | OllamaSelf self => Ollama.submit_prompt self prompt
  end.

Definition script_of (sub : Submitter) : Script :=
  match sub with
  | GeminiSelf _ => CloudA
  | XAISelf _ => CloudB
  | OllamaSelf _ => Local
  end.

(** The submitter has a client, and [model] is the model it calls. *)
Definition calls_service (sub : Submitter) (model : string) : Prop :=
  match sub with
  | GeminiSelf self => Gemini.client self <> None
  | XAISelf self => XAI.client self <> None /\ model = "grok-3-beta"
  | OllamaSelf self => model = Ollama.model self
  end.

(** The network call of the script raises [e]. *)
Definition service_raises (v : Script) (h : Host) (model prompt : string) (e : Py.exn) : Prop :=
  match v with
  | CloudA => genai_generate_content h model prompt = GenaiRaises e
  | CloudB => chat_completions_create h model prompt = ChatRaises e
  | Local => ollama_generate h model prompt = GenerateRaises e
  end.

(** The text a script returns for a network call that raised [e]. *)
Definition error_artifact (v : Script) (e : Py.exn) : string :=
  match v with
  | CloudA => Gemini.error_response (Py.exn_msg e)
  | CloudB => XAI.error_response (Py.exn_msg e)
  | Local => Ollama.error_response ("Error calling Ollama API: " ++ Py.exn_msg e)
  end.

(** A markdown heading, an empty line, and a fenced block whose text ends
    with [detail]. *)
Definition heading_and_code_block (s detail : string) : Prop :=
  exists title before,
    s = "# " ++ title ++ LF ++ LF ++ "```" ++ LF ++ before ++ detail ++ LF ++ "```".

(** [content] is the header of the script followed by [body]. *)
Definition is_report (v : Script) (content body : string) : Prop :=
  match v with
  | CloudA => exists name ts, content = Gemini.metadata name ts ++ body
  | CloudB => exists name ts, content = XAI.metadata name ts ++ body
  | Local => exists self name ts, content = Ollama.metadata self name ts ++ body
  end.

(** The environment variable a cloud script reads its key from. *)
Definition key_name (v : Script) : string :=
  match v with
  | CloudA => "GEMINI_API_KEY"
  | CloudB => "XAI_API_KEY"
  | Local => ""
  end.

(** The fixed text a cloud script returns without a client. *)
Definition simulation_text (v : Script) : string :=
  match v with
  | CloudA => Gemini.simulation_response
  | CloudB => XAI.simulation_response
  | Local => ""
  end.

(** The submitter as [main] builds it in the cloud scripts. *)
Definition construct (v : Script) : M Submitter :=
  match v with
  | CloudA => self <- Gemini.init None ;; ret (GeminiSelf self)
  | CloudB => self <- XAI.init None ;; ret (XAISelf self)
  | Local => self <- Ollama.init None ;; ret (OllamaSelf self)
  end.

(** The header of [content] names the default Gemini model. *)
Definition names_default_model (content : string) : Prop :=
  exists name ts response,
    content = "---" ++ LF
              ++ "prompt: " ++ name ++ LF
              ++ "submitted_at: " ++ ts ++ LF
              ++ "model: gemini-2.5-flash-preview-04-17" ++ LF
              ++ "---" ++ LF ++ LF ++ response.

(** Does the parser of the script accept the command line, so that [main]
    goes on? *)
Definition accepted (v : Script) (argv : list CliArg) : bool :=
  match v with
  | CloudA =>
      match consume Gemini.add_arguments argv Gemini.defaults false with
      | Namespace _ => true
      | _ => false
      end
  | CloudB =>
      match consume XAI.add_arguments argv XAI.defaults false with
      | Namespace _ => true
      | _ => false
      end
  | Local =>
      match consume Ollama.add_arguments argv Ollama.defaults false with
      | Namespace _ => true
      | _ => false
      end
  end.

(** The script honours [--model]: an accepted command line stays accepted
    when [--model m] is added at its end, and the run then submits with
    model [m] only. *)
Definition honours_model_option (v : Script) : Prop :=
  forall (argv : list CliArg) (m : string) (h : Host) (s : State),
    m <> "" ->
    accepted v argv = true ->
    accepted v (argv ++ [OptValue "--model" m]) = true
    /\ Forall (fun mp => fst mp = m)
              (submitted (events (main v (argv ++ [OptValue "--model" m]) h s))).

(** ** Vocabulary of the further properties *)

(** The name a script gives itself in its output file names. *)
Definition backend_name (v : Script) : string :=
  match v with
  | CloudA => "gemini"
  | CloudB => "xai"
  | Local => "ollama"
  end.

(** The prompt name and the output path the command line asks for. *)
Definition invocation (v : Script) (argv : list CliArg)
  : Parsed (option string * option string) :=
  match v with
  | CloudA =>
      match consume Gemini.add_arguments argv Gemini.defaults false with
      | Namespace a => Namespace (Gemini.prompt a, Gemini.output a)
      | Help => Help
      | Error => Error
      end
  | CloudB =>
      match consume XAI.add_arguments argv XAI.defaults false with
      | Namespace a => Namespace (XAI.prompt a, XAI.output a)
      | Help => Help
      | Error => Error
      end
  | Local =>
      match consume Ollama.add_arguments argv Ollama.defaults false with
      | Namespace a => Namespace (Ollama.prompt a, Ollama.output a)
      | Help => Help
      | Error => Error
      end
  end.

(** The header a script writes; only the Ollama one names the model of
    the submitter. *)
Definition header_of (v : Script) (model name ts : string) : string :=
  match v with
  | CloudA => Gemini.metadata name ts
  | CloudB => XAI.metadata name ts
  | Local => Ollama.metadata {| Ollama.model := model |} name ts
  end.

(** The event of the network call of a script. *)
Definition submit_event (v : Script) (model prompt : string) : Event :=
  match v with
  | CloudA => GenaiGenerate model prompt
  | CloudB => ChatCreate model prompt
  | Local => OllamaGenerate model prompt
  end.

(** What [submit_prompt] returns once it has made the network call. *)
Definition reply_text (v : Script) (h : Host) (model prompt : string) : string :=
  match v with
  | CloudA => gemini_answer h (Some EmptyString) model prompt
  | CloudB =>
      match chat_completions_create h model prompt with
      | ChatRaises e => XAI.error_response (Py.exn_msg e)
      | ChatCompletion (Some t :: _) => t
      | ChatCompletion (None :: _) => XAI.error_response "'NoneType' object is not subscriptable"
      | ChatCompletion [] => XAI.error_response "list index out of range"
      end
  | Local => ollama_answer h model prompt
  end.

(** The network call of the script answers with the text [t]. *)
Definition service_answers (v : Script) (h : Host) (model prompt t : string) : Prop :=
  match v with
  | CloudA => genai_generate_content h model prompt = GenaiResponse (Some t)
  | CloudB => exists rest, chat_completions_create h model prompt = ChatCompletion (Some t :: rest)
  | Local => ollama_generate h model prompt = GenerateResponse (Some t)
  end.

(** [fs'] is [fs] with at most directories added: the same files with
    the same contents, and every directory still there. *)
Definition grown (fs fs' : FS) : Prop :=
  (forall q c, lookup q fs' = Some (File c) <-> lookup q fs = Some (File c))
  /\ (forall q, lookup q fs = Some Dir -> lookup q fs' = Some Dir).

(** Calls to the daemon made by the constructor of the Ollama submitter
    or by the listing of the models. *)
Definition daemon_call (e : Event) : bool :=
  match e with
  | OllamaList | OllamaPull _ => true
  | _ => false
  end.

(** A run of [main] that went through: it read the prompt file, asked
    the service at most once, and tried to save. *)
Definition Completed (v : Script) (argv : list CliArg) (h : Host) (s : State)
           (r : Run unit) : Prop :=
  exists pre p o pf prompt fs2 m calls answer,
    let out := output_path (backend_name v) o pf (clock h (st_tick s)) in
    let content :=
      header_of v m (PathLib.stem pf) (strftime_iso (clock h (S (st_tick s)))) ++ answer in
    invocation v argv = Namespace (p, o)
    /\ outcome (find_prompt_file v p h s) = Py.Returns pf
    /\ outcome r = Py.Returns tt
    /\ significant (events r) = (pre ++ OpenRead pf :: calls ++ save_events out content fs2)%list
    /\ st_fs (final r) = saved out content fs2
    /\ grown (st_fs s) fs2
    /\ lookup pf fs2 = Some (File prompt)
    /\ forallb daemon_call pre = true
    /\ (calls = [] /\ answer = simulation_text v /\ v <> Local
        \/ calls = [submit_event v m prompt] /\ answer = reply_text v h m prompt).

(** A run of [main] that stopped before it had anything to save. *)
Definition Stopped (s : State) (r : Run unit) : Prop :=
  exists pre,
    forallb daemon_call pre = true
    /\ (significant (events r) = pre
        \/ exists pf, significant (events r) = (pre ++ [OpenRead pf])%list)
    /\ grown (st_fs s) (st_fs (final r)).

(** Daemon calls first, then the reading of the prompt file, then at most
    one submission, then one attempt to write. *)
Fixpoint skip_daemon (evs : list Event) : list Event :=
  match evs with
  | e :: rest => if daemon_call e then skip_daemon rest else evs
  | [] => []
  end.

Definition is_submission (e : Event) : bool :=
  match e with
  | GenaiGenerate _ _ | ChatCreate _ _ | OllamaGenerate _ _ => true
  | _ => false
  end.

Definition is_save (e : Event) : bool :=
  match e with
  | WriteFile _ _ | WriteRefused _ => true
  | _ => false
  end.

Definition in_sequence (evs : list Event) : bool :=
  match skip_daemon evs with
  | [] => true
  | [OpenRead _] => true
  | [OpenRead _; w] => is_save w
  | [OpenRead _; c; w] => is_submission c && is_save w
  | _ => false
  end.

(** The network call of the script answers without a text, and [text]
    is what [submit_prompt] then returns: the cloud scripts slice the
    missing text (or index the empty list of choices) inside their [try]
    block, the Ollama script falls back on a fixed text. *)
Definition answers_without_text (v : Script) (h : Host) (model prompt text : string) : Prop :=
  match v with
  | CloudA =>
      genai_generate_content h model prompt = GenaiResponse None
      /\ text = Gemini.error_response "'NoneType' object is not subscriptable"
  | CloudB =>
      (chat_completions_create h model prompt = ChatCompletion []
       /\ text = XAI.error_response "list index out of range")
      \/ (exists rest, chat_completions_create h model prompt = ChatCompletion (None :: rest))
         /\ text = XAI.error_response "'NoneType' object is not subscriptable"
  | Local =>
      ollama_generate h model prompt = GenerateResponse None
      /\ text = "No response generated."
  end.

(** The line [--list-models] prints for one entry of the catalog. *)
Definition listing_line (m : ModelInfo) : string :=
  "- " ++ match mi_name m with Some n => n | None => "unnamed" end
  ++ " (size: "
  ++ match mi_size m with
     | Some z => if (0 <? z)%Z then Ollama.format_gb z else "N/A"
     | None => "N/A"
     end
  ++ ", modified: " ++ match mi_modified_at m with Some d => d | None => "N/A" end ++ ")".

(** ** Sample worlds *)

Definition sample_clock (n : nat) : DateTime :=
  {| dt_year := 2025; dt_month := 6; dt_day := 2;
     dt_hour := 13; dt_minute := 28; dt_second := 49 + n |}.

Definition unreachable : Py.exn := Py.Exn Py.OtherException "connection refused".

(** A host without keys, whose services are all down. *)
Definition offline : Host := {|
  getenv := fun _ => None;
  clock := sample_clock;
  genai_Client := fun _ => None;
  genai_generate_content := fun _ _ => GenaiRaises unreachable;
  OpenAI_with_transport := fun _ => None;
  OpenAI_default := fun _ => None;
  chat_completions_create := fun _ _ => ChatRaises unreachable;
  ollama_list := ListRaises unreachable;
  ollama_pull := fun _ => Some unreachable;
  ollama_generate := fun _ _ => GenerateRaises unreachable
|}.

(** A host with both keys, whose daemon lists one model, and whose
    services all refuse to generate. *)
Definition failing : Host := {|
  getenv := fun _ => Some "secret";
  clock := sample_clock;
  genai_Client := fun _ => None;
  genai_generate_content := fun _ _ => GenaiRaises unreachable;
  OpenAI_with_transport := fun _ => None;
  OpenAI_default := fun _ => None;
  chat_completions_create := fun _ _ => ChatRaises unreachable;
  ollama_list :=
    ListResponse (Some [{| mi_model := Some "gemma3:12b-it-q8_0"; mi_name := None;
                           mi_size := Some 8149190253%Z; mi_modified_at := None |}]);
  ollama_pull := fun _ => Some unreachable;
  ollama_generate := fun _ _ => GenerateRaises unreachable
|}.

(** A host with both keys, whose services answer. *)
Definition online : Host := {|
  getenv := fun _ => Some "secret";
  clock := sample_clock;
  genai_Client := fun _ => None;
  genai_generate_content := fun m _ => GenaiResponse (Some ("answer of " ++ m));
  OpenAI_with_transport := fun _ => None;
  OpenAI_default := fun _ => None;
  chat_completions_create := fun m _ => ChatCompletion [Some ("answer of " ++ m)];
  ollama_list :=
    ListResponse (Some [{| mi_model := Some "gemma3:12b-it-q8_0"; mi_name := None;
                           mi_size := Some 8149190253%Z; mi_modified_at := None |};
                        {| mi_model := None; mi_name := Some "llama3:latest";
                           mi_size := None; mi_modified_at := None |}]);
  ollama_pull := fun _ => None;
  ollama_generate := fun m _ => GenerateResponse (Some ("answer of " ++ m))
|}.

(** A working directory with two prompt files, and one line typed. *)
Definition desk (line : string) : State := {|
  st_fs := [("prompts", Dir); ("prompts/demo.txt", File "Hello");
            ("prompts/other.txt", File "Bye")];
  st_stdin := [line];
  st_tick := 0
|}.

(** A host with both keys, on which no cloud client can be built; its
    daemon has the default model under the key ['model'] only, and
    answers without a text. *)
Definition misconfigured : Host := {|
  getenv := fun _ => Some "secret";
  clock := sample_clock;
  genai_Client := fun _ => Some (Py.Exn Py.ValueError "invalid api key");
  genai_generate_content := fun _ _ => GenaiResponse None;
  OpenAI_with_transport := fun _ => Some (Py.Exn Py.OtherException "proxy unreachable");
  OpenAI_default := fun _ => None;
  chat_completions_create := fun _ _ => ChatCompletion [];
  ollama_list :=
    ListResponse (Some [{| mi_model := Some "gemma3:12b-it-q8_0"; mi_name := None;
                           mi_size := Some 8149190253%Z; mi_modified_at := None |}]);
  ollama_pull := fun _ => Some unreachable;
  ollama_generate := fun _ _ => GenerateResponse None
|}.

(** The same working directory, with nobody at the keyboard. *)
Definition unattended : State := {|
  st_fs := [("prompts", Dir); ("prompts/demo.txt", File "Hello");
            ("prompts/other.txt", File "Bye")];
  st_stdin := [];
  st_tick := 0
|}.

(** A working directory without a prompts directory. *)
Definition bare : State := {| st_fs := []; st_stdin := []; st_tick := 0 |}.

(** * Properties *)

(** ** The monad *)

Lemma bind_outcome {A B} (m : M A) (f : A -> M B) h s :
  outcome (bind m f h s) =
  match outcome (m h s) with
  | Py.Returns a => outcome (f a h (final (m h s)))
  | Py.Raises e => Py.Raises e
  | Py.Exits c => Py.Exits c
  end.
Proof.
  unfold bind. destruct (m h s) as [[a | e | c] s1 ev1]; simpl; try reflexivity.
  destruct (f a h s1); reflexivity.
Qed.

Lemma bind_events {A B} (m : M A) (f : A -> M B) h s :
  events (bind m f h s) =
  (events (m h s) ++
   match outcome (m h s) with
   | Py.Returns a => events (f a h (final (m h s)))
   | _ => []
   end)%list.
Proof.
  unfold bind. destruct (m h s) as [[a | e | c] s1 ev1]; simpl;
    try (rewrite app_nil_r; reflexivity).
  destruct (f a h s1); reflexivity.
Qed.

Lemma bind_final {A B} (m : M A) (f : A -> M B) h s :
  final (bind m f h s) =
  match outcome (m h s) with
  | Py.Returns a => final (f a h (final (m h s)))
  | _ => final (m h s)
  end.
Proof.
  unfold bind. destruct (m h s) as [[a | e | c] s1 ev1]; simpl; try reflexivity.
  destruct (f a h s1); reflexivity.
Qed.

(** ** The file system *)

Lemma lookup_store_eq p n fs : lookup p (store p n fs) = Some n.
Proof.
  induction fs as [| [q m] r IH]; simpl.
  - rewrite String.eqb_refl. reflexivity.
  - destruct (String.eqb q p) eqn:E; simpl; rewrite E; auto.
Qed.

Lemma lookup_store_ne p q n fs : p <> q -> lookup q (store p n fs) = lookup q fs.
Proof.
  intros Hne. induction fs as [| [k m] r IH]; simpl.
  - destruct (String.eqb_spec p q); [contradiction | reflexivity].
  - destruct (String.eqb_spec k p) as [-> | Hk]; simpl.
    + destruct (String.eqb_spec p q); [contradiction | reflexivity].
    + destruct (String.eqb k q); auto.
Qed.

(** ** C1: the format of the saved file *)

Lemma metadata_first_line rest : first_line "---" ("---" ++ LF ++ rest).
Proof. exists rest. reflexivity. Qed.

Lemma has_line_intro pre l post :
  has_line l ((pre ++ LF) ++ l ++ LF ++ post).
Proof. exists (pre ++ LF), post. split; [reflexivity | right; eauto]. Qed.

Lemma append_assoc (a b c : string) : (a ++ b) ++ c = a ++ b ++ c.
Proof. induction a; simpl; congruence. Qed.

Lemma gemini_content_format name ts response :
  let c := Gemini.metadata name ts ++ response in
  first_line "---" c /\ has_line ("prompt: " ++ name) c
  /\ has_line ("submitted_at: " ++ ts) c /\ body_after_header c response.
Proof.
  unfold Gemini.metadata. cbv zeta. repeat rewrite append_assoc. repeat split.
  - apply metadata_first_line.
  - exists ("---" ++ LF), ("submitted_at: " ++ ts ++ LF
      ++ "model: gemini-2.5-flash-preview-04-17" ++ LF ++ "---" ++ LF ++ LF ++ response).
    split; [now repeat rewrite append_assoc | right; now exists "---"].
  - exists ("---" ++ LF ++ "prompt: " ++ name ++ LF),
      ("model: gemini-2.5-flash-preview-04-17" ++ LF ++ "---" ++ LF ++ LF ++ response).
    split; [now repeat rewrite append_assoc |].
    right. exists ("---" ++ LF ++ "prompt: " ++ name). now repeat rewrite append_assoc.
  - exists ("---" ++ LF ++ "prompt: " ++ name ++ LF ++ "submitted_at: " ++ ts ++ LF
            ++ "model: gemini-2.5-flash-preview-04-17").
    now repeat rewrite append_assoc.
Qed.

Lemma xai_content_format name ts response :
  let c := XAI.metadata name ts ++ response in
  first_line "---" c /\ has_line ("prompt: " ++ name) c
  /\ has_line ("submitted_at: " ++ ts) c /\ body_after_header c response.
Proof.
  unfold XAI.metadata. cbv zeta. repeat rewrite append_assoc. repeat split.
  - apply metadata_first_line.
  - exists ("---" ++ LF), ("submitted_at: " ++ ts ++ LF ++ "---" ++ LF ++ LF ++ response).
    split; [now repeat rewrite append_assoc | right; now exists "---"].
  - exists ("---" ++ LF ++ "prompt: " ++ name ++ LF), ("---" ++ LF ++ LF ++ response).
    split; [now repeat rewrite append_assoc |].
    right. exists ("---" ++ LF ++ "prompt: " ++ name). now repeat rewrite append_assoc.
  - exists ("---" ++ LF ++ "prompt: " ++ name ++ LF ++ "submitted_at: " ++ ts).
    now repeat rewrite append_assoc.
Qed.

Lemma ollama_content_format self name ts response :
  let c := Ollama.metadata self name ts ++ response in
  first_line "---" c /\ has_line ("prompt: " ++ name) c
  /\ has_line ("submitted_at: " ++ ts) c /\ body_after_header c response.
Proof.
  unfold Ollama.metadata. cbv zeta. repeat rewrite append_assoc. repeat split.
  - apply metadata_first_line.
  - exists ("---" ++ LF ++ "model: " ++ Ollama.model self ++ LF),
      ("submitted_at: " ++ ts ++ LF ++ "---" ++ LF ++ LF ++ response).
    split; [now repeat rewrite append_assoc |].
    right. exists ("---" ++ LF ++ "model: " ++ Ollama.model self).
    now repeat rewrite append_assoc.
  - exists ("---" ++ LF ++ "model: " ++ Ollama.model self ++ LF ++ "prompt: " ++ name ++ LF),
      ("---" ++ LF ++ LF ++ response).
    split; [now repeat rewrite append_assoc |].
    right. exists ("---" ++ LF ++ "model: " ++ Ollama.model self ++ LF ++ "prompt: " ++ name).
    now repeat rewrite append_assoc.
  - exists ("---" ++ LF ++ "model: " ++ Ollama.model self ++ LF ++ "prompt: " ++ name ++ LF
            ++ "submitted_at: " ++ ts).
    now repeat rewrite append_assoc.
Qed.

(** What [open_write] does, by whether the path can be opened. *)
Lemma open_write_run p c h s :
  open_write p c h s =
  if writable p (st_fs s) then
    mkRun (Py.Returns tt)
          {| st_fs := store p (File c) (st_fs s); st_stdin := st_stdin s; st_tick := st_tick s |}
          [WriteFile p c]
  else
    mkRun (Py.Raises
             (if dir_exists p (st_fs s)
              then Py.Exn Py.IsADirectoryError ("[Errno 21] Is a directory: '" ++ p ++ "'")
              else Py.Exn Py.FileNotFoundError ("[Errno 2] No such file or directory: '" ++ p ++ "'")))
          s [WriteRefused p].
Proof.
  unfold open_write, writable, bind, get_fs. simpl.
  destruct (dir_exists p (st_fs s)); simpl; [reflexivity |].
  destruct (dir_exists (PathLib.parent p) (st_fs s)); reflexivity.
Qed.

Lemma saving_run out c h s :
  saving out c h s =
  if writable out (st_fs s) then
    mkRun (Py.Returns tt)
          {| st_fs := store out (File c) (st_fs s); st_stdin := st_stdin s; st_tick := st_tick s |}
          [WriteFile out c; Log INFO ("Response saved to " ++ out)]
  else
    mkRun (Py.Returns tt) s
          [WriteRefused out;
           Log ERROR ("Error saving response: " ++
             (if dir_exists out (st_fs s)
              then "[Errno 21] Is a directory: '" ++ out ++ "'"
              else "[Errno 2] No such file or directory: '" ++ out ++ "'"))].
Proof.
  unfold saving, try_except, bind. rewrite open_write_run.
  destruct (writable out (st_fs s)); simpl; [reflexivity |].
  destruct (dir_exists out (st_fs s)); reflexivity.
Qed.

Lemma save_response_saving sub response out name ts :
  exists c,
    save_response sub response out name ts = saving out c
    /\ first_line "---" c /\ has_line ("prompt: " ++ name) c
    /\ has_line ("submitted_at: " ++ ts) c /\ body_after_header c response.
Proof.
  destruct sub as [self | self | self]; simpl.
  - exists (Gemini.metadata name ts ++ response).
    split; [reflexivity | apply gemini_content_format].
  - exists (XAI.metadata name ts ++ response).
    split; [reflexivity | apply xai_content_format].
  - exists (Ollama.metadata self name ts ++ response).
    split; [reflexivity | apply ollama_content_format].
Qed.

(** C1. Whatever the response text, the prompt name and the timestamp,
    [save_response] of each of the three scripts writes at most one file,
    the output file, and writes it exactly when the path can be opened for
    writing.  The content written starts with the line [---], holds a line
    [prompt: ] followed by the prompt name and a line [submitted_at: ]
    followed by the timestamp, and ends with the closing line [---], one
    empty line, and the response text unchanged.  The file then holds
    that content. *)
Theorem save_response_writes_header_then_response :
  forall (sub : Submitter) (response out name ts : string) (h : Host) (s : State),
  exists content,
    let r := save_response sub response out name ts h s in
    written (events r) = (if writable out (st_fs s) then [(out, content)] else [])
    /\ lookup out (st_fs (final r)) =
       (if writable out (st_fs s) then Some (File content) else lookup out (st_fs s))
    /\ outcome r = Py.Returns tt
    /\ first_line "---" content
    /\ has_line ("prompt: " ++ name) content
    /\ has_line ("submitted_at: " ++ ts) content
    /\ body_after_header content response.
Proof.
  intros sub response out name ts h s.
  destruct (save_response_saving sub response out name ts) as (c & Hs & Hfmt).
  exists c. cbv zeta. rewrite Hs, saving_run.
  destruct (writable out (st_fs s)); simpl.
  - rewrite lookup_store_eq. repeat split; try reflexivity; apply Hfmt.
  - repeat split; try reflexivity; apply Hfmt.
Qed.

(** ** C4: interactive selection *)

Lemma print_numbered_run prompts : forall i h s,
  print_numbered i prompts h s = mkRun (Py.Returns tt) s (numbered i prompts).
Proof.
  induction prompts as [| p rest IH]; intros i h s; simpl; [reflexivity |].
  unfold bind at 1. simpl. rewrite IH. reflexivity.
Qed.

Lemma asked_numbered prompts : forall i, asked (numbered i prompts) = [].
Proof. induction prompts; intros i; simpl; auto. Qed.

Lemma error_log_numbered prompts : forall i, error_log (numbered i prompts) = [].
Proof. induction prompts; intros i; simpl; auto. Qed.

Lemma nth_error_in_range {A} (l : list A) (z : Z) :
  (0 <= z < Z.of_nat (List.length l))%Z -> exists x, nth_error l (Z.to_nat z) = Some x.
Proof.
  intros Hz. destruct (nth_error l (Z.to_nat z)) eqn:E; [eauto |].
  apply nth_error_None in E. lia.
Qed.

(** The outcome of the [try] block: the chosen path, or [sys.exit(1)]
    after one error line. *)
Lemma pick_run prompts line h s :
  final (pick prompts line h s) = s
  /\ asked (events (pick prompts line h s)) = []
  /\ match Py.int line with
     | Some i =>
         if ((1 <=? i) && (i <=? Z.of_nat (List.length prompts)))%Z then
           exists p, nth_error prompts (Z.to_nat (i - 1)) = Some p
                     /\ outcome (pick prompts line h s) = Py.Returns p
                     /\ events (pick prompts line h s) = []
         else outcome (pick prompts line h s) = Py.Exits 1
              /\ events (pick prompts line h s) = [Log ERROR "Invalid selection"]
     | None => outcome (pick prompts line h s) = Py.Exits 1
               /\ events (pick prompts line h s) = [Log ERROR "Invalid input"]
     end.
Proof.
  unfold pick, try_except. destruct (Py.int line) as [i |]; simpl.
  - destruct ((1 <=? i) && (i <=? Z.of_nat (List.length prompts)))%Z eqn:E.
    + apply andb_prop in E as [E1 E2].
      apply Z.leb_le in E1. apply Z.leb_le in E2.
      replace ((0 <=? i - 1) && (i - 1 <? Z.of_nat (List.length prompts)))%Z with true
        by (symmetry; apply andb_true_intro; split;
            [apply Z.leb_le | apply Z.ltb_lt]; lia).
      destruct (nth_error_in_range prompts (i - 1)%Z ltac:(lia)) as [p Hp].
      unfold list_item. rewrite Hp. simpl. repeat split; eauto.
    + replace ((0 <=? i - 1) && (i - 1 <? Z.of_nat (List.length prompts)))%Z with false.
      * simpl. auto.
      * symmetry. apply andb_false_iff. apply andb_false_iff in E as [E | E].
        -- left. apply Z.leb_gt. apply Z.leb_gt in E. lia.
        -- right. apply Z.ltb_ge. apply Z.leb_gt in E. lia.
  - auto.
Qed.

Lemma choose_run prompts line rest h s :
  st_stdin s = line :: rest ->
  let s' := {| st_fs := st_fs s; st_stdin := rest; st_tick := st_tick s |} in
  outcome (choose prompts h s) = outcome (pick prompts line h s')
  /\ final (choose prompts h s) = s'
  /\ events (choose prompts h s) =
     (Print "Available prompts:" :: numbered 1 prompts
      ++ Input (LF ++ "Enter prompt number to use: ") :: events (pick prompts line h s'))%list.
Proof.
  intros Hin s'. unfold choose.
  rewrite !bind_outcome, !bind_final, !bind_events.
  rewrite !print_numbered_run. simpl.
  unfold input. rewrite Hin. simpl. fold s'.
  destruct (pick_run prompts line h s') as (Hf & _).
  rewrite Hf. repeat split; reflexivity.
Qed.

Lemma is_dir_lookup p fs : is_dir p fs = true -> lookup p fs = Some Dir.
Proof. unfold is_dir. destruct (lookup p fs) as [[c |] |]; congruence. Qed.

Lemma glob_run d h s : glob d h s = mkRun (Py.Returns (glob_txt d (st_fs s))) s [Glob d].
Proof. reflexivity. Qed.

Lemma os_makedirs_run p h s :
  os_makedirs p h s =
  match lookup p (st_fs s) with
  | Some Dir => mkRun (Py.Returns tt) s [Makedirs p]
  | Some (File _) =>
      mkRun (Py.Raises (Py.Exn Py.FileExistsError ("[Errno 17] File exists: '" ++ p ++ "'")))
            s [Makedirs p]
  | None =>
      mkRun (Py.Returns tt)
            {| st_fs := store p Dir (st_fs s); st_stdin := st_stdin s; st_tick := st_tick s |}
            [Makedirs p]
  end.
Proof.
  unfold os_makedirs, bind, get_fs. simpl.
  destruct (lookup p (st_fs s)) as [[c |] |]; reflexivity.
Qed.

(** Without a prompt name and with prompt files listed, each script's
    [find_prompt_file] is the listing followed by the selection. *)
Lemma find_interactive v name h s p ps :
  Py.truthy_opt name = false ->
  is_dir "prompts" (st_fs s) = true ->
  glob_txt "prompts" (st_fs s) = p :: ps ->
  outcome (find_prompt_file v name h s) = outcome (choose (p :: ps) h s)
  /\ final (find_prompt_file v name h s) = final (choose (p :: ps) h s)
  /\ events (find_prompt_file v name h s) =
     ((match v with Local => [Makedirs "prompts"] | _ => [] end)
      ++ Glob "prompts" :: events (choose (p :: ps) h s))%list.
Proof.
  intros Hn Hd Hg. apply is_dir_lookup in Hd.
  destruct v; unfold find_prompt_file, Gemini.find_prompt_file, XAI.find_prompt_file,
    Ollama.find_prompt_file; rewrite Hn; cbn [negb]; cbv zeta.
  - change (PathLib.Path Gemini.PROMPTS_DIR) with "prompts".
    rewrite bind_outcome, bind_final, bind_events, glob_run.
    cbn [outcome final events]. rewrite Hg.
    repeat split; reflexivity.
  - change (PathLib.Path XAI.PROMPTS_DIR) with "prompts".
    rewrite bind_outcome, bind_final, bind_events, glob_run.
    cbn [outcome final events]. rewrite Hg.
    repeat split; reflexivity.
  - change (PathLib.Path Ollama.PROMPTS_DIR) with "prompts".
    rewrite bind_outcome, bind_final, bind_events, os_makedirs_run. rewrite Hd.
    cbn [outcome final events].
    rewrite bind_outcome, bind_final, bind_events, glob_run.
    cbn [outcome final events]. rewrite Hg.
    repeat split; reflexivity.
Qed.

Lemma parse_args_run {Args} (step : CliArg -> Args -> Step Args) d argv h s :
  parse_args step d argv h s =
  match consume step argv d false with
  | Namespace ns => mkRun (Py.Returns ns) s []
  | Help => mkRun (Py.Exits 0) s [Usage "help"]
  | Error => mkRun (Py.Exits 2) s [Usage "error"]
  end.
Proof. unfold parse_args. destruct (consume step argv d false); reflexivity. Qed.

(** A [main] that reaches the interactive selection ends with the
    selection when the selection ends the process. *)
Lemma main_exits_with_find v argv :
  interactive v argv = true ->
  exists name,
    Py.truthy_opt name = false
    /\ forall h s c,
         outcome (find_prompt_file v name h s) = Py.Exits c ->
         outcome (main v argv h s) = Py.Exits c
         /\ events (main v argv h s) = events (find_prompt_file v name h s).
Proof.
  destruct v; unfold interactive, main, find_prompt_file,
    Gemini.main, XAI.main, Ollama.main; intros Hi.
  - destruct (consume Gemini.add_arguments argv Gemini.defaults false) as [a | |] eqn:E;
      try discriminate.
    exists (Gemini.prompt a). split; [now destruct (Py.truthy_opt (Gemini.prompt a)) |].
    intros h s c Hc.
    rewrite bind_outcome, bind_events, parse_args_run, E. cbn [outcome final events].
    rewrite bind_outcome, bind_events, Hc. rewrite app_nil_r. split; reflexivity.
  - destruct (consume XAI.add_arguments argv XAI.defaults false) as [a | |] eqn:E;
      try discriminate.
    exists (XAI.prompt a). split; [now destruct (Py.truthy_opt (XAI.prompt a)) |].
    intros h s c Hc.
    rewrite bind_outcome, bind_events, parse_args_run, E. cbn [outcome final events].
    rewrite bind_outcome, bind_events, Hc. rewrite app_nil_r. split; reflexivity.
  - destruct (consume Ollama.add_arguments argv Ollama.defaults false) as [a | |] eqn:E;
      try discriminate.
    apply andb_prop in Hi as [Hp Hl].
    exists (Ollama.prompt a). split; [now destruct (Py.truthy_opt (Ollama.prompt a)) |].
    intros h s c Hc.
    rewrite bind_outcome, bind_events, parse_args_run, E. cbn [outcome final events].
    destruct (Ollama.list_models a); [discriminate |].
    rewrite bind_outcome, bind_events, Hc. rewrite app_nil_r. split; reflexivity.
Qed.

(** What the interactive [find_prompt_file] does with the line it reads. *)
Lemma find_interactive_run v name h s line rest prompts :
  Py.truthy_opt name = false ->
  is_dir "prompts" (st_fs s) = true ->
  glob_txt "prompts" (st_fs s) = prompts -> prompts <> [] ->
  st_stdin s = line :: rest ->
  let r := find_prompt_file v name h s in
  asked (events r) = [LF ++ "Enter prompt number to use: "]
  /\ st_stdin (final r) = rest
  /\ st_fs (final r) = st_fs s
  /\ match Py.int line with
     | Some i =>
         if ((1 <=? i) && (i <=? Z.of_nat (List.length prompts)))%Z then
           exists p, nth_error prompts (Z.to_nat (i - 1)) = Some p
                     /\ outcome r = Py.Returns p
         else outcome r = Py.Exits 1 /\ error_log (events r) = ["Invalid selection"]
     | None => outcome r = Py.Exits 1 /\ error_log (events r) = ["Invalid input"]
     end.
Proof.
  intros Hn Hd Hg Hne Hin r. subst r.
  destruct prompts as [| p ps]; [congruence |].
  destruct (find_interactive v name h s p ps Hn Hd Hg) as (Ho & Hf & He).
  destruct (choose_run (p :: ps) line rest h s Hin) as (Co & Cf & Ce).
  set (s' := {| st_fs := st_fs s; st_stdin := rest; st_tick := st_tick s |}) in *.
  destruct (pick_run (p :: ps) line h s') as (Pf & Pa & Pm).
  rewrite Ho, Hf, He, Co, Cf, Ce.
  assert (Ha : forall evs,
    asked ((match v with Local => [Makedirs "prompts"] | _ => [] end)
           ++ Glob "prompts" :: Print "Available prompts:" :: numbered 1 (p :: ps)
           ++ Input (LF ++ "Enter prompt number to use: ") :: evs)%list
    = (LF ++ "Enter prompt number to use: ") :: asked evs).
  { intros evs. unfold asked at 1. rewrite flat_map_app.
    replace (flat_map _ (match v with Local => [Makedirs "prompts"] | _ => [] end))
      with (@nil string) by (destruct v; reflexivity).
    cbn [flat_map app]. rewrite flat_map_app.
    fold (asked (numbered 1 (p :: ps))). rewrite asked_numbered. reflexivity. }
  assert (Hl : forall evs,
    error_log ((match v with Local => [Makedirs "prompts"] | _ => [] end)
           ++ Glob "prompts" :: Print "Available prompts:" :: numbered 1 (p :: ps)
           ++ Input (LF ++ "Enter prompt number to use: ") :: evs)%list
    = error_log evs).
  { intros evs. unfold error_log at 1. rewrite flat_map_app.
    replace (flat_map _ (match v with Local => [Makedirs "prompts"] | _ => [] end))
      with (@nil string) by (destruct v; reflexivity).
    cbn [flat_map app]. rewrite flat_map_app.
    fold (error_log (numbered 1 (p :: ps))). rewrite error_log_numbered. reflexivity. }
  rewrite Ha, Hl, Pa. repeat split; try reflexivity.
  destruct (Py.int line) as [i |].
  - destruct ((1 <=? i) && (i <=? Z.of_nat (List.length (p :: ps))))%Z.
    + destruct Pm as (q & Hq & Hoq & _). eauto.
    + destruct Pm as (-> & ->). split; reflexivity.
  - destruct Pm as (-> & ->). split; reflexivity.
Qed.

(** C4. In the interactive selection over a non-empty listing of N prompt
    files, each of the three scripts asks once.  A line that [int] reads
    as i with 1 <= i <= N makes [find_prompt_file] return the i-th listed
    path.  Any other line (an integer out of that range, or a line [int]
    rejects) makes it log one error and call [sys.exit(1)]: the process
    exits with status 1 and has asked only once. *)
Theorem interactive_selection_by_index :
  forall (v : Script) (argv : list CliArg) (h : Host) (s : State)
         (line : string) (rest prompts : list string),
  interactive v argv = true ->
  is_dir "prompts" (st_fs s) = true ->
  glob_txt "prompts" (st_fs s) = prompts ->
  prompts <> [] ->
  st_stdin s = line :: rest ->
  let r := find_prompt_file v None h s in
  let m := main v argv h s in
  let N := Z.of_nat (List.length prompts) in
  asked (events r) = [LF ++ "Enter prompt number to use: "]
  /\ st_stdin (final r) = rest
  /\ match Py.int line with
     | Some i =>
         if ((1 <=? i) && (i <=? N))%Z then
           exists p, nth_error prompts (Z.to_nat (i - 1)) = Some p
                     /\ outcome r = Py.Returns p
         else
           outcome r = Py.Exits 1
           /\ error_log (events r) = ["Invalid selection"]
           /\ Py.exit_status (outcome m) = 1%Z
           /\ asked (events m) = [LF ++ "Enter prompt number to use: "]
     | None =>
         outcome r = Py.Exits 1
         /\ error_log (events r) = ["Invalid input"]
         /\ Py.exit_status (outcome m) = 1%Z
         /\ asked (events m) = [LF ++ "Enter prompt number to use: "]
     end.
Proof.
  intros v argv h s line rest prompts Hi Hd Hg Hne Hin r m N. subst r m N.
  destruct (find_interactive_run v None h s line rest prompts eq_refl Hd Hg Hne Hin)
    as (Ha & Hs & _ & Hm).
  destruct (main_exits_with_find v argv Hi) as (name & Hn & Hmain).
  destruct (find_interactive_run v name h s line rest prompts Hn Hd Hg Hne Hin)
    as (Ha' & _ & _ & Hm').
  split; [exact Ha |]. split; [exact Hs |].
  destruct (Py.int line) as [i |].
  - destruct ((1 <=? i) && (i <=? Z.of_nat (List.length prompts)))%Z; [exact Hm |].
    destruct Hm as (Ho & He). destruct Hm' as (Ho' & _).
    destruct (Hmain h s 1%Z Ho') as (Mo & Me).
    rewrite Mo, Me. repeat split; assumption.
  - destruct Hm as (Ho & He). destruct Hm' as (Ho' & _).
    destruct (Hmain h s 1%Z Ho') as (Mo & Me).
    rewrite Mo, Me. repeat split; assumption.
Qed.

(** ** The shape of [main] *)

Lemma gemini_main_unfold argv :
  Gemini.main argv =
  (args <- parse_args Gemini.add_arguments Gemini.defaults argv ;;
   prompt_file <- Gemini.find_prompt_file (Gemini.prompt args) ;;
   gemini_tail args prompt_file).
Proof. reflexivity. Qed.

Lemma xai_main_unfold argv :
  XAI.main argv =
  (args <- parse_args XAI.add_arguments XAI.defaults argv ;;
   prompt_file <- XAI.find_prompt_file (XAI.prompt args) ;;
   xai_tail args prompt_file).
Proof. reflexivity. Qed.

Lemma ollama_main_unfold argv :
  Ollama.main argv =
  (args <- parse_args Ollama.add_arguments Ollama.defaults argv ;;
   if Ollama.list_models args then ollama_listing
   else prompt_file <- Ollama.find_prompt_file (Ollama.prompt args) ;;
        ollama_tail args prompt_file).
Proof. reflexivity. Qed.

Lemma chatter_numbered prompts : forall i, Forall (fun e => chatter e = true) (numbered i prompts).
Proof. induction prompts; intros i; simpl; constructor; auto. Qed.

Lemma pick_chatter prompts line h s :
  Forall (fun e => chatter e = true) (events (pick prompts line h s)).
Proof.
  destruct (pick_run prompts line h s) as (_ & _ & Hm).
  destruct (Py.int line) as [i |].
  - destruct ((1 <=? i) && (i <=? Z.of_nat (List.length prompts)))%Z.
    + destruct Hm as (p & _ & _ & ->). constructor.
    + destruct Hm as (_ & ->). repeat constructor.
  - destruct Hm as (_ & ->). repeat constructor.
Qed.

Lemma choose_frame prompts h s :
  Forall (fun e => chatter e = true) (events (choose prompts h s))
  /\ st_fs (final (choose prompts h s)) = st_fs s
  /\ st_tick (final (choose prompts h s)) = st_tick s.
Proof.
  destruct (st_stdin s) as [| line rest] eqn:Hin.
  - unfold choose. rewrite !bind_events, !bind_final, !print_numbered_run.
    cbn [outcome final events print emit]. unfold input. rewrite Hin.
    cbn [outcome final events]. split; [| auto].
    repeat (constructor; [reflexivity |]).
    apply Forall_app. split; [apply chatter_numbered | repeat constructor].
  - destruct (choose_run prompts line rest h s Hin) as (_ & -> & ->).
    split; [| auto].
    constructor; [reflexivity |]. apply Forall_app. split; [apply chatter_numbered |].
    constructor; [reflexivity | apply pick_chatter].
Qed.

(** What the listing branch of [find_prompt_file] does once the listing
    is known: the three scripts differ only in what they say when it is
    empty. *)
Lemma cloud_find_frame name h s :
  let r := Gemini.find_prompt_file name h s in
  Forall (fun e => chatter e = true) (events r)
  /\ st_fs (final r) = st_fs s
  /\ st_tick (final r) = st_tick s.
Proof.
  unfold Gemini.find_prompt_file. cbv zeta.
  change (PathLib.Path Gemini.PROMPTS_DIR) with "prompts".
  destruct (Py.truthy_opt name); cbn [negb].
  - unfold path_exists, bind, get_fs, ret. cbn.
    destruct (lookup _ (st_fs s)); cbn; repeat split; repeat constructor.
  - rewrite bind_events, bind_final, glob_run. cbn [outcome final events].
    destruct (glob_txt "prompts" (st_fs s)) as [| p ps].
    + cbn. repeat split; repeat constructor.
    + destruct (choose_frame (p :: ps) h s) as (Hc & Hf & Ht).
      split; [| split; assumption].
      constructor; [reflexivity | exact Hc].
Qed.

Lemma xai_find_is_gemini_find : XAI.find_prompt_file = Gemini.find_prompt_file.
Proof. reflexivity. Qed.

Lemma ollama_find_frame name h s :
  let r := Ollama.find_prompt_file name h s in
  (exists rest, events r = Makedirs "prompts" :: rest
                /\ Forall (fun e => chatter e = true) rest)
  /\ st_tick (final r) = st_tick s
  /\ (st_fs (final r) = st_fs s
      \/ lookup "prompts" (st_fs s) = None
         /\ st_fs (final r) = store "prompts" Dir (st_fs s)).
Proof.
  unfold Ollama.find_prompt_file. cbv zeta.
  change (PathLib.Path Ollama.PROMPTS_DIR) with "prompts".
  rewrite bind_events, bind_final, os_makedirs_run.
  destruct (lookup "prompts" (st_fs s)) as [[c |] |] eqn:Hl; cbn [outcome final events].
  - split; [eexists; split; [reflexivity | constructor] | auto].
  - destruct (Py.truthy_opt name); cbn [negb].
    + unfold path_exists, bind, get_fs, ret. cbn.
      destruct (lookup (PathLib.join _ _) _); cbn;
        (split; [eexists; split; [reflexivity | repeat constructor] | auto]).
    + rewrite bind_events, bind_final, glob_run. cbn [outcome final events].
      destruct (glob_txt "prompts" (st_fs s)) as [| p ps].
      * cbn. split; [eexists; split; [reflexivity | repeat constructor] | auto].
      * destruct (choose_frame (p :: ps) h s) as (Hc & Hf & Ht).
        split; [| split; auto].
        eexists; split; [reflexivity |]. constructor; [reflexivity | exact Hc].
  - set (s1 := {| st_fs := store "prompts" Dir (st_fs s);
                  st_stdin := st_stdin s; st_tick := st_tick s |}).
    destruct (Py.truthy_opt name); cbn [negb].
    + unfold path_exists, bind, get_fs, ret. cbn.
      destruct (lookup (PathLib.join _ _) _); cbn;
        (split; [eexists; split; [reflexivity | repeat constructor] | auto]).
    + rewrite bind_events, bind_final, glob_run. cbn [outcome final events].
      destruct (glob_txt "prompts" (st_fs s1)) as [| p ps].
      * cbn. split; [eexists; split; [reflexivity | repeat constructor] | auto].
      * destruct (choose_frame (p :: ps) h s1) as (Hc & Hf & Ht).
        split; [| split; auto].
        eexists; split; [reflexivity |]. constructor; [reflexivity | exact Hc].
Qed.

Lemma chatter_console evs :
  Forall (fun e => chatter e = true) evs -> Forall (fun e => console e = true) evs.
Proof.
  apply Forall_impl. intros [] H; try discriminate; reflexivity.
Qed.

(** ** Significant events *)

Lemma significant_app a b : significant (a ++ b)%list = (significant a ++ significant b)%list.
Proof. apply filter_app. Qed.

Lemma significant_console evs :
  Forall (fun e => console e = true) evs -> significant evs = [].
Proof.
  induction 1 as [| e evs He _ IH]; [reflexivity |].
  unfold significant in *. simpl. rewrite He. exact IH.
Qed.

Lemma flat_map_significant {B} (f : Event -> list B) evs :
  (forall e, console e = true -> f e = []) ->
  flat_map f (significant evs) = flat_map f evs.
Proof.
  intros Hf. induction evs as [| e evs IH]; [reflexivity |].
  unfold significant in *. simpl. destruct (console e) eqn:E; simpl.
  - rewrite (Hf e E). exact IH.
  - rewrite IH. reflexivity.
Qed.

Lemma written_significant evs : written (significant evs) = written evs.
Proof. apply flat_map_significant. intros [] H; try discriminate; reflexivity. Qed.

Lemma opened_significant evs : opened (significant evs) = opened evs.
Proof. apply flat_map_significant. intros [] H; try discriminate; reflexivity. Qed.

Lemma submitted_significant evs : submitted (significant evs) = submitted evs.
Proof. apply flat_map_significant. intros [] H; try discriminate; reflexivity. Qed.

Lemma pulled_significant evs : pulled (significant evs) = pulled evs.
Proof. apply flat_map_significant. intros [] H; try discriminate; reflexivity. Qed.

Lemma refused_significant evs : refused (significant evs) = refused evs.
Proof. apply flat_map_significant. intros [] H; try discriminate; reflexivity. Qed.

(** ** The steps of [main] *)

Lemma datetime_now_run h s :
  datetime_now h s =
  mkRun (Py.Returns (clock h (st_tick s)))
        {| st_fs := st_fs s; st_stdin := st_stdin s; st_tick := S (st_tick s) |} [].
Proof. reflexivity. Qed.

Lemma open_read_run p h s :
  open_read p h s =
  match lookup p (st_fs s) with
  | Some (File c) => mkRun (Py.Returns c) s [OpenRead p]
  | Some Dir =>
      mkRun (Py.Raises (Py.Exn Py.IsADirectoryError ("[Errno 21] Is a directory: '" ++ p ++ "'")))
            s [OpenRead p]
  | None =>
      mkRun (Py.Raises (Py.Exn Py.FileNotFoundError
                          ("[Errno 2] No such file or directory: '" ++ p ++ "'")))
            s [OpenRead p]
  end.
Proof.
  unfold open_read, bind, get_fs. simpl.
  destruct (lookup p (st_fs s)) as [[c |] |]; reflexivity.
Qed.

Lemma gemini_init_run h s :
  exists sub evs,
    Gemini.init None h s = mkRun (Py.Returns sub) s evs
    /\ Gemini.client sub = gemini_client h
    /\ significant evs = [].
Proof.
  unfold Gemini.init, gemini_client, bind, ask, try_except. simpl.
  destruct (getenv h "GEMINI_API_KEY") as [k |] eqn:Ek; simpl.
  - destruct k as [| c k']; simpl.
    + eexists _, _. repeat split; reflexivity.
    + destruct (genai_Client h (String c k')) as [e |]; simpl;
        eexists _, _; repeat split; reflexivity.
  - eexists _, _. repeat split; reflexivity.
Qed.

Lemma gemini_submit_run self prompt model h s :
  exists evs,
    Gemini.submit_prompt self prompt model h s =
      mkRun (Py.Returns (gemini_answer h (Gemini.client self) model prompt)) s evs
    /\ significant evs = gemini_calls (Gemini.client self) model prompt.
Proof.
  unfold Gemini.submit_prompt, gemini_answer, gemini_calls, bind, ask, try_except. simpl.
  destruct (Gemini.client self) as [k |]; simpl.
  - destruct (genai_generate_content h model prompt) as [e | [t |]]; simpl;
      eexists; split; reflexivity.
  - eexists; split; reflexivity.
Qed.

(** ** Summing up runs *)

Lemma runs_intro {A} (o : Py.Outcome A) s evs sig :
  significant evs = sig -> Runs (mkRun o s evs) o s sig.
Proof. intros H. repeat split; assumption. Qed.

Lemma runs_bind {A B} (m : M A) (f : A -> M B) h s a s1 sig1 o s2 sig2 sig :
  Runs (m h s) (Py.Returns a) s1 sig1 ->
  Runs (f a h s1) o s2 sig2 ->
  sig = (sig1 ++ sig2)%list ->
  Runs (bind m f h s) o s2 sig.
Proof.
  intros (Ho & Hf & He) (Ho' & Hf' & He') ->.
  unfold Runs. rewrite bind_outcome, bind_final, bind_events, Ho, Hf, significant_app.
  rewrite Ho', Hf', He, He'. auto.
Qed.

Lemma runs_bind_raises {A B} (m : M A) (f : A -> M B) h s e s1 sig1 :
  Runs (m h s) (Py.Raises e) s1 sig1 ->
  Runs (bind m f h s) (Py.Raises e) s1 sig1.
Proof.
  intros (Ho & Hf & He).
  unfold Runs. rewrite bind_outcome, bind_final, bind_events, Ho, app_nil_r. auto.
Qed.

Lemma runs_bind_exits {A B} (m : M A) (f : A -> M B) h s c s1 sig1 :
  Runs (m h s) (Py.Exits c) s1 sig1 ->
  Runs (bind m f h s) (Py.Exits c) s1 sig1.
Proof.
  intros (Ho & Hf & He).
  unfold Runs. rewrite bind_outcome, bind_final, bind_events, Ho, app_nil_r. auto.
Qed.

Lemma try_except_outcome {A} (body : M A) caught handler h s :
  outcome (try_except body caught handler h s) =
  match outcome (body h s) with
  | Py.Raises e => if caught e then outcome (handler e h (final (body h s))) else Py.Raises e
  | o => o
  end.
Proof.
  unfold try_except. destruct (body h s) as [[a | e | c] s1 ev1]; simpl; try reflexivity.
  destruct (caught e); [| reflexivity]. destruct (handler e h s1); reflexivity.
Qed.

Lemma try_except_final {A} (body : M A) caught handler h s :
  final (try_except body caught handler h s) =
  match outcome (body h s) with
  | Py.Raises e => if caught e then final (handler e h (final (body h s))) else final (body h s)
  | _ => final (body h s)
  end.
Proof.
  unfold try_except. destruct (body h s) as [[a | e | c] s1 ev1]; simpl; try reflexivity.
  destruct (caught e); [| reflexivity]. destruct (handler e h s1); reflexivity.
Qed.

Lemma try_except_events {A} (body : M A) caught handler h s :
  events (try_except body caught handler h s) =
  (events (body h s) ++
   match outcome (body h s) with
   | Py.Raises e => if caught e then events (handler e h (final (body h s))) else []
   | _ => []
   end)%list.
Proof.
  unfold try_except. destruct (body h s) as [[a | e | c] s1 ev1]; simpl;
    try (rewrite app_nil_r; reflexivity).
  destruct (caught e); [| simpl; rewrite app_nil_r; reflexivity].
  destruct (handler e h s1); reflexivity.
Qed.

(** A [try] block that does not raise. *)
Lemma runs_try_returns {A} (body : M A) caught handler h s a s1 sig :
  Runs (body h s) (Py.Returns a) s1 sig ->
  Runs (try_except body caught handler h s) (Py.Returns a) s1 sig.
Proof.
  intros (Ho & Hf & He). unfold Runs.
  rewrite try_except_outcome, try_except_final, try_except_events, Ho, app_nil_r. auto.
Qed.

(** A [try] block whose exception is handled. *)
Lemma runs_try_caught {A} (body : M A) caught handler h s e s1 sig1 o s2 sig2 sig :
  Runs (body h s) (Py.Raises e) s1 sig1 ->
  caught e = true ->
  Runs (handler e h s1) o s2 sig2 ->
  sig = (sig1 ++ sig2)%list ->
  Runs (try_except body caught handler h s) o s2 sig.
Proof.
  intros (Ho & Hf & He) Hc (Ho' & Hf' & He') ->. unfold Runs.
  rewrite try_except_outcome, try_except_final, try_except_events, Ho, Hc, Hf,
    significant_app.
  rewrite Ho', Hf', He, He'. auto.
Qed.

Lemma runs_datetime_now h s :
  Runs (datetime_now h s) (Py.Returns (clock h (st_tick s))) (later 1 (st_fs s) s) [].
Proof. apply runs_intro. reflexivity. Qed.

Lemma runs_saving out c h s :
  Runs (saving out c h s) (Py.Returns tt)
       (if writable out (st_fs s)
        then {| st_fs := store out (File c) (st_fs s);
                st_stdin := st_stdin s; st_tick := st_tick s |}
        else s)
       (if writable out (st_fs s) then [WriteFile out c] else [WriteRefused out]).
Proof.
  rewrite saving_run. destruct (writable out (st_fs s)); apply runs_intro; reflexivity.
Qed.

Lemma runs_gemini_init h s :
  exists sub,
    Runs (Gemini.init None h s) (Py.Returns sub) s []
    /\ Gemini.client sub = gemini_client h.
Proof.
  destruct (gemini_init_run h s) as (sub & evs & Hr & Hc & Hs).
  exists sub. split; [rewrite Hr; apply runs_intro; exact Hs | exact Hc].
Qed.

Lemma runs_gemini_submit self prompt model h s :
  Runs (Gemini.submit_prompt self prompt model h s)
       (Py.Returns (gemini_answer h (Gemini.client self) model prompt)) s
       (gemini_calls (Gemini.client self) model prompt).
Proof.
  destruct (gemini_submit_run self prompt model h s) as (evs & Hr & Hs).
  rewrite Hr. apply runs_intro. exact Hs.
Qed.

Lemma runs_os_makedirs d h s :
  match lookup d (st_fs s) with
  | Some (File _) =>
      Runs (os_makedirs d h s)
           (Py.Raises (Py.Exn Py.FileExistsError ("[Errno 17] File exists: '" ++ d ++ "'"))) s []
  | _ =>
      Runs (os_makedirs d h s) (Py.Returns tt)
           {| st_fs := with_dir d (st_fs s); st_stdin := st_stdin s; st_tick := st_tick s |} []
  end.
Proof.
  rewrite os_makedirs_run. unfold with_dir.
  destruct (lookup d (st_fs s)) as [[c |] |]; try (apply runs_intro; reflexivity).
  destruct s; apply runs_intro; reflexivity.
Qed.

Lemma runs_open_read p h s :
  match lookup p (st_fs s) with
  | Some (File c) => Runs (open_read p h s) (Py.Returns c) s [OpenRead p]
  | _ => exists e, Runs (open_read p h s) (Py.Raises e) s [OpenRead p]
  end.
Proof.
  rewrite open_read_run.
  destruct (lookup p (st_fs s)) as [[c |] |];
    [| eexists | eexists]; apply runs_intro; reflexivity.
Qed.

(** [main] of [gemini_api.py] from the moment the prompt file is found:
    it stops when [reports] is a regular file or the prompt file cannot
    be read; otherwise it returns, after one attempt to write. *)
Lemma gemini_tail_run args pf h s :
  let fs2 := with_dir "reports" (st_fs s) in
  let out := output_path "gemini" (Gemini.output args) pf (clock h (st_tick s)) in
  let ts := strftime_iso (clock h (S (st_tick s))) in
  match lookup "reports" (st_fs s) with
  | Some (File _) =>
      exists e, Runs (gemini_tail args pf h s) (Py.Raises e) (later 1 (st_fs s) s) []
  | _ =>
      match lookup pf fs2 with
      | Some (File prompt) =>
          let c := Gemini.metadata (PathLib.stem pf) ts
                   ++ gemini_answer h (gemini_client h) (Gemini.model args) prompt in
          Runs (gemini_tail args pf h s) (Py.Returns tt)
               (later 2 (if writable out fs2 then store out (File c) fs2 else fs2) s)
               (OpenRead pf :: gemini_calls (gemini_client h) (Gemini.model args) prompt
                ++ (if writable out fs2 then [WriteFile out c] else [WriteRefused out]))%list
      | _ =>
          exists e, Runs (gemini_tail args pf h s) (Py.Raises e) (later 1 fs2 s) [OpenRead pf]
      end
  end.
Proof.
  cbv zeta. unfold gemini_tail. cbv zeta.
  change (PathLib.Path Gemini.REPORTS_DIR) with "reports".
  pose proof (runs_os_makedirs "reports" h (later 1 (st_fs s) s)) as Hmk.
  cbn [later st_fs st_stdin st_tick] in Hmk.
  assert (Hfile : forall c0, lookup "reports" (st_fs s) = Some (File c0) ->
            exists e, Runs (gemini_tail args pf h s) (Py.Raises e) (later 1 (st_fs s) s) []).
  { intros c0 Hrep. rewrite Hrep in Hmk. eexists.
    eapply runs_bind; [apply runs_datetime_now | | reflexivity].
    eapply runs_bind_raises. exact Hmk. }
  assert (Hgo : (forall c0, lookup "reports" (st_fs s) <> Some (File c0)) ->
    match lookup pf (with_dir "reports" (st_fs s)) with
    | Some (File prompt) =>
        let out := output_path "gemini" (Gemini.output args) pf (clock h (st_tick s)) in
        let fs2 := with_dir "reports" (st_fs s) in
        let c := Gemini.metadata (PathLib.stem pf) (strftime_iso (clock h (S (st_tick s))))
                 ++ gemini_answer h (gemini_client h) (Gemini.model args) prompt in
        Runs (gemini_tail args pf h s) (Py.Returns tt)
             (later 2 (if writable out fs2 then store out (File c) fs2 else fs2) s)
             (OpenRead pf :: gemini_calls (gemini_client h) (Gemini.model args) prompt
              ++ (if writable out fs2 then [WriteFile out c] else [WriteRefused out]))%list
    | _ => exists e, Runs (gemini_tail args pf h s) (Py.Raises e)
                          (later 1 (with_dir "reports" (st_fs s)) s) [OpenRead pf]
    end).
  { intros Hnf.
    assert (Hmk' : Runs (os_makedirs "reports" h (later 1 (st_fs s) s)) (Py.Returns tt)
                        (later 1 (with_dir "reports" (st_fs s)) s) []).
    { destruct (lookup "reports" (st_fs s)) as [[c0 |] |]; try exact Hmk.
      exfalso. eapply Hnf. reflexivity. }
    clear Hmk.
    set (s2 := later 1 (with_dir "reports" (st_fs s)) s) in *.
    destruct (runs_gemini_init h s2) as (sub & Hinit & Hcl).
    pose proof (runs_open_read pf h s2) as Hrd.
    change (st_fs s2) with (with_dir "reports" (st_fs s)) in Hrd.
    destruct (lookup pf (with_dir "reports" (st_fs s))) as [[prompt |] |].
    - cbv zeta. rewrite <- Hcl.
      eapply runs_bind; [apply runs_datetime_now | | reflexivity].
      eapply runs_bind; [exact Hmk' | | reflexivity].
      eapply runs_bind; [exact Hinit | | reflexivity].
      eapply runs_bind; [exact Hrd | | reflexivity].
      eapply runs_bind; [apply runs_gemini_submit | | reflexivity].
      eapply runs_bind; [apply runs_datetime_now | | reflexivity].
      pose proof (runs_saving
        (output_path "gemini" (Gemini.output args) pf (clock h (st_tick s)))
        (Gemini.metadata (PathLib.stem pf) (strftime_iso (clock h (S (st_tick s))))
         ++ gemini_answer h (Gemini.client sub) (Gemini.model args) prompt)
        h (later 1 (st_fs s2) s2)) as Hsv.
      cbn [later st_fs st_stdin st_tick s2] in Hsv.
      destruct (writable _ (with_dir "reports" (st_fs s))); exact Hsv.
    - destruct Hrd as (e & Hrd). exists e.
      eapply runs_bind; [apply runs_datetime_now | | reflexivity].
      eapply runs_bind; [exact Hmk' | | reflexivity].
      eapply runs_bind; [exact Hinit | | reflexivity].
      eapply runs_bind_raises. exact Hrd.
    - destruct Hrd as (e & Hrd). exists e.
      eapply runs_bind; [apply runs_datetime_now | | reflexivity].
      eapply runs_bind; [exact Hmk' | | reflexivity].
      eapply runs_bind; [exact Hinit | | reflexivity].
      eapply runs_bind_raises. exact Hrd. }
  destruct (lookup "reports" (st_fs s)) as [[c0 |] |] eqn:Hrep.
  - eapply Hfile. reflexivity.
  - apply Hgo. intros c0; discriminate.
  - apply Hgo. intros c0; discriminate.
Qed.

Ltac chain H :=
  eapply runs_bind; [exact H | | reflexivity].

Lemma runs_xai_init h s :
  match xai_client h with
  | Py.Returns c =>
      exists sub, Runs (XAI.init None h s) (Py.Returns sub) s [] /\ XAI.client sub = c
  | Py.Raises e => Runs (XAI.init None h s) (Py.Raises e) s []
  | Py.Exits _ => False
  end.
Proof.
  unfold XAI.init, xai_client, bind, ask, try_except. simpl.
  destruct (getenv h "XAI_API_KEY") as [k |] eqn:Ek; simpl.
  - destruct k as [| c k']; simpl.
    + eexists. split; [apply runs_intro |]; reflexivity.
    + destruct (OpenAI_with_transport h (String c k')) as [e |]; simpl.
      * destruct (Py.is_TypeError e); simpl.
        -- destruct (OpenAI_default h (String c k')) as [e' |]; simpl.
           ++ apply runs_intro; reflexivity.
           ++ eexists. split; [apply runs_intro |]; reflexivity.
        -- apply runs_intro; reflexivity.
      * eexists. split; [apply runs_intro |]; reflexivity.
  - eexists. split; [apply runs_intro |]; reflexivity.
Qed.

Lemma runs_xai_submit self prompt h s :
  Runs (XAI.submit_prompt self prompt h s)
       (Py.Returns (xai_answer h (XAI.client self) prompt)) s
       (xai_calls (XAI.client self) prompt).
Proof.
  unfold XAI.submit_prompt, xai_answer, xai_calls, bind, ask, try_except. simpl.
  destruct (XAI.client self) as [k |]; simpl.
  - destruct (chat_completions_create h "grok-3-beta" prompt) as [e | [| [t |] rest]]; simpl;
      apply runs_intro; reflexivity.
  - apply runs_intro; reflexivity.
Qed.

(** [main] of [xai_prompt_submitter.py] from the moment the prompt file
    is found. *)
Lemma xai_tail_run args pf h s :
  let fs2 := with_dir "reports" (st_fs s) in
  let out := output_path "xai" (XAI.output args) pf (clock h (st_tick s)) in
  let ts := strftime_iso (clock h (S (st_tick s))) in
  match lookup "reports" (st_fs s) with
  | Some (File _) =>
      exists e, Runs (xai_tail args pf h s) (Py.Raises e) (later 1 (st_fs s) s) []
  | _ =>
      match xai_client h with
      | Py.Returns client =>
          match lookup pf fs2 with
          | Some (File prompt) =>
              let c := XAI.metadata (PathLib.stem pf) ts ++ xai_answer h client prompt in
              Runs (xai_tail args pf h s) (Py.Returns tt)
                   (later 2 (if writable out fs2 then store out (File c) fs2 else fs2) s)
                   (OpenRead pf :: xai_calls client prompt
                    ++ (if writable out fs2 then [WriteFile out c] else [WriteRefused out]))%list
          | _ =>
              exists e, Runs (xai_tail args pf h s) (Py.Raises e) (later 1 fs2 s) [OpenRead pf]
          end
      | Py.Raises e => Runs (xai_tail args pf h s) (Py.Raises e) (later 1 fs2 s) []
      | Py.Exits _ => False
      end
  end.
Proof.
  cbv zeta. unfold xai_tail. cbv zeta.
  change (PathLib.Path XAI.REPORTS_DIR) with "reports".
  pose proof (runs_os_makedirs "reports" h (later 1 (st_fs s) s)) as Hmk.
  cbn [later st_fs st_stdin st_tick] in Hmk.
  destruct (lookup "reports" (st_fs s)) as [[c0 |] |] eqn:Hrep.
  { eexists. chain (runs_datetime_now h s). eapply runs_bind_raises. exact Hmk. }
  all: fold (later 1 (with_dir "reports" (st_fs s)) s) in Hmk;
    set (s2 := later 1 (with_dir "reports" (st_fs s)) s) in *;
    pose proof (runs_xai_init h s2) as Hinit;
    pose proof (runs_open_read pf h s2) as Hrd;
    change (st_fs s2) with (with_dir "reports" (st_fs s)) in Hrd;
    destruct (xai_client h) as [client | e | code]; [| | exact Hinit].
  all: try (chain (runs_datetime_now h s); chain Hmk; eapply runs_bind_raises; exact Hinit).
  all: destruct Hinit as (sub & Hinit & Hcl);
    destruct (lookup pf (with_dir "reports" (st_fs s))) as [[prompt |] |].
  all: try (destruct Hrd as (e & Hrd); exists e;
            chain (runs_datetime_now h s); chain Hmk; chain Hinit;
            eapply runs_bind_raises; exact Hrd).
  all: cbv zeta; rewrite <- Hcl;
    chain (runs_datetime_now h s); chain Hmk; chain Hinit; chain Hrd;
    chain (runs_xai_submit sub prompt h s2);
    chain (runs_datetime_now h s2);
    pose proof (runs_saving
      (output_path "xai" (XAI.output args) pf (clock h (st_tick s)))
      (XAI.metadata (PathLib.stem pf) (strftime_iso (clock h (S (st_tick s))))
       ++ xai_answer h (XAI.client sub) prompt)
      h (later 1 (st_fs s2) s2)) as Hsv;
    cbn [later st_fs st_stdin st_tick s2] in Hsv;
    destruct (writable _ (with_dir "reports" (st_fs s))); exact Hsv.
Qed.

Lemma runs_find_model m models : forall h s,
  Runs (Ollama.find_model m models h s)
       (Py.Returns (existsb (fun mi => Ollama.matches m (Ollama.model_name_of mi)) models)) s [].
Proof.
  induction models as [| mi rest IH]; intros h s; cbn [Ollama.find_model existsb].
  - apply runs_intro; reflexivity.
  - destruct (Ollama.matches m (Ollama.model_name_of mi)); cbn [orb].
    + apply runs_intro; reflexivity.
    + apply IH.
Qed.

Lemma runs_logger_info msg h s : Runs (logger_info msg h s) (Py.Returns tt) s [].
Proof. apply runs_intro; reflexivity. Qed.

Lemma runs_logger_error msg h s : Runs (logger_error msg h s) (Py.Returns tt) s [].
Proof. apply runs_intro; reflexivity. Qed.

Lemma runs_print msg h s : Runs (print msg h s) (Py.Returns tt) s [].
Proof. apply runs_intro; reflexivity. Qed.

Lemma runs_ret {A} (a : A) h s : Runs (ret a h s) (Py.Returns a) s [].
Proof. apply runs_intro; reflexivity. Qed.

(** The [try] block of the constructor. *)
Lemma runs_ollama_probe m h s :
  let body :=
    (emit OllamaList ;;
     reply <- ask ollama_list ;;
     match reply with
     | ListRaises e => raise e
     | ListResponse models =>
         model_found <-
           match models with
           | Some ((_ :: _) as l) => Ollama.find_model m l
           | _ => ret false
           end ;;
         if negb model_found then
           logger_info ("Model '" ++ m ++ "' not found locally. Attempting to pull...") ;;
           emit (OllamaPull m) ;;
           r <- ask (fun h => ollama_pull h m) ;;
           call_raising r ;;
           logger_info ("Successfully pulled model: " ++ m)
         else ret tt
     end) in
  match ollama_init_failure h m with
  | Some e => Runs (body h s) (Py.Raises e) s (ollama_init_calls h m)
  | None => Runs (body h s) (Py.Returns tt) s (ollama_init_calls h m)
  end.
Proof.
  cbv zeta. unfold ollama_init_failure, ollama_init_calls.
  assert (Hemit : Runs (emit OllamaList h s) (Py.Returns tt) s [OllamaList])
    by (apply runs_intro; reflexivity).
  destruct (ollama_list h) as [e | models] eqn:El.
  - chain Hemit.
    eapply runs_bind; [apply runs_intro; reflexivity | | reflexivity].
    cbn [ask]. rewrite El. apply runs_intro; reflexivity.
  - assert (Hfind : Runs (match models with
                          | Some ((_ :: _) as l) => Ollama.find_model m l
                          | _ => ret false
                          end h s) (Py.Returns (in_catalog m models)) s []).
    { unfold in_catalog, catalog. destruct models as [[| mi l] |];
        try (apply runs_intro; reflexivity). apply (runs_find_model m (mi :: l)). }
    assert (Hpull : Runs (emit (OllamaPull m) h s) (Py.Returns tt) s [OllamaPull m])
      by (apply runs_intro; reflexivity).
    destruct (in_catalog m models) eqn:Hc.
    + chain Hemit.
      eapply runs_bind; [apply runs_intro; reflexivity | | reflexivity].
      cbn [ask]. rewrite El. chain Hfind. apply runs_ret.
    + destruct (ollama_pull h m) as [e |] eqn:Ep.
      * chain Hemit.
        eapply runs_bind; [apply runs_intro; reflexivity | | reflexivity].
        cbn [ask]. rewrite El. chain Hfind. cbn [negb].
        eapply runs_bind; [apply runs_logger_info | | reflexivity].
        chain Hpull.
        eapply runs_bind; [apply runs_intro; reflexivity | | reflexivity].
        cbn [ask]. rewrite Ep. eapply runs_bind_raises. apply runs_intro; reflexivity.
      * chain Hemit.
        eapply runs_bind; [apply runs_intro; reflexivity | | reflexivity].
        cbn [ask]. rewrite El. chain Hfind. cbn [negb].
        eapply runs_bind; [apply runs_logger_info | | reflexivity].
        chain Hpull.
        eapply runs_bind; [apply runs_intro; reflexivity | | reflexivity].
        cbn [ask]. rewrite Ep.
        eapply runs_bind; [apply runs_ret | | reflexivity].
        apply runs_logger_info.
Qed.

(** The constructor raises what the daemon raised, or returns. *)
Lemma runs_ollama_init marg h s :
  let m := ollama_model marg in
  match ollama_init_failure h m with
  | Some e => Runs (Ollama.init marg h s) (Py.Raises e) s (ollama_init_calls h m)
  | None =>
      Runs (Ollama.init marg h s) (Py.Returns {| Ollama.model := m |}) s (ollama_init_calls h m)
  end.
Proof.
  cbv zeta. unfold Ollama.init. cbv zeta. fold (ollama_model marg).
  pose proof (runs_ollama_probe (ollama_model marg) h s) as Hp. cbv zeta in Hp.
  destruct (ollama_init_failure h (ollama_model marg)) as [e |].
  - eapply runs_bind; [apply runs_logger_info | | reflexivity].
    eapply runs_bind_raises.
    eapply runs_try_caught; [exact Hp | reflexivity | | symmetry; apply app_nil_r].
    eapply runs_bind; [apply runs_logger_error | | reflexivity].
    eapply runs_bind; [apply runs_logger_error | | reflexivity].
    apply runs_intro; reflexivity.
  - eapply runs_bind; [apply runs_logger_info | | reflexivity].
    eapply runs_bind; [apply runs_try_returns; exact Hp | | symmetry; apply app_nil_r].
    apply runs_ret.
Qed.

Lemma runs_ollama_submit self prompt h s :
  Runs (Ollama.submit_prompt self prompt h s)
       (Py.Returns (ollama_answer h (Ollama.model self) prompt)) s
       [OllamaGenerate (Ollama.model self) prompt].
Proof.
  unfold Ollama.submit_prompt, ollama_answer, bind, ask, try_except. simpl.
  destruct (ollama_generate h (Ollama.model self) prompt) as [e | [t |]]; simpl;
    apply runs_intro; reflexivity.
Qed.

Lemma runs_give_up e h s :
  Runs ((logger_error ("An error occurred: " ++ Py.exn_msg e) ;; sys_exit (A := unit) 1) h s)
       (Py.Exits 1) s [].
Proof. apply runs_intro; reflexivity. Qed.

(** [main] of [ollama_prompt_submitter.py] from the moment the prompt
    file is found: every exception of the constructor or of the reading
    ends in [sys.exit(1)]. *)
Lemma ollama_tail_run args pf h s :
  let fs2 := with_dir "reports" (st_fs s) in
  let m := ollama_model (Some (Ollama.arg_model args)) in
  let out := output_path "ollama" (Ollama.output args) pf (clock h (st_tick s)) in
  let ts := strftime_iso (clock h (S (st_tick s))) in
  match lookup "reports" (st_fs s) with
  | Some (File _) =>
      exists e, Runs (ollama_tail args pf h s) (Py.Raises e) (later 1 (st_fs s) s) []
  | _ =>
      match ollama_init_failure h m with
      | Some e => Runs (ollama_tail args pf h s) (Py.Exits 1) (later 1 fs2 s)
                       (ollama_init_calls h m)
      | None =>
          match lookup pf fs2 with
          | Some (File prompt) =>
              let c := Ollama.metadata {| Ollama.model := m |} (PathLib.stem pf) ts
                       ++ ollama_answer h m prompt in
              Runs (ollama_tail args pf h s) (Py.Returns tt)
                   (later 2 (if writable out fs2 then store out (File c) fs2 else fs2) s)
                   (ollama_init_calls h m ++ OpenRead pf :: OllamaGenerate m prompt
                    :: (if writable out fs2 then [WriteFile out c] else [WriteRefused out]))%list
          | _ => Runs (ollama_tail args pf h s) (Py.Exits 1) (later 1 fs2 s)
                      (ollama_init_calls h m ++ [OpenRead pf])%list
          end
      end
  end.
Proof.
  cbv zeta. unfold ollama_tail. cbv zeta.
  change (PathLib.Path Ollama.REPORTS_DIR) with "reports".
  pose proof (runs_os_makedirs "reports" h (later 1 (st_fs s) s)) as Hmk.
  cbn [later st_fs st_stdin st_tick] in Hmk.
  destruct (lookup "reports" (st_fs s)) as [[c0 |] |] eqn:Hrep.
  { eexists. chain (runs_datetime_now h s). eapply runs_bind_raises. exact Hmk. }
  all: fold (later 1 (with_dir "reports" (st_fs s)) s) in Hmk;
    set (s2 := later 1 (with_dir "reports" (st_fs s)) s) in *;
    set (m := ollama_model (Some (Ollama.arg_model args))) in *;
    pose proof (runs_ollama_init (Some (Ollama.arg_model args)) h s2) as Hinit;
    cbv zeta in Hinit; fold m in Hinit;
    pose proof (runs_open_read pf h s2) as Hrd;
    change (st_fs s2) with (with_dir "reports" (st_fs s)) in Hrd;
    unfold ollama_work;
    destruct (ollama_init_failure h m) as [e |].
  all: try (chain (runs_datetime_now h s); chain Hmk;
            eapply runs_try_caught;
            [eapply runs_bind_raises; exact Hinit | reflexivity | apply runs_give_up
            | symmetry; apply app_nil_r]).
  all: destruct (lookup pf (with_dir "reports" (st_fs s))) as [[prompt |] |].
  all: try (destruct Hrd as (e & Hrd);
            chain (runs_datetime_now h s); chain Hmk;
            eapply runs_try_caught;
            [chain Hinit; eapply runs_bind_raises; exact Hrd | reflexivity
            | apply runs_give_up | rewrite app_nil_r; reflexivity]).
  all: cbv zeta; chain (runs_datetime_now h s); chain Hmk; apply runs_try_returns;
    chain Hinit; chain Hrd;
    chain (runs_ollama_submit {| Ollama.model := m |} prompt h s2);
    chain (runs_datetime_now h s2);
    pose proof (runs_saving
      (output_path "ollama" (Ollama.output args) pf (clock h (st_tick s)))
      (Ollama.metadata {| Ollama.model := m |} (PathLib.stem pf)
         (strftime_iso (clock h (S (st_tick s))))
       ++ ollama_answer h m prompt)
      h (later 1 (st_fs s2) s2)) as Hsv;
    cbn [later st_fs st_stdin st_tick s2] in Hsv;
    destruct (writable _ (with_dir "reports" (st_fs s)));
    (eapply runs_bind; [exact Hsv | apply runs_print | rewrite app_nil_r; reflexivity]).
Qed.

(** ** From [main] to its tail *)

(** [find_prompt_file] ends the process with status 1 only. *)
Lemma pick_exits prompts line h s c :
  outcome (pick prompts line h s) = Py.Exits c -> c = 1%Z.
Proof.
  destruct (pick_run prompts line h s) as (_ & _ & Hm).
  destruct (Py.int line) as [i |].
  - destruct ((1 <=? i) && (i <=? Z.of_nat (List.length prompts)))%Z.
    + destruct Hm as (p & _ & -> & _). discriminate.
    + destruct Hm as (-> & _). congruence.
  - destruct Hm as (-> & _). congruence.
Qed.

Lemma choose_exits prompts h s c :
  outcome (choose prompts h s) = Py.Exits c -> c = 1%Z.
Proof.
  destruct (st_stdin s) as [| line rest] eqn:Hin.
  - unfold choose. rewrite !bind_outcome, !print_numbered_run.
    cbn [outcome final print emit]. unfold input. rewrite Hin. cbn. discriminate.
  - destruct (choose_run prompts line rest h s Hin) as (-> & _). apply pick_exits.
Qed.

Lemma find_exits v name h s c :
  outcome (find_prompt_file v name h s) = Py.Exits c -> c = 1%Z.
Proof.
  assert (Hcloud : outcome (Gemini.find_prompt_file name h s) = Py.Exits c -> c = 1%Z).
  { unfold Gemini.find_prompt_file. cbv zeta.
    change (PathLib.Path Gemini.PROMPTS_DIR) with "prompts".
    destruct (Py.truthy_opt name); cbn [negb].
    - unfold path_exists, bind, get_fs, ret. cbn.
      destruct (lookup _ (st_fs s)); cbn; congruence.
    - rewrite bind_outcome, glob_run. cbn [outcome final].
      destruct (glob_txt "prompts" (st_fs s)) as [| p ps]; [cbn; congruence |].
      apply choose_exits. }
  destruct v; try exact Hcloud.
  unfold find_prompt_file, Ollama.find_prompt_file. cbv zeta.
  change (PathLib.Path Ollama.PROMPTS_DIR) with "prompts".
  rewrite bind_outcome, os_makedirs_run.
  destruct (lookup "prompts" (st_fs s)) as [[c0 |] |]; cbn [outcome final];
    try discriminate.
  all: destruct (Py.truthy_opt name); cbn [negb];
    [ unfold path_exists, bind, get_fs, ret; cbn;
      destruct (lookup (PathLib.join _ _) _); cbn; congruence
    | rewrite bind_outcome, glob_run; cbn [outcome final];
      match goal with
      | |- context [glob_txt ?d ?fs] =>
          destruct (glob_txt d fs) as [| p ps]; [cbn; congruence | apply choose_exits]
      end ].
Qed.

(** The three [find_prompt_file] open no file and call no service; the
    cloud ones leave the file system as it is, the local one at most adds
    the prompts directory. *)
Lemma find_frame v name h s :
  let r := find_prompt_file v name h s in
  significant (events r) = []
  /\ st_tick (final r) = st_tick s
  /\ match v with
     | Local => st_fs (final r) = st_fs s
                \/ lookup "prompts" (st_fs s) = None
                   /\ st_fs (final r) = store "prompts" Dir (st_fs s)
     | _ => st_fs (final r) = st_fs s
     end.
Proof.
  destruct v; cbv zeta; unfold find_prompt_file.
  - destruct (cloud_find_frame name h s) as (Hc & Hf & Ht).
    split; [apply significant_console, chatter_console; exact Hc | auto].
  - rewrite xai_find_is_gemini_find.
    destruct (cloud_find_frame name h s) as (Hc & Hf & Ht).
    split; [apply significant_console, chatter_console; exact Hc | auto].
  - destruct (ollama_find_frame name h s) as ((rest & -> & Hc) & Ht & Hf).
    split; [| auto].
    apply significant_console. constructor; [reflexivity | apply chatter_console; exact Hc].
Qed.

Lemma runs_parse_args {Args} (step : CliArg -> Args -> Step Args) d argv h s :
  match consume step argv d false with
  | Namespace ns => Runs (parse_args step d argv h s) (Py.Returns ns) s []
  | Help => Runs (parse_args step d argv h s) (Py.Exits 0) s []
  | Error => Runs (parse_args step d argv h s) (Py.Exits 2) s []
  end.
Proof.
  rewrite parse_args_run.
  destruct (consume step argv d false); apply runs_intro; reflexivity.
Qed.

(** A run of two parts, the first of which is a [find_prompt_file]. *)
Lemma runs_after_find {B} v name (tail : string -> M B) h s :
  match outcome (find_prompt_file v name h s) with
  | Py.Returns pf =>
      forall o s' sig,
        Runs (tail pf h (final (find_prompt_file v name h s))) o s' sig ->
        Runs (bind (find_prompt_file v name) tail h s) o s' sig
  | Py.Raises e =>
      Runs (bind (find_prompt_file v name) tail h s) (Py.Raises e)
           (final (find_prompt_file v name h s)) []
  | Py.Exits c =>
      c = 1%Z
      /\ Runs (bind (find_prompt_file v name) tail h s) (Py.Exits 1)
              (final (find_prompt_file v name h s)) []
  end.
Proof.
  destruct (find_frame v name h s) as (Hs & _).
  destruct (outcome (find_prompt_file v name h s)) as [pf | e | c] eqn:Ho.
  - intros o s' sig Ht.
    eapply runs_bind; [split; [exact Ho | split; [reflexivity | exact Hs]] | exact Ht | reflexivity].
  - apply runs_bind_raises. repeat split; assumption.
  - pose proof (find_exits v name h s c Ho) as ->. split; [reflexivity |].
    apply runs_bind_exits. repeat split; assumption.
Qed.

Lemma runs_ends {A} (r : Run A) o s' sig : Runs r o s' sig -> Ends r o (st_fs s') sig.
Proof. intros (Ho & Hf & He). unfold Ends. rewrite Hf. auto. Qed.

(** The whole of [main] of [gemini_api.py], by cases. *)
Lemma gemini_main_summary argv h s :
  let r := Gemini.main argv h s in
  match consume Gemini.add_arguments argv Gemini.defaults false with
  | Namespace args =>
      match outcome (Gemini.find_prompt_file (Gemini.prompt args) h s) with
      | Py.Returns pf =>
          let fs2 := with_dir "reports" (st_fs s) in
          let out := output_path "gemini" (Gemini.output args) pf (clock h (st_tick s)) in
          let ts := strftime_iso (clock h (S (st_tick s))) in
          match lookup "reports" (st_fs s) with
          | Some (File _) => exists e, Ends r (Py.Raises e) (st_fs s) []
          | _ =>
              match lookup pf fs2 with
              | Some (File prompt) =>
                  let c := Gemini.metadata (PathLib.stem pf) ts
                           ++ gemini_answer h (gemini_client h) (Gemini.model args) prompt in
                  Ends r (Py.Returns tt) (saved out c fs2)
                       (OpenRead pf :: gemini_calls (gemini_client h) (Gemini.model args) prompt
                        ++ save_events out c fs2)%list
              | _ => exists e, Ends r (Py.Raises e) fs2 [OpenRead pf]
              end
          end
      | Py.Raises e => Ends r (Py.Raises e) (st_fs s) []
      | Py.Exits _ => Ends r (Py.Exits 1) (st_fs s) []
      end
  | Help => Ends r (Py.Exits 0) (st_fs s) []
  | Error => Ends r (Py.Exits 2) (st_fs s) []
  end.
Proof.
  cbv zeta. rewrite gemini_main_unfold.
  pose proof (runs_parse_args Gemini.add_arguments Gemini.defaults argv h s) as Hp.
  destruct (consume Gemini.add_arguments argv Gemini.defaults false) as [args | |].
  2: { apply runs_ends with (s' := s). apply runs_bind_exits. exact Hp. }
  2: { apply runs_ends with (s' := s). apply runs_bind_exits. exact Hp. }
  pose proof (runs_after_find CloudA (Gemini.prompt args) (gemini_tail args) h s) as Hf.
  destruct (find_frame CloudA (Gemini.prompt args) h s) as (_ & Ht & Hfs).
  cbn [find_prompt_file] in *.
  set (s1 := final (Gemini.find_prompt_file (Gemini.prompt args) h s)) in *.
  destruct (outcome (Gemini.find_prompt_file (Gemini.prompt args) h s)) as [pf | e | c].
  - pose proof (gemini_tail_run args pf h s1) as Hr. cbv zeta in Hr.
    rewrite Ht, Hfs in Hr.
    destruct (lookup "reports" (st_fs s)) as [[c0 |] |].
    + destruct Hr as (e & Hr). exists e.
      apply (runs_ends _ _ (later 1 (st_fs s) s1)). chain Hp. apply Hf. exact Hr.
    + destruct (lookup pf (with_dir "reports" (st_fs s))) as [[prompt |] |].
      * unfold saved, save_events.
        refine (runs_ends _ _ (later 2 _ s1) _ _). chain Hp. apply Hf. exact Hr.
      * destruct Hr as (e & Hr). exists e.
        apply (runs_ends _ _ (later 1 (with_dir "reports" (st_fs s)) s1)).
        chain Hp. apply Hf. exact Hr.
      * destruct Hr as (e & Hr). exists e.
        apply (runs_ends _ _ (later 1 (with_dir "reports" (st_fs s)) s1)).
        chain Hp. apply Hf. exact Hr.
    + destruct (lookup pf (with_dir "reports" (st_fs s))) as [[prompt |] |].
      * unfold saved, save_events.
        refine (runs_ends _ _ (later 2 _ s1) _ _). chain Hp. apply Hf. exact Hr.
      * destruct Hr as (e & Hr). exists e.
        apply (runs_ends _ _ (later 1 (with_dir "reports" (st_fs s)) s1)).
        chain Hp. apply Hf. exact Hr.
      * destruct Hr as (e & Hr). exists e.
        apply (runs_ends _ _ (later 1 (with_dir "reports" (st_fs s)) s1)).
        chain Hp. apply Hf. exact Hr.
  - rewrite <- Hfs. apply runs_ends. chain Hp. exact Hf.
  - rewrite <- Hfs. apply runs_ends. chain Hp. apply Hf.
Qed.

(** The whole of [main] of [xai_prompt_submitter.py], by cases. *)
Lemma xai_main_summary argv h s :
  let r := XAI.main argv h s in
  match consume XAI.add_arguments argv XAI.defaults false with
  | Namespace args =>
      match outcome (XAI.find_prompt_file (XAI.prompt args) h s) with
      | Py.Returns pf =>
          let fs2 := with_dir "reports" (st_fs s) in
          let out := output_path "xai" (XAI.output args) pf (clock h (st_tick s)) in
          let ts := strftime_iso (clock h (S (st_tick s))) in
          match lookup "reports" (st_fs s) with
          | Some (File _) => exists e, Ends r (Py.Raises e) (st_fs s) []
          | _ =>
              match xai_client h with
              | Py.Returns client =>
                  match lookup pf fs2 with
                  | Some (File prompt) =>
                      let c := XAI.metadata (PathLib.stem pf) ts ++ xai_answer h client prompt in
                      Ends r (Py.Returns tt) (saved out c fs2)
                           (OpenRead pf :: xai_calls client prompt ++ save_events out c fs2)%list
                  | _ => exists e, Ends r (Py.Raises e) fs2 [OpenRead pf]
                  end
              | Py.Raises e => Ends r (Py.Raises e) fs2 []
              | Py.Exits _ => False
              end
          end
      | Py.Raises e => Ends r (Py.Raises e) (st_fs s) []
      | Py.Exits _ => Ends r (Py.Exits 1) (st_fs s) []
      end
  | Help => Ends r (Py.Exits 0) (st_fs s) []
  | Error => Ends r (Py.Exits 2) (st_fs s) []
  end.
Proof.
  cbv zeta. rewrite xai_main_unfold.
  pose proof (runs_parse_args XAI.add_arguments XAI.defaults argv h s) as Hp.
  destruct (consume XAI.add_arguments argv XAI.defaults false) as [args | |].
  2: { apply runs_ends with (s' := s). apply runs_bind_exits. exact Hp. }
  2: { apply runs_ends with (s' := s). apply runs_bind_exits. exact Hp. }
  pose proof (runs_after_find CloudB (XAI.prompt args) (xai_tail args) h s) as Hf.
  destruct (find_frame CloudB (XAI.prompt args) h s) as (_ & Ht & Hfs).
  cbn [find_prompt_file] in *.
  set (s1 := final (XAI.find_prompt_file (XAI.prompt args) h s)) in *.
  destruct (outcome (XAI.find_prompt_file (XAI.prompt args) h s)) as [pf | e | c].
  - pose proof (xai_tail_run args pf h s1) as Hr. cbv zeta in Hr.
    rewrite Ht, Hfs in Hr.
    destruct (lookup "reports" (st_fs s)) as [[c0 |] |].
    1: { destruct Hr as (e & Hr). exists e.
         apply (runs_ends _ _ (later 1 (st_fs s) s1)). chain Hp. apply Hf. exact Hr. }
    all: destruct (xai_client h) as [client | e | code]; [| | exact Hr].
    all: try (apply (runs_ends _ _ (later 1 (with_dir "reports" (st_fs s)) s1));
              chain Hp; apply Hf; exact Hr).
    all: destruct (lookup pf (with_dir "reports" (st_fs s))) as [[prompt |] |].
    all: try (destruct Hr as (e & Hr); exists e;
              apply (runs_ends _ _ (later 1 (with_dir "reports" (st_fs s)) s1));
              chain Hp; apply Hf; exact Hr).
    all: unfold saved, save_events;
      refine (runs_ends _ _ (later 2 _ s1) _ _); chain Hp; apply Hf; exact Hr.
  - rewrite <- Hfs. apply runs_ends. chain Hp. exact Hf.
  - rewrite <- Hfs. apply runs_ends. chain Hp. apply Hf.
Qed.

Lemma runs_print_models models : forall h s,
  Runs (Ollama.print_models models h s) (Py.Returns tt) s [].
Proof.
  induction models as [| m rest IH]; intros h s; cbn [Ollama.print_models].
  - apply runs_ret.
  - eapply runs_bind; [apply runs_print | apply IH | reflexivity].
Qed.

(** The [--list-models] branch returns, whatever the daemon does. *)
Lemma runs_ollama_listing h s :
  Runs (ollama_listing h s) (Py.Returns tt) s [OllamaList].
Proof.
  unfold ollama_listing.
  assert (Hemit : Runs (emit OllamaList h s) (Py.Returns tt) s [OllamaList])
    by (apply runs_intro; reflexivity).
  destruct (ollama_list h) as [e | [models |]] eqn:El.
  - eapply runs_try_caught with (e := e) (s1 := s) (sig1 := [OllamaList]);
      [| reflexivity | | reflexivity].
    + eapply runs_bind; [apply runs_print | | reflexivity]. chain Hemit.
      eapply runs_bind; [apply runs_intro; reflexivity | | reflexivity].
      cbn [ask]. rewrite El. apply runs_intro; reflexivity.
    + eapply runs_bind; [apply runs_print | apply runs_print | reflexivity].
  - apply runs_try_returns.
    eapply runs_bind; [apply runs_print | | reflexivity]. chain Hemit.
    eapply runs_bind; [apply runs_intro; reflexivity | | reflexivity].
    cbn [ask]. rewrite El. apply runs_print_models.
  - apply runs_try_returns.
    eapply runs_bind; [apply runs_print | | reflexivity]. chain Hemit.
    eapply runs_bind; [apply runs_intro; reflexivity | | reflexivity].
    cbn [ask]. rewrite El. apply runs_print.
Qed.

(** The whole of [main] of [ollama_prompt_submitter.py], by cases. *)
Lemma ollama_main_summary argv h s :
  let r := Ollama.main argv h s in
  match consume Ollama.add_arguments argv Ollama.defaults false with
  | Namespace args =>
      if Ollama.list_models args then Ends r (Py.Returns tt) (st_fs s) [OllamaList]
      else
        match outcome (Ollama.find_prompt_file (Ollama.prompt args) h s) with
        | Py.Returns pf =>
            let fs1 := st_fs (final (Ollama.find_prompt_file (Ollama.prompt args) h s)) in
            let fs2 := with_dir "reports" fs1 in
            let m := ollama_model (Some (Ollama.arg_model args)) in
            let out := output_path "ollama" (Ollama.output args) pf (clock h (st_tick s)) in
            let ts := strftime_iso (clock h (S (st_tick s))) in
            match lookup "reports" fs1 with
            | Some (File _) => exists e, Ends r (Py.Raises e) fs1 []
            | _ =>
                match ollama_init_failure h m with
                | Some e => Ends r (Py.Exits 1) fs2 (ollama_init_calls h m)
                | None =>
                    match lookup pf fs2 with
                    | Some (File prompt) =>
                        let c := Ollama.metadata {| Ollama.model := m |} (PathLib.stem pf) ts
                                 ++ ollama_answer h m prompt in
                        Ends r (Py.Returns tt) (saved out c fs2)
                             (ollama_init_calls h m ++ OpenRead pf :: OllamaGenerate m prompt
                              :: save_events out c fs2)%list
                    | _ => Ends r (Py.Exits 1) fs2 (ollama_init_calls h m ++ [OpenRead pf])%list
                    end
                end
            end
        | Py.Raises e =>
            Ends r (Py.Raises e)
                 (st_fs (final (Ollama.find_prompt_file (Ollama.prompt args) h s))) []
        | Py.Exits _ =>
            Ends r (Py.Exits 1)
                 (st_fs (final (Ollama.find_prompt_file (Ollama.prompt args) h s))) []
        end
  | Help => Ends r (Py.Exits 0) (st_fs s) []
  | Error => Ends r (Py.Exits 2) (st_fs s) []
  end.
Proof.
  cbv zeta. rewrite ollama_main_unfold.
  pose proof (runs_parse_args Ollama.add_arguments Ollama.defaults argv h s) as Hp.
  destruct (consume Ollama.add_arguments argv Ollama.defaults false) as [args | |].
  2: { apply runs_ends with (s' := s). apply runs_bind_exits. exact Hp. }
  2: { apply runs_ends with (s' := s). apply runs_bind_exits. exact Hp. }
  destruct (Ollama.list_models args) eqn:Hl.
  { apply runs_ends with (s' := s). chain Hp. cbv beta. rewrite Hl.
    apply runs_ollama_listing. }
  assert (Hp' : forall o s' sig,
            Runs ((prompt_file <- Ollama.find_prompt_file (Ollama.prompt args) ;;
                   ollama_tail args prompt_file) h s) o s' sig ->
            Runs ((args <- parse_args Ollama.add_arguments Ollama.defaults argv ;;
                   if Ollama.list_models args then ollama_listing
                   else prompt_file <- Ollama.find_prompt_file (Ollama.prompt args) ;;
                        ollama_tail args prompt_file) h s) o s' sig).
  { intros o s' sig Hr. chain Hp. cbv beta. rewrite Hl. exact Hr. }
  clear Hp.
  pose proof (runs_after_find Local (Ollama.prompt args) (ollama_tail args) h s) as Hf.
  destruct (find_frame Local (Ollama.prompt args) h s) as (_ & Ht & _).
  cbn [find_prompt_file] in *.
  set (s1 := final (Ollama.find_prompt_file (Ollama.prompt args) h s)) in *.
  destruct (outcome (Ollama.find_prompt_file (Ollama.prompt args) h s)) as [pf | e | c].
  - pose proof (ollama_tail_run args pf h s1) as Hr. cbv zeta in Hr.
    rewrite Ht in Hr.
    destruct (lookup "reports" (st_fs s1)) as [[c0 |] |].
    1: { destruct Hr as (e & Hr). exists e.
         apply (runs_ends _ _ (later 1 (st_fs s1) s1)). apply Hp'. apply Hf. exact Hr. }
    all: destruct (ollama_init_failure h (ollama_model (Some (Ollama.arg_model args)))) as [e |].
    all: try (apply (runs_ends _ _ (later 1 (with_dir "reports" (st_fs s1)) s1));
              apply Hp'; apply Hf; exact Hr).
    all: destruct (lookup pf (with_dir "reports" (st_fs s1))) as [[prompt |] |].
    all: try (apply (runs_ends _ _ (later 1 (with_dir "reports" (st_fs s1)) s1));
              apply Hp'; apply Hf; exact Hr).
    all: unfold saved, save_events;
      refine (runs_ends _ _ (later 2 _ s1) _ _); apply Hp'; apply Hf; exact Hr.
  - apply runs_ends. apply Hp'. exact Hf.
  - apply runs_ends. apply Hp'. apply Hf.
Qed.

(** ** C2: a failed submission is a saved artifact *)

Lemma error_artifact_shape v e : heading_and_code_block (error_artifact v e) (Py.exn_msg e).
Proof.
  destruct v; cbn [error_artifact].
  - exists "Gemini API Error", "". reflexivity.
  - exists "xAI API Error", "". reflexivity.
  - exists "Ollama API Error", "Error calling Ollama API: ".
    unfold Ollama.error_response. now rewrite !append_assoc.
Qed.

Lemma submit_prompt_catches sub prompt model e h s :
  calls_service sub model ->
  service_raises (script_of sub) h model prompt e ->
  outcome (submit_prompt sub prompt model h s) = Py.Returns (error_artifact (script_of sub) e)
  /\ final (submit_prompt sub prompt model h s) = s.
Proof.
  destruct sub as [self | self | self]; cbn [calls_service script_of service_raises
    submit_prompt error_artifact]; intros Hc Hr.
  - destruct (runs_gemini_submit self prompt model h s) as (Ho & Hf & _).
    rewrite Ho, Hf. unfold gemini_answer. rewrite Hr.
    destruct (Gemini.client self); [auto | congruence].
  - destruct Hc as (Hc & ->).
    destruct (runs_xai_submit self prompt h s) as (Ho & Hf & _).
    rewrite Ho, Hf. unfold xai_answer. rewrite Hr.
    destruct (XAI.client self); [auto | congruence].
  - subst model.
    destruct (runs_ollama_submit self prompt h s) as (Ho & Hf & _).
    rewrite Ho, Hf. unfold ollama_answer. rewrite Hr. auto.
Qed.

Lemma ends_submitted {A} (r : Run A) o fs sig :
  Ends r o fs sig -> submitted (events r) = submitted sig.
Proof. intros (_ & _ & <-). symmetry. apply submitted_significant. Qed.

Lemma ends_written {A} (r : Run A) o fs sig :
  Ends r o fs sig -> written (events r) = written sig.
Proof. intros (_ & _ & <-). symmetry. apply written_significant. Qed.

Lemma ends_opened {A} (r : Run A) o fs sig :
  Ends r o fs sig -> opened (events r) = opened sig.
Proof. intros (_ & _ & <-). symmetry. apply opened_significant. Qed.

Lemma ends_refused {A} (r : Run A) o fs sig :
  Ends r o fs sig -> refused (events r) = refused sig.
Proof. intros (_ & _ & <-). symmetry. apply refused_significant. Qed.

Lemma ends_pulled {A} (r : Run A) o fs sig :
  Ends r o fs sig -> pulled (events r) = pulled sig.
Proof. intros (_ & _ & <-). symmetry. apply pulled_significant. Qed.

(** Rewrite the projections of a summed-up run. *)
Ltac project H :=
  rewrite ?(ends_submitted _ _ _ _ H), ?(ends_written _ _ _ _ H),
    ?(ends_opened _ _ _ _ H), ?(ends_refused _ _ _ _ H), ?(ends_pulled _ _ _ _ H) in *.

Lemma gemini_error_saved argv h s model prompt e :
  In (model, prompt) (submitted (events (Gemini.main argv h s))) ->
  genai_generate_content h model prompt = GenaiRaises e ->
  refused (events (Gemini.main argv h s)) = [] ->
  outcome (Gemini.main argv h s) = Py.Returns tt
  /\ exists out content,
       written (events (Gemini.main argv h s)) = [(out, content)]
       /\ is_report CloudA content (error_artifact CloudA e)
       /\ lookup out (st_fs (final (Gemini.main argv h s))) = Some (File content).
Proof.
  intros Hin Hr Href.
  pose proof (gemini_main_summary argv h s) as H. cbv zeta in H.
  destruct (consume Gemini.add_arguments argv Gemini.defaults false) as [args | |].
  2, 3: project H; contradiction.
  destruct (outcome (Gemini.find_prompt_file (Gemini.prompt args) h s)) as [pf | e0 | c0].
  2, 3: project H; contradiction.
  destruct (lookup "reports" (st_fs s)) as [[c0 |] |].
  1: destruct H as (e0 & H); project H; contradiction.
  all: destruct (lookup pf (with_dir "reports" (st_fs s))) as [[text |] |];
    try (destruct H as (e0 & H); project H; cbn in Hin; contradiction).
  all: project H; destruct H as (Ho & Hfs & _); unfold save_events, saved in *;
    destruct (gemini_client h) as [k |];
    destruct (writable _ (with_dir "reports" (st_fs s)));
    cbn in Hin, Href; try contradiction; try discriminate;
    destruct Hin as [Hin | []]; injection Hin as <- <-;
    unfold gemini_answer in *; rewrite Hr in *;
    (split; [exact Ho |]); eexists _, _;
    (split; [reflexivity |]); (split; [eexists _, _; reflexivity |]);
    rewrite Hfs; apply lookup_store_eq.
Qed.

Lemma xai_error_saved argv h s model prompt e :
  In (model, prompt) (submitted (events (XAI.main argv h s))) ->
  chat_completions_create h model prompt = ChatRaises e ->
  refused (events (XAI.main argv h s)) = [] ->
  outcome (XAI.main argv h s) = Py.Returns tt
  /\ exists out content,
       written (events (XAI.main argv h s)) = [(out, content)]
       /\ is_report CloudB content (error_artifact CloudB e)
       /\ lookup out (st_fs (final (XAI.main argv h s))) = Some (File content).
Proof.
  intros Hin Hr Href.
  pose proof (xai_main_summary argv h s) as H. cbv zeta in H.
  destruct (consume XAI.add_arguments argv XAI.defaults false) as [args | |].
  2, 3: project H; contradiction.
  destruct (outcome (XAI.find_prompt_file (XAI.prompt args) h s)) as [pf | e0 | c0].
  2, 3: project H; contradiction.
  destruct (lookup "reports" (st_fs s)) as [[c0 |] |].
  1: destruct H as (e0 & H); project H; contradiction.
  all: destruct (xai_client h) as [client | e0 | c0]; [| project H; contradiction | contradiction].
  all: destruct (lookup pf (with_dir "reports" (st_fs s))) as [[text |] |];
    try (destruct H as (e0 & H); project H; cbn in Hin; contradiction).
  all: project H; destruct H as (Ho & Hfs & _); unfold save_events, saved in *;
    destruct client as [k |];
    destruct (writable _ (with_dir "reports" (st_fs s)));
    cbn in Hin, Href; try contradiction; try discriminate;
    destruct Hin as [Hin | []]; injection Hin as <- <-;
    unfold xai_answer in *; rewrite Hr in *;
    (split; [exact Ho |]); eexists _, _;
    (split; [reflexivity |]); (split; [eexists _, _; reflexivity |]);
    rewrite Hfs; apply lookup_store_eq.
Qed.

Lemma submitted_app a b : submitted (a ++ b)%list = (submitted a ++ submitted b)%list.
Proof. apply flat_map_app. Qed.

Lemma written_app a b : written (a ++ b)%list = (written a ++ written b)%list.
Proof. apply flat_map_app. Qed.

Lemma opened_app a b : opened (a ++ b)%list = (opened a ++ opened b)%list.
Proof. apply flat_map_app. Qed.

Lemma refused_app a b : refused (a ++ b)%list = (refused a ++ refused b)%list.
Proof. apply flat_map_app. Qed.

(** The constructor of the Ollama submitter submits, opens and writes
    nothing. *)
Lemma ollama_init_calls_quiet h m :
  submitted (ollama_init_calls h m) = []
  /\ written (ollama_init_calls h m) = []
  /\ opened (ollama_init_calls h m) = []
  /\ refused (ollama_init_calls h m) = [].
Proof.
  unfold ollama_init_calls.
  destruct (ollama_list h) as [e | models]; [repeat split |].
  destruct (in_catalog m models); repeat split.
Qed.

Lemma ollama_error_saved argv h s model prompt e :
  In (model, prompt) (submitted (events (Ollama.main argv h s))) ->
  ollama_generate h model prompt = GenerateRaises e ->
  refused (events (Ollama.main argv h s)) = [] ->
  outcome (Ollama.main argv h s) = Py.Returns tt
  /\ exists out content,
       written (events (Ollama.main argv h s)) = [(out, content)]
       /\ is_report Local content (error_artifact Local e)
       /\ lookup out (st_fs (final (Ollama.main argv h s))) = Some (File content).
Proof.
  intros Hin Hr Href.
  pose proof (ollama_main_summary argv h s) as H. cbv zeta in H.
  destruct (consume Ollama.add_arguments argv Ollama.defaults false) as [args | |].
  2, 3: project H; contradiction.
  destruct (Ollama.list_models args).
  1: project H; contradiction.
  destruct (outcome (Ollama.find_prompt_file (Ollama.prompt args) h s)) as [pf | e0 | c0].
  2, 3: project H; contradiction.
  set (fs1 := st_fs (final (Ollama.find_prompt_file (Ollama.prompt args) h s))) in *.
  remember (ollama_model (Some (Ollama.arg_model args))) as m eqn:Hm.
  destruct (ollama_init_calls_quiet h m) as (Qs & Qw & Qo & Qr).
  destruct (lookup "reports" fs1) as [[c0 |] |].
  1: destruct H as (e0 & H); project H; contradiction.
  all: destruct (ollama_init_failure h m) as [e0 |];
    [project H; rewrite Qs in Hin; contradiction |].
  all: destruct (lookup pf (with_dir "reports" fs1)) as [[text |] |];
    try (project H; rewrite submitted_app, Qs in Hin; cbn in Hin; contradiction).
  all: project H; destruct H as (Ho & Hfs & _); unfold save_events, saved in *;
    rewrite submitted_app, Qs in Hin; rewrite refused_app, Qr in Href;
    rewrite written_app, Qw;
    destruct (writable _ (with_dir "reports" fs1));
    cbn in Hin, Href; try discriminate;
    destruct Hin as [Hin | []]; injection Hin as <- <-;
    unfold ollama_answer in *; rewrite Hr in *;
    (split; [exact Ho |]); eexists _, _;
    (split; [reflexivity |]); (split; [eexists _, _, _; reflexivity |]);
    rewrite Hfs; apply lookup_store_eq.
Qed.

(** C2. In each script, when the network call of [submit_prompt] raises,
    the exception is caught where the call is made and [submit_prompt]
    returns a text made of a markdown heading and a fenced block holding
    the error detail.  [main] then goes on: unless the file system refuses
    the write, it writes one file, the script's header followed by that
    text, and in any case it returns, so the process exits with status 0. *)
Theorem submission_error_is_caught_and_saved :
  forall (v : Script) (argv : list CliArg) (h : Host) (s : State)
         (model prompt : string) (e : Py.exn),
  In (model, prompt) (submitted (events (main v argv h s))) ->
  service_raises v h model prompt e ->
  refused (events (main v argv h s)) = [] ->
  let r := main v argv h s in
  (forall sub s', script_of sub = v -> calls_service sub model ->
     outcome (submit_prompt sub prompt model h s') = Py.Returns (error_artifact v e)
     /\ final (submit_prompt sub prompt model h s') = s')
  /\ heading_and_code_block (error_artifact v e) (Py.exn_msg e)
  /\ outcome r = Py.Returns tt
  /\ Py.exit_status (outcome r) = 0%Z
  /\ exists out content,
       written (events r) = [(out, content)]
       /\ is_report v content (error_artifact v e)
       /\ lookup out (st_fs (final r)) = Some (File content).
Proof.
  intros v argv h s model prompt e Hin Hr Href r. subst r.
  split.
  { intros sub s' <- Hc. apply submit_prompt_catches; assumption. }
  split; [apply error_artifact_shape |].
  assert (H : outcome (main v argv h s) = Py.Returns tt
              /\ exists out content,
                   written (events (main v argv h s)) = [(out, content)]
                   /\ is_report v content (error_artifact v e)
                   /\ lookup out (st_fs (final (main v argv h s))) = Some (File content)).
  { destruct v; cbn [main service_raises] in *.
    - apply (gemini_error_saved argv h s model prompt e); assumption.
    - apply (xai_error_saved argv h s model prompt e); assumption.
    - apply (ollama_error_saved argv h s model prompt e); assumption. }
  destruct H as (Ho & Hw). rewrite Ho. repeat split; auto.
Qed.

(** ** C5: no credential, simulation *)

Lemma lookup_with_dir q n d fs : lookup q fs = Some n -> lookup q (with_dir d fs) = Some n.
Proof.
  intros H. unfold with_dir. destruct (lookup d fs) eqn:E; [exact H |].
  rewrite lookup_store_ne; [exact H |]. intros ->. congruence.
Qed.

Lemma gemini_client_without_key h :
  Py.truthy_opt (getenv h "GEMINI_API_KEY") = false -> gemini_client h = None.
Proof.
  unfold gemini_client. destruct (getenv h "GEMINI_API_KEY") as [k |]; [| reflexivity].
  cbn [Py.truthy_opt]. intros ->. reflexivity.
Qed.

Lemma xai_client_without_key h :
  Py.truthy_opt (getenv h "XAI_API_KEY") = false -> xai_client h = Py.Returns None.
Proof.
  unfold xai_client. destruct (getenv h "XAI_API_KEY") as [k |]; [| reflexivity].
  cbn [Py.truthy_opt]. intros ->. reflexivity.
Qed.

Lemma construct_without_key v h s :
  v <> Local ->
  Py.truthy_opt (getenv h (key_name v)) = false ->
  exists sub,
    outcome (construct v h s) = Py.Returns sub
    /\ forall prompt model s',
         outcome (submit_prompt sub prompt model h s') = Py.Returns (simulation_text v)
         /\ submitted (events (submit_prompt sub prompt model h s')) = [].
Proof.
  intros Hv Hk. destruct v; [| | congruence]; cbn [key_name construct simulation_text] in *.
  - destruct (runs_gemini_init h s) as (self & (Ho & Hf & _) & Hc).
    rewrite (gemini_client_without_key h Hk) in Hc.
    exists (GeminiSelf self). split; [rewrite bind_outcome, Ho; reflexivity |].
    intros prompt model s'. cbn [submit_prompt].
    destruct (runs_gemini_submit self prompt model h s') as (Ho' & _ & He').
    rewrite <- submitted_significant, Ho', He', Hc. split; reflexivity.
  - pose proof (runs_xai_init h s) as Hi.
    rewrite (xai_client_without_key h Hk) in Hi.
    destruct Hi as (self & (Ho & Hf & _) & Hc).
    exists (XAISelf self). split; [rewrite bind_outcome, Ho; reflexivity |].
    intros prompt model s'. cbn [submit_prompt].
    destruct (runs_xai_submit self prompt h s') as (Ho' & _ & He').
    rewrite <- submitted_significant, Ho', He', Hc. split; reflexivity.
Qed.

Lemma gemini_simulation_saved argv h s pf prompt :
  Py.truthy_opt (getenv h "GEMINI_API_KEY") = false ->
  In pf (opened (events (Gemini.main argv h s))) ->
  lookup pf (st_fs s) = Some (File prompt) ->
  refused (events (Gemini.main argv h s)) = [] ->
  outcome (Gemini.main argv h s) = Py.Returns tt
  /\ submitted (events (Gemini.main argv h s)) = []
  /\ exists out content,
       written (events (Gemini.main argv h s)) = [(out, content)]
       /\ is_report CloudA content Gemini.simulation_response
       /\ lookup out (st_fs (final (Gemini.main argv h s))) = Some (File content).
Proof.
  intros Hk Hin Hpf Href.
  pose proof (gemini_main_summary argv h s) as H. cbv zeta in H.
  rewrite (gemini_client_without_key h Hk) in H.
  destruct (consume Gemini.add_arguments argv Gemini.defaults false) as [args | |].
  2, 3: project H; contradiction.
  destruct (outcome (Gemini.find_prompt_file (Gemini.prompt args) h s)) as [pf' | e0 | c0].
  2, 3: project H; contradiction.
  destruct (lookup "reports" (st_fs s)) as [[c0 |] |] eqn:Hrep.
  1: destruct H as (e0 & H); project H; contradiction.
  all: destruct (lookup pf' (with_dir "reports" (st_fs s))) as [[text |] |] eqn:Hl;
    try (destruct H as (e0 & H); project H; cbn in Hin; destruct Hin as [-> | []];
         rewrite (lookup_with_dir _ _ _ _ Hpf) in Hl; discriminate).
  all: project H; destruct H as (Ho & Hfs & _); unfold save_events, saved in *;
    destruct (writable _ (with_dir "reports" (st_fs s)));
    cbn in Href; try discriminate;
    (split; [exact Ho |]); (split; [reflexivity |]); eexists _, _;
    (split; [reflexivity |]); (split; [eexists _, _; reflexivity |]);
    rewrite Hfs; apply lookup_store_eq.
Qed.

Lemma xai_simulation_saved argv h s pf prompt :
  Py.truthy_opt (getenv h "XAI_API_KEY") = false ->
  In pf (opened (events (XAI.main argv h s))) ->
  lookup pf (st_fs s) = Some (File prompt) ->
  refused (events (XAI.main argv h s)) = [] ->
  outcome (XAI.main argv h s) = Py.Returns tt
  /\ submitted (events (XAI.main argv h s)) = []
  /\ exists out content,
       written (events (XAI.main argv h s)) = [(out, content)]
       /\ is_report CloudB content XAI.simulation_response
       /\ lookup out (st_fs (final (XAI.main argv h s))) = Some (File content).
Proof.
  intros Hk Hin Hpf Href.
  pose proof (xai_main_summary argv h s) as H. cbv zeta in H.
  rewrite (xai_client_without_key h Hk) in H.
  destruct (consume XAI.add_arguments argv XAI.defaults false) as [args | |].
  2, 3: project H; contradiction.
  destruct (outcome (XAI.find_prompt_file (XAI.prompt args) h s)) as [pf' | e0 | c0].
  2, 3: project H; contradiction.
  destruct (lookup "reports" (st_fs s)) as [[c0 |] |] eqn:Hrep.
  1: destruct H as (e0 & H); project H; contradiction.
  all: destruct (lookup pf' (with_dir "reports" (st_fs s))) as [[text |] |] eqn:Hl;
    try (destruct H as (e0 & H); project H; cbn in Hin; destruct Hin as [-> | []];
         rewrite (lookup_with_dir _ _ _ _ Hpf) in Hl; discriminate).
  all: project H; destruct H as (Ho & Hfs & _); unfold save_events, saved in *;
    destruct (writable _ (with_dir "reports" (st_fs s)));
    cbn in Href; try discriminate;
    (split; [exact Ho |]); (split; [reflexivity |]); eexists _, _;
    (split; [reflexivity |]); (split; [eexists _, _; reflexivity |]);
    rewrite Hfs; apply lookup_store_eq.
Qed.

(** C5. In the two cloud scripts, when the environment holds no key the
    submitter is built without a client, and [submit_prompt] returns, for
    every prompt, one fixed text that contains "Simulation", without any
    network call.  A run of [main] that gets to read its prompt file then
    returns (exit status 0), and, unless the file system refuses the
    write, it writes one file: the script's header followed by that
    text. *)
Theorem missing_credential_means_simulation :
  forall (v : Script) (argv : list CliArg) (h : Host) (s : State) (pf prompt : string),
  v <> Local ->
  Py.truthy_opt (getenv h (key_name v)) = false ->
  In pf (opened (events (main v argv h s))) ->
  lookup pf (st_fs s) = Some (File prompt) ->
  refused (events (main v argv h s)) = [] ->
  let r := main v argv h s in
  (forall s0, exists sub,
     outcome (construct v h s0) = Py.Returns sub
     /\ forall prompt' model s',
          outcome (submit_prompt sub prompt' model h s') = Py.Returns (simulation_text v)
          /\ submitted (events (submit_prompt sub prompt' model h s')) = [])
  /\ Py.contains "Simulation" (simulation_text v) = true
  /\ outcome r = Py.Returns tt
  /\ Py.exit_status (outcome r) = 0%Z
  /\ submitted (events r) = []
  /\ exists out content,
       written (events r) = [(out, content)]
       /\ is_report v content (simulation_text v)
       /\ lookup out (st_fs (final r)) = Some (File content).
Proof.
  intros v argv h s pf prompt Hv Hk Hin Hpf Href r. subst r.
  split; [intros s0; apply construct_without_key; assumption |].
  split; [destruct v; [reflexivity | reflexivity | congruence] |].
  assert (H : outcome (main v argv h s) = Py.Returns tt
              /\ submitted (events (main v argv h s)) = []
              /\ exists out content,
                   written (events (main v argv h s)) = [(out, content)]
                   /\ is_report v content (simulation_text v)
                   /\ lookup out (st_fs (final (main v argv h s))) = Some (File content)).
  { destruct v; [| | congruence]; cbn [main key_name simulation_text] in *.
    - apply (gemini_simulation_saved argv h s pf prompt); assumption.
    - apply (xai_simulation_saved argv h s pf prompt); assumption. }
  destruct H as (Ho & Hs & Hw). rewrite Ho. repeat split; auto.
Qed.

(** ** C9: the model named in the Gemini header *)

Lemma gemini_metadata_names_default name ts response :
  names_default_model (Gemini.metadata name ts ++ response)
  /\ has_line "model: gemini-2.5-flash-preview-04-17" (Gemini.metadata name ts ++ response).
Proof.
  split.
  - exists name, ts, response. unfold Gemini.metadata. now rewrite !append_assoc.
  - exists ("---" ++ LF ++ "prompt: " ++ name ++ LF ++ "submitted_at: " ++ ts ++ LF),
      ("---" ++ LF ++ LF ++ response).
    unfold Gemini.metadata. split; [now rewrite !append_assoc |].
    right. exists ("---" ++ LF ++ "prompt: " ++ name ++ LF ++ "submitted_at: " ++ ts).
    now rewrite !append_assoc.
Qed.

Lemma gemini_main_written argv h s :
  written (events (Gemini.main argv h s)) = []
  \/ exists out name ts response,
       written (events (Gemini.main argv h s)) = [(out, Gemini.metadata name ts ++ response)].
Proof.
  pose proof (gemini_main_summary argv h s) as H. cbv zeta in H.
  destruct (consume Gemini.add_arguments argv Gemini.defaults false) as [args | |].
  2, 3: project H; left; reflexivity.
  destruct (outcome (Gemini.find_prompt_file (Gemini.prompt args) h s)) as [pf | e0 | c0].
  2, 3: project H; left; reflexivity.
  destruct (lookup "reports" (st_fs s)) as [[c0 |] |].
  1: destruct H as (e0 & H); project H; left; reflexivity.
  all: destruct (lookup pf (with_dir "reports" (st_fs s))) as [[text |] |];
    try (destruct H as (e0 & H); project H; left; reflexivity).
  all: project H; unfold save_events;
    destruct (gemini_client h); destruct (writable _ (with_dir "reports" (st_fs s)));
    cbn; try (left; reflexivity); right; eexists _, _, _, _; reflexivity.
Qed.

(** C9. Every file the Gemini script writes has the header line
    [model: gemini-2.5-flash-preview-04-17], whatever [save_response] is
    given and whatever the command line of [main] is; and there is a run
    whose submission uses another model, chosen by [--model], while the
    file it writes still names that one. *)
Theorem gemini_header_names_the_default_model :
  (forall self response out name ts h s,
     Forall (fun pc => names_default_model (snd pc)
                       /\ has_line "model: gemini-2.5-flash-preview-04-17" (snd pc))
            (written (events (Gemini.save_response self response out name ts h s))))
  /\ (forall argv h s,
        Forall (fun pc => names_default_model (snd pc)
                          /\ has_line "model: gemini-2.5-flash-preview-04-17" (snd pc))
               (written (events (Gemini.main argv h s))))
  /\ (exists out content,
        let r := Gemini.main [OptValue "--prompt" "demo"; OptValue "--model" "gemini-2.0-flash"]
                             online (desk "") in
        submitted (events r) = [("gemini-2.0-flash", "Hello")]
        /\ written (events r) = [(out, content)]
        /\ names_default_model content).
Proof.
  split; [| split].
  - intros self response out name ts h s.
    change (Gemini.save_response self response out name ts)
      with (saving out (Gemini.metadata name ts ++ response)).
    rewrite saving_run. destruct (writable out (st_fs s)); cbn; constructor.
    + apply gemini_metadata_names_default.
    + constructor.
  - intros argv h s.
    destruct (gemini_main_written argv h s) as [-> | (out & name & ts & response & ->)];
      constructor; [apply gemini_metadata_names_default | constructor].
  - exists "reports/gemini_demo_20250602_132849.md",
      (Gemini.metadata "demo" "2025-06-02 13:28:50" ++ "answer of gemini-2.0-flash").
    cbv zeta. split; [vm_compute; reflexivity |].
    split; [vm_compute; reflexivity |].
    apply gemini_metadata_names_default.
Qed.

(** ** C3: the [--model] option *)

Lemma consume_snoc_set {Args} (step : CliArg -> Args -> Step Args) a (f : Args -> Args) :
  is_help a = false ->
  (forall ns, step a ns = Set_ (f ns)) ->
  forall argv ns stray,
    consume step (argv ++ [a]) ns stray =
    match consume step argv ns stray with
    | Namespace ns' => Namespace (f ns')
    | Help => Help
    | Error => Error
    end.
Proof.
  intros Hh Hs. induction argv as [| b rest IH]; intros ns stray; cbn [app consume].
  - rewrite Hh, Hs. destruct stray; reflexivity.
  - destruct (is_help b); [reflexivity |].
    destruct (step b ns); auto.
Qed.

Lemma consume_snoc_unrecognized {Args} (step : CliArg -> Args -> Step Args) a :
  is_help a = false ->
  (forall ns, step a ns = Unrecognized) ->
  forall argv ns stray,
    consume step (argv ++ [a]) ns stray =
    match consume step argv ns stray with
    | Namespace _ => Error
    | Help => Help
    | Error => Error
    end.
Proof.
  intros Hh Hs. induction argv as [| b rest IH]; intros ns stray; cbn [app consume].
  - rewrite Hh, Hs. destruct stray; reflexivity.
  - destruct (is_help b); [reflexivity |].
    destruct (step b ns); auto.
Qed.

Lemma gemini_main_submitted argv h s :
  match consume Gemini.add_arguments argv Gemini.defaults false with
  | Namespace args =>
      Forall (fun mp => fst mp = Gemini.model args) (submitted (events (Gemini.main argv h s)))
  | _ => submitted (events (Gemini.main argv h s)) = []
  end.
Proof.
  pose proof (gemini_main_summary argv h s) as H. cbv zeta in H.
  destruct (consume Gemini.add_arguments argv Gemini.defaults false) as [args | |].
  2, 3: project H; reflexivity.
  destruct (outcome (Gemini.find_prompt_file (Gemini.prompt args) h s)) as [pf | e0 | c0].
  2, 3: project H; constructor.
  destruct (lookup "reports" (st_fs s)) as [[c0 |] |].
  1: destruct H as (e0 & H); project H; constructor.
  all: destruct (lookup pf (with_dir "reports" (st_fs s))) as [[text |] |];
    try (destruct H as (e0 & H); project H; constructor).
  all: project H; unfold save_events;
    destruct (gemini_client h); destruct (writable _ (with_dir "reports" (st_fs s)));
    cbn; repeat constructor.
Qed.

Lemma xai_main_submitted argv h s :
  match consume XAI.add_arguments argv XAI.defaults false with
  | Namespace args =>
      Forall (fun mp => fst mp = "grok-3-beta") (submitted (events (XAI.main argv h s)))
  | _ => submitted (events (XAI.main argv h s)) = []
  end.
Proof.
  pose proof (xai_main_summary argv h s) as H. cbv zeta in H.
  destruct (consume XAI.add_arguments argv XAI.defaults false) as [args | |].
  2, 3: project H; reflexivity.
  destruct (outcome (XAI.find_prompt_file (XAI.prompt args) h s)) as [pf | e0 | c0].
  2, 3: project H; constructor.
  destruct (lookup "reports" (st_fs s)) as [[c0 |] |].
  1: destruct H as (e0 & H); project H; constructor.
  all: destruct (xai_client h) as [client | e0 | c0]; [| project H; constructor | contradiction].
  all: destruct (lookup pf (with_dir "reports" (st_fs s))) as [[text |] |];
    try (destruct H as (e0 & H); project H; constructor).
  all: project H; unfold save_events;
    destruct client; destruct (writable _ (with_dir "reports" (st_fs s)));
    cbn; repeat constructor.
Qed.

Lemma ollama_main_submitted argv h s :
  match consume Ollama.add_arguments argv Ollama.defaults false with
  | Namespace args =>
      Forall (fun mp => fst mp = ollama_model (Some (Ollama.arg_model args)))
             (submitted (events (Ollama.main argv h s)))
  | _ => submitted (events (Ollama.main argv h s)) = []
  end.
Proof.
  pose proof (ollama_main_summary argv h s) as H. cbv zeta in H.
  destruct (consume Ollama.add_arguments argv Ollama.defaults false) as [args | |].
  2, 3: project H; reflexivity.
  destruct (Ollama.list_models args).
  1: project H; constructor.
  destruct (outcome (Ollama.find_prompt_file (Ollama.prompt args) h s)) as [pf | e0 | c0].
  2, 3: project H; constructor.
  set (fs1 := st_fs (final (Ollama.find_prompt_file (Ollama.prompt args) h s))) in *.
  remember (ollama_model (Some (Ollama.arg_model args))) as m eqn:Hm.
  destruct (ollama_init_calls_quiet h m) as (Qs & Qw & Qo & Qr).
  destruct (lookup "reports" fs1) as [[c0 |] |].
  1: destruct H as (e0 & H); project H; constructor.
  all: destruct (ollama_init_failure h m) as [e0 |];
    [project H; rewrite Qs; constructor |].
  all: destruct (lookup pf (with_dir "reports" fs1)) as [[text |] |];
    try solve [project H; rewrite submitted_app, Qs; cbn; constructor].
  all: project H; rewrite submitted_app, Qs; unfold save_events;
    destruct (writable _ (with_dir "reports" fs1)); cbn; repeat constructor.
Qed.

Lemma gemini_honours_model_option : honours_model_option CloudA.
Proof.
  intros argv m h s _ Hacc. unfold accepted in *. cbn [main].
  pose proof (gemini_main_submitted (argv ++ [OptValue "--model" m]) h s) as H.
  rewrite (consume_snoc_set Gemini.add_arguments (OptValue "--model" m)
             (fun ns => {| Gemini.prompt := Gemini.prompt ns;
                           Gemini.output := Gemini.output ns;
                           Gemini.model := m |}) eq_refl (fun ns => eq_refl)) in *.
  destruct (consume Gemini.add_arguments argv Gemini.defaults false) as [args | |];
    try discriminate.
  split; [reflexivity | exact H].
Qed.

Lemma ollama_honours_model_option : honours_model_option Local.
Proof.
  intros argv m h s Hm Hacc. unfold accepted in *. cbn [main].
  pose proof (ollama_main_submitted (argv ++ [OptValue "--model" m]) h s) as H.
  rewrite (consume_snoc_set Ollama.add_arguments (OptValue "--model" m)
             (fun ns => {| Ollama.prompt := Ollama.prompt ns;
                           Ollama.output := Ollama.output ns;
                           Ollama.arg_model := m;
                           Ollama.list_models := Ollama.list_models ns |})
             eq_refl (fun ns => eq_refl)) in *.
  destruct (consume Ollama.add_arguments argv Ollama.defaults false) as [args | |];
    try discriminate.
  split; [reflexivity |].
  cbn [Ollama.arg_model ollama_model] in H.
  destruct m as [| c m']; [congruence | exact H].
Qed.

Lemma xai_declares_no_model argv m :
  consume XAI.add_arguments (argv ++ [OptValue "--model" m]) XAI.defaults false =
  match consume XAI.add_arguments argv XAI.defaults false with
  | Namespace _ => Error
  | Help => Help
  | Error => Error
  end.
Proof.
  apply (consume_snoc_unrecognized XAI.add_arguments (OptValue "--model" m));
    [reflexivity | intros ns; reflexivity].
Qed.

(** C3, as the code has it.  The Gemini and the Ollama script honour
    [--model]: an accepted command line stays accepted when [--model m]
    (m not empty) is added at its end, and the run submits with model [m]
    only.  The xAI script declares no such option: no command line that
    ends with [--model m] is accepted, nothing is submitted then, the
    process exits with status 2 when the rest of the command line was
    acceptable, and whatever the command line, an xAI submission uses the
    model [grok-3-beta]. *)
Theorem model_option_by_script :
  honours_model_option CloudA
  /\ honours_model_option Local
  /\ (forall argv m h s,
        let r := main CloudB (argv ++ [OptValue "--model" m]) h s in
        accepted CloudB (argv ++ [OptValue "--model" m]) = false
        /\ submitted (events r) = []
        /\ (if accepted CloudB argv then outcome r = Py.Exits 2 else True))
  /\ (forall argv h s,
        Forall (fun mp => fst mp = "grok-3-beta") (submitted (events (main CloudB argv h s)))).
Proof.
  split; [exact gemini_honours_model_option |].
  split; [exact ollama_honours_model_option |].
  split.
  - intros argv m h s. cbv zeta. unfold accepted. cbn [main].
    pose proof (xai_main_submitted (argv ++ [OptValue "--model" m]) h s) as H.
    pose proof (xai_main_summary (argv ++ [OptValue "--model" m]) h s) as Hs.
    cbv zeta in Hs. rewrite xai_declares_no_model in *.
    destruct (consume XAI.add_arguments argv XAI.defaults false) as [args | |].
    + split; [reflexivity |]. split; [exact H |]. apply Hs.
    + split; [reflexivity |]. split; [exact H | exact I].
    + split; [reflexivity |]. split; [exact H | exact I].
  - intros argv h s. cbn [main].
    pose proof (xai_main_submitted argv h s) as H.
    destruct (consume XAI.add_arguments argv XAI.defaults false) as [args | |];
      [exact H | rewrite H; constructor | rewrite H; constructor].
Qed.

(** C3, as it is stated, fails for the xAI script: the command line
    [--prompt demo] is accepted and leads to a submission, but with
    [--model grok-2] added the parser rejects it, the process exits with
    status 2, and nothing is submitted.  (In the Ollama script an empty
    identifier does not override either: the constructor falls back to
    the default model.) *)
Lemma xai_rejects_the_model_option :
  submitted (events (main Local [OptValue "--prompt" "demo"; OptValue "--model" ""]
                          online (desk "")))
  = [("gemma3:12b-it-q8_0", "Hello")]
  /\ accepted CloudB [OptValue "--prompt" "demo"] = true
  /\ submitted (events (main CloudB [OptValue "--prompt" "demo"] online (desk "")))
     = [("grok-3-beta", "Hello")]
  /\ accepted CloudB ([OptValue "--prompt" "demo"] ++ [OptValue "--model" "grok-2"]) = false
  /\ outcome (main CloudB ([OptValue "--prompt" "demo"] ++ [OptValue "--model" "grok-2"])
                   online (desk "")) = Py.Exits 2
  /\ submitted (events (main CloudB ([OptValue "--prompt" "demo"] ++ [OptValue "--model" "grok-2"])
                             online (desk ""))) = []
  /\ ~ honours_model_option CloudB.
Proof.
  split; [vm_compute; reflexivity |].
  split; [reflexivity |]. split; [vm_compute; reflexivity |].
  split; [reflexivity |]. split; [vm_compute; reflexivity |].
  split; [vm_compute; reflexivity |].
  intros H.
  destruct (H [OptValue "--prompt" "demo"] "grok-2" online (desk "")) as (Ha & _);
    [discriminate | reflexivity | discriminate Ha].
Qed.

(** ** C7: when the constructor pulls *)

Lemma prefix_iff p : forall s, String.prefix p s = true <-> exists t, s = p ++ t.
Proof.
  induction p as [| a p IH]; intros s.
  - split; [intros _; exists s; reflexivity | intros _; destruct s; reflexivity].
  - destruct s as [| b s]; cbn [String.prefix].
    + split; [discriminate | intros (t & Ht); discriminate Ht].
    + destruct (Ascii.ascii_dec a b) as [<- | Hne].
      * rewrite IH. split; intros (t & Ht); exists t.
        -- cbn. now rewrite Ht.
        -- cbn in Ht. now injection Ht.
      * split; [discriminate |]. intros (t & Ht). cbn in Ht. injection Ht as Hb _.
        congruence.
Qed.

(** An entry matches when its name is the model, or the model followed
    by a colon and a tag. *)
Lemma matches_iff m n :
  Ollama.matches m n = true <-> n = m \/ exists tag, n = m ++ ":" ++ tag.
Proof.
  unfold Ollama.matches, Py.startswith. rewrite orb_true_iff, String.eqb_eq, prefix_iff.
  split; intros [H | (t & H)]; auto; right; exists t;
    [rewrite H, append_assoc | rewrite H, append_assoc]; reflexivity.
Qed.

Lemma in_catalog_iff m models :
  in_catalog m models = true <->
  exists mi, In mi (catalog models)
             /\ (Ollama.model_name_of mi = m
                 \/ exists tag, Ollama.model_name_of mi = m ++ ":" ++ tag).
Proof.
  unfold in_catalog. rewrite existsb_exists.
  split; intros (mi & Hin & H); exists mi; (split; [exact Hin |]); apply matches_iff; exact H.
Qed.

(** C7. When the daemon answers the listing, the constructor of the
    Ollama submitter pulls the requested model exactly when no entry of
    the catalog matches it, and it pulls nothing else; an entry matches
    when its name is the requested model, or the requested model followed
    by [:] and a tag. *)
Theorem constructor_pulls_iff_no_match :
  forall (model_arg : option string) (h : Host) (s : State)
         (models : option (list ModelInfo)),
  ollama_list h = ListResponse models ->
  let m := ollama_model model_arg in
  let r := Ollama.init model_arg h s in
  pulled (events r) = (if in_catalog m models then [] else [m])
  /\ (in_catalog m models = true <->
      exists mi, In mi (catalog models)
                 /\ (Ollama.model_name_of mi = m
                     \/ exists tag, Ollama.model_name_of mi = m ++ ":" ++ tag))
  /\ (In m (pulled (events r)) <->
      ~ exists mi, In mi (catalog models)
                   /\ (Ollama.model_name_of mi = m
                       \/ exists tag, Ollama.model_name_of mi = m ++ ":" ++ tag)).
Proof.
  intros model_arg h s models El m r. subst r.
  assert (Hp : pulled (events (Ollama.init model_arg h s))
               = (if in_catalog m models then [] else [m])).
  { pose proof (runs_ollama_init model_arg h s) as H. cbv zeta in H. fold m in H.
    assert (Hs : significant (events (Ollama.init model_arg h s)) = ollama_init_calls h m).
    { destruct (ollama_init_failure h m); apply H. }
    rewrite <- pulled_significant, Hs. unfold ollama_init_calls. rewrite El.
    destruct (in_catalog m models); reflexivity. }
  split; [exact Hp |]. split; [apply in_catalog_iff |].
  rewrite Hp, <- in_catalog_iff.
  destruct (in_catalog m models); cbn; split; intros H; try congruence; auto;
    try contradiction.
Qed.

(** ** C6: the daemon cannot be reached *)

Lemma file_of_store_dir q c d fs :
  lookup q (store d Dir fs) = Some (File c) -> lookup q fs = Some (File c).
Proof.
  destruct (String.eqb_spec d q) as [-> | Hne].
  - rewrite lookup_store_eq. discriminate.
  - rewrite lookup_store_ne by exact Hne. auto.
Qed.

Lemma file_of_with_dir q c d fs :
  lookup q (with_dir d fs) = Some (File c) -> lookup q fs = Some (File c).
Proof.
  unfold with_dir. destruct (lookup d fs); [auto | apply file_of_store_dir].
Qed.

(** C6. When the listing of the daemon raises, the constructor of the
    Ollama submitter raises that exception at once: it pulls nothing and
    returns no submitter.  A run of [main] that is not a [--list-models]
    run then ends with exit status 1, without opening a prompt file,
    without a submission, and without writing a file: the files are the
    ones that were there. *)
Theorem unreachable_daemon_is_fatal :
  forall (argv : list CliArg) (h : Host) (s : State) (e : Py.exn) (args : Ollama.Args),
  ollama_list h = ListRaises e ->
  consume Ollama.add_arguments argv Ollama.defaults false = Namespace args ->
  Ollama.list_models args = false ->
  let r := Ollama.main argv h s in
  (forall model_arg s',
     outcome (Ollama.init model_arg h s') = Py.Raises e
     /\ final (Ollama.init model_arg h s') = s'
     /\ pulled (events (Ollama.init model_arg h s')) = [])
  /\ Py.exit_status (outcome r) = 1%Z
  /\ opened (events r) = []
  /\ submitted (events r) = []
  /\ written (events r) = []
  /\ (forall q c, lookup q (st_fs (final r)) = Some (File c) ->
                  lookup q (st_fs s) = Some (File c)).
Proof.
  intros argv h s e args El Hc Hl r. subst r.
  assert (Hfail : forall m, ollama_init_failure h m = Some e)
    by (intros m; unfold ollama_init_failure; rewrite El; reflexivity).
  assert (Hcalls : forall m, ollama_init_calls h m = [OllamaList])
    by (intros m; unfold ollama_init_calls; rewrite El; reflexivity).
  split.
  { intros model_arg s'.
    pose proof (runs_ollama_init model_arg h s') as H. cbv zeta in H.
    rewrite Hfail, Hcalls in H. destruct H as (Ho & Hf & Hs).
    rewrite <- pulled_significant, Hs. auto. }
  pose proof (ollama_main_summary argv h s) as H. cbv zeta in H.
  rewrite Hc, Hl in H.
  destruct (find_frame Local (Ollama.prompt args) h s) as (_ & _ & Hfs).
  cbn [find_prompt_file] in Hfs.
  set (fs1 := st_fs (final (Ollama.find_prompt_file (Ollama.prompt args) h s))) in *.
  assert (Hkeep : forall q c, lookup q fs1 = Some (File c) -> lookup q (st_fs s) = Some (File c)).
  { intros q c Hq. destruct Hfs as [<- | (_ & Hst)]; [exact Hq |].
    rewrite Hst in Hq. eapply file_of_store_dir. exact Hq. }
  destruct (outcome (Ollama.find_prompt_file (Ollama.prompt args) h s)) as [pf | e0 | c0].
  2, 3: project H; destruct H as (Ho & Hf & _); rewrite Ho, Hf; repeat split; auto.
  destruct (lookup "reports" fs1) as [[c0 |] |].
  1: destruct H as (e0 & H); project H; destruct H as (Ho & Hf & _); rewrite Ho, Hf;
     repeat split; auto.
  all: rewrite Hfail, Hcalls in H; project H; destruct H as (Ho & Hf & _);
    rewrite Ho, Hf; repeat split; auto;
    intros q c Hq; apply Hkeep; eapply file_of_with_dir; exact Hq.
Qed.

(** ** C10: listing the models *)

Lemma list_models_step a ns ns' :
  (Ollama.add_arguments a ns = Set_ ns' \/ Ollama.add_arguments a ns = SetStray ns') ->
  (Ollama.list_models ns = true \/ a = OptSwitch "--list-models") ->
  Ollama.list_models ns' = true.
Proof.
  unfold Ollama.add_arguments. intros Hs Hl.
  destruct a as [f v | f].
  - destruct Hl as [Hl | Hl]; [| discriminate].
    destruct (String.eqb f "--prompt"); [destruct Hs as [Hs | Hs]; inversion Hs; exact Hl |].
    destruct (String.eqb f "--output"); [destruct Hs as [Hs | Hs]; inversion Hs; exact Hl |].
    destruct (String.eqb f "--model"); [destruct Hs as [Hs | Hs]; inversion Hs; exact Hl |].
    destruct (String.eqb f "--list-models"); destruct Hs as [Hs | Hs]; inversion Hs.
    reflexivity.
  - destruct (String.eqb f "--prompt" || String.eqb f "--output" || String.eqb f "--model");
      [destruct Hs as [Hs | Hs]; discriminate |].
    destruct (String.eqb f "--list-models"); destruct Hs as [Hs | Hs]; inversion Hs.
    reflexivity.
Qed.

Lemma consume_list_models argv : forall ns stray args,
  (Ollama.list_models ns = true \/ In (OptSwitch "--list-models") argv) ->
  consume Ollama.add_arguments argv ns stray = Namespace args ->
  Ollama.list_models args = true.
Proof.
  induction argv as [| a rest IH]; intros ns stray args Hl Hc; cbn [consume] in Hc.
  - destruct stray; [discriminate |]. injection Hc as <-.
    destruct Hl as [Hl | []]. exact Hl.
  - destruct (is_help a); [discriminate |].
    assert (Hnext : forall ns', (Ollama.add_arguments a ns = Set_ ns'
                                 \/ Ollama.add_arguments a ns = SetStray ns') ->
                                Ollama.list_models ns' = true \/ In (OptSwitch "--list-models") rest).
    { intros ns' Hs. destruct Hl as [Hl | [Hl | Hl]]; [left | left | right; exact Hl].
      - eapply list_models_step; [exact Hs | left; exact Hl].
      - eapply list_models_step; [exact Hs | right; exact Hl]. }
    destruct (Ollama.add_arguments a ns) as [ns' | ns' | |] eqn:Ea.
    + eapply IH; [apply Hnext; left; reflexivity | exact Hc].
    + eapply IH; [apply Hnext; right; reflexivity | exact Hc].
    + discriminate.
    + destruct Hl as [Hl | [Hl | Hl]].
      * eapply IH; [left; exact Hl | exact Hc].
      * subst a. discriminate Ea.
      * eapply IH; [right; exact Hl | exact Hc].
Qed.

Lemma ollama_listing_of_unreachable h s e :
  ollama_list h = ListRaises e ->
  printed (events (ollama_listing h s)) =
  ["Available Ollama models:";
   "Error listing models: " ++ Py.exn_msg e;
   "Make sure the Ollama service is running. You can start it by running 'ollama serve' in a terminal."].
Proof.
  intros El. unfold ollama_listing.
  rewrite try_except_events, !bind_events, !bind_outcome. cbn [print emit ask outcome final events].
  rewrite El. reflexivity.
Qed.

(** C10. A run of the Ollama script whose accepted command line carries
    [--list-models] returns, so the process exits with status 0, whatever
    the daemon does: it opens no file, submits nothing, pulls nothing,
    writes nothing and leaves the file system as it is.  When the listing
    of the daemon raises, the exception is caught and the run prints the
    error and a hint. *)
Theorem list_models_returns_normally :
  forall (argv : list CliArg) (h : Host) (s : State) (args : Ollama.Args),
  In (OptSwitch "--list-models") argv ->
  consume Ollama.add_arguments argv Ollama.defaults false = Namespace args ->
  let r := Ollama.main argv h s in
  outcome r = Py.Returns tt
  /\ Py.exit_status (outcome r) = 0%Z
  /\ st_fs (final r) = st_fs s
  /\ opened (events r) = []
  /\ submitted (events r) = []
  /\ pulled (events r) = []
  /\ written (events r) = []
  /\ match ollama_list h with
     | ListRaises e =>
         printed (events r) =
         ["Available Ollama models:";
          "Error listing models: " ++ Py.exn_msg e;
          "Make sure the Ollama service is running. You can start it by running 'ollama serve' in a terminal."]
     | ListResponse _ => True
     end.
Proof.
  intros argv h s args Hin Hc r. subst r.
  assert (Hl : Ollama.list_models args = true)
    by (eapply consume_list_models; [right; exact Hin | exact Hc]).
  pose proof (ollama_main_summary argv h s) as H. cbv zeta in H.
  rewrite Hc, Hl in H. project H. destruct H as (Ho & Hf & _).
  rewrite Ho, Hf. repeat split; auto.
  destruct (ollama_list h) as [e |] eqn:El; [| exact I].
  rewrite ollama_main_unfold, bind_events, parse_args_run, Hc. cbn [outcome final events app].
  rewrite Hl. apply ollama_listing_of_unreachable. exact El.
Qed.

(** ** C8: who creates the prompts directory *)

Lemma made_dirs_chatter evs :
  Forall (fun e => chatter e = true) evs -> made_dirs evs = [].
Proof.
  induction 1 as [| e evs He _ IH]; [reflexivity |].
  unfold made_dirs in *. cbn [flat_map]. rewrite IH.
  destruct e; try discriminate; reflexivity.
Qed.

Lemma store_absent p n fs : lookup p fs = None -> store p n fs = (fs ++ [(p, n)])%list.
Proof.
  induction fs as [| [q m] r IH]; cbn; [reflexivity |].
  destruct (String.eqb q p); [discriminate |]. intros H. now rewrite IH.
Qed.

Lemma glob_after_makedirs fs :
  lookup "prompts" fs = None ->
  glob_txt "prompts" (store "prompts" Dir fs) = glob_txt "prompts" fs.
Proof.
  intros H. rewrite (store_absent _ _ _ H). unfold glob_txt.
  rewrite filter_app, map_app. cbn. apply app_nil_r.
Qed.

Lemma ollama_find_in_missing_dir name h s :
  lookup "prompts" (st_fs s) = None ->
  glob_txt "prompts" (st_fs s) = [] ->
  Py.truthy_opt name = false ->
  outcome (Ollama.find_prompt_file name h s) = Py.Exits 1
  /\ events (Ollama.find_prompt_file name h s) =
     [Makedirs "prompts"; Glob "prompts";
      Log ERROR "No prompt files found in prompts";
      Print "No prompt files found in prompts. Please create a prompt file in the 'prompts' directory."].
Proof.
  intros Hl Hg Hn. unfold Ollama.find_prompt_file. cbv zeta.
  change (PathLib.Path Ollama.PROMPTS_DIR) with "prompts".
  rewrite bind_outcome, bind_events, os_makedirs_run, Hl, Hn. cbn [outcome final events negb].
  rewrite bind_outcome, bind_events, glob_run. cbn [outcome final events st_fs].
  rewrite (glob_after_makedirs _ Hl), Hg. split; reflexivity.
Qed.

(** C8. With the prompts directory missing, [find_prompt_file] of the
    Ollama script first creates it, once, whether or not a prompt name is
    given; running it again changes nothing; and without a prompt name
    the then empty directory makes it report that no prompt files were
    found and end the process with [sys.exit(1)], without asking.
    [find_prompt_file] of the two cloud scripts never asks for a
    directory and leaves every file system as it is. *)
Theorem only_the_local_script_creates_the_prompts_directory :
  forall (name : option string) (h : Host) (s : State),
  lookup "prompts" (st_fs s) = None ->
  glob_txt "prompts" (st_fs s) = [] ->
  let r := find_prompt_file Local name h s in
  (exists rest, events r = Makedirs "prompts" :: rest /\ made_dirs rest = [])
  /\ st_fs (final r) = store "prompts" Dir (st_fs s)
  /\ is_dir "prompts" (st_fs (final r)) = true
  /\ (forall name' h',
        st_fs (final (find_prompt_file Local name' h' (final r))) = st_fs (final r))
  /\ (if Py.truthy_opt name then True
      else outcome r = Py.Exits 1
           /\ error_log (events r) = ["No prompt files found in prompts"]
           /\ asked (events r) = [])
  /\ (forall v name0 h0 s0, v <> Local ->
        made_dirs (events (find_prompt_file v name0 h0 s0)) = []
        /\ st_fs (final (find_prompt_file v name0 h0 s0)) = st_fs s0).
Proof.
  intros name h s Hl Hg r. subst r. cbn [find_prompt_file].
  destruct (ollama_find_frame name h s) as ((rest & He & Hc) & _ & Hfs).
  assert (Hst : st_fs (final (Ollama.find_prompt_file name h s)) = store "prompts" Dir (st_fs s)).
  { destruct Hfs as [Hfs | (_ & Hfs)]; [| exact Hfs].
    exfalso. revert Hfs. unfold Ollama.find_prompt_file. cbv zeta.
    change (PathLib.Path Ollama.PROMPTS_DIR) with "prompts".
    rewrite bind_final, os_makedirs_run, Hl. cbn [outcome final].
    match goal with
    | |- st_fs (final (?m h ?s1)) = _ -> _ =>
        assert (Hk : st_fs (final (m h s1)) = st_fs s1)
    end.
    { destruct (Py.truthy_opt name); cbn [negb].
      - unfold path_exists, bind, get_fs, ret. cbn.
        destruct (lookup (PathLib.join _ _) _); reflexivity.
      - rewrite bind_final, glob_run. cbn [outcome final].
        match goal with
        | |- context [glob_txt ?d ?fs] => destruct (glob_txt d fs) as [| p ps]
        end; [reflexivity |].
        apply (choose_frame (p :: ps)). }
    rewrite Hk. cbn [st_fs]. intros Heq.
    pose proof (lookup_store_eq "prompts" Dir (st_fs s)) as Hd.
    rewrite Heq in Hd. congruence. }
  split; [exists rest; split; [exact He | apply made_dirs_chatter; exact Hc] |].
  split; [exact Hst |].
  split; [unfold is_dir; rewrite Hst, lookup_store_eq; reflexivity |].
  split.
  { intros name' h'.
    destruct (ollama_find_frame name' h' (final (Ollama.find_prompt_file name h s)))
      as (_ & _ & [Hk | (Hn & _)]); [exact Hk |].
    rewrite Hst, lookup_store_eq in Hn. discriminate. }
  split.
  { destruct (Py.truthy_opt name) eqn:Hn; [exact I |].
    destruct (ollama_find_in_missing_dir name h s Hl Hg Hn) as (-> & ->).
    repeat split. }
  intros v name0 h0 s0 Hv. destruct v; [| | congruence]; cbn [find_prompt_file];
    try rewrite xai_find_is_gemini_find;
    destruct (cloud_find_frame name0 h0 s0) as (Hc0 & Hf0 & _);
    (split; [apply made_dirs_chatter; exact Hc0 | exact Hf0]).
Qed.

(** ** The theorems at sample worlds *)

(** The second of two listed prompts, chosen in the Ollama script. *)
Lemma interactive_selection_by_index_witness :
  interactive Local [] = true
  /\ is_dir "prompts" (st_fs (desk "2")) = true
  /\ glob_txt "prompts" (st_fs (desk "2")) = ["prompts/demo.txt"; "prompts/other.txt"]
  /\ st_stdin (desk "2") = ["2"]
  /\ outcome (find_prompt_file Local None offline (desk "2")) = Py.Returns "prompts/other.txt".
Proof.
  assert (H1 : interactive Local [] = true) by reflexivity.
  assert (H2 : is_dir "prompts" (st_fs (desk "2")) = true) by reflexivity.
  assert (H3 : glob_txt "prompts" (st_fs (desk "2"))
               = ["prompts/demo.txt"; "prompts/other.txt"]) by reflexivity.
  assert (H4 : ["prompts/demo.txt"; "prompts/other.txt"] <> []) by discriminate.
  assert (H5 : st_stdin (desk "2") = ["2"]) by reflexivity.
  pose proof (interactive_selection_by_index Local [] offline (desk "2") "2" []
                ["prompts/demo.txt"; "prompts/other.txt"] H1 H2 H3 H4 H5) as H.
  cbv zeta in H. destruct H as (_ & _ & H).
  change (Py.int "2") with (Some 2%Z) in H.
  change ((1 <=? 2) && (2 <=? Z.of_nat (List.length ["prompts/demo.txt"; "prompts/other.txt"])))%Z
    with true in H.
  destruct H as (p & Hp & Ho).
  change (nth_error ["prompts/demo.txt"; "prompts/other.txt"] (Z.to_nat (2 - 1)))
    with (Some "prompts/other.txt") in Hp.
  injection Hp as <-.
  repeat split; assumption.
Defined.

(** The Gemini script with a key, against a service that refuses. *)
Lemma submission_error_is_caught_and_saved_witness :
  In ("gemini-2.5-flash-preview-04-17", "Hello")
     (submitted (events (main CloudA [OptValue "--prompt" "demo"] failing (desk ""))))
  /\ service_raises CloudA failing "gemini-2.5-flash-preview-04-17" "Hello" unreachable
  /\ refused (events (main CloudA [OptValue "--prompt" "demo"] failing (desk ""))) = []
  /\ outcome (main CloudA [OptValue "--prompt" "demo"] failing (desk "")) = Py.Returns tt
  /\ exists out content,
       written (events (main CloudA [OptValue "--prompt" "demo"] failing (desk "")))
       = [(out, content)]
       /\ is_report CloudA content (error_artifact CloudA unreachable).
Proof.
  assert (H1 : In ("gemini-2.5-flash-preview-04-17", "Hello")
                  (submitted (events (main CloudA [OptValue "--prompt" "demo"] failing (desk "")))))
    by (vm_compute; left; reflexivity).
  assert (H2 : service_raises CloudA failing "gemini-2.5-flash-preview-04-17" "Hello" unreachable)
    by reflexivity.
  assert (H3 : refused (events (main CloudA [OptValue "--prompt" "demo"] failing (desk ""))) = [])
    by (vm_compute; reflexivity).
  pose proof (submission_error_is_caught_and_saved CloudA [OptValue "--prompt" "demo"] failing
                (desk "") "gemini-2.5-flash-preview-04-17" "Hello" unreachable H1 H2 H3) as H.
  cbv zeta in H. destruct H as (_ & _ & Ho & _ & out & content & Hw & Hr & _).
  repeat split; try assumption. exists out, content. split; assumption.
Defined.

(** The xAI script without a key. *)
Lemma missing_credential_means_simulation_witness :
  CloudB <> Local
  /\ Py.truthy_opt (getenv offline (key_name CloudB)) = false
  /\ In "prompts/demo.txt"
        (opened (events (main CloudB [OptValue "--prompt" "demo"] offline (desk ""))))
  /\ lookup "prompts/demo.txt" (st_fs (desk "")) = Some (File "Hello")
  /\ refused (events (main CloudB [OptValue "--prompt" "demo"] offline (desk ""))) = []
  /\ outcome (main CloudB [OptValue "--prompt" "demo"] offline (desk "")) = Py.Returns tt
  /\ exists out content,
       written (events (main CloudB [OptValue "--prompt" "demo"] offline (desk "")))
       = [(out, content)]
       /\ is_report CloudB content (simulation_text CloudB).
Proof.
  assert (H1 : CloudB <> Local) by discriminate.
  assert (H2 : Py.truthy_opt (getenv offline (key_name CloudB)) = false) by reflexivity.
  assert (H3 : In "prompts/demo.txt"
                  (opened (events (main CloudB [OptValue "--prompt" "demo"] offline (desk "")))))
    by (vm_compute; left; reflexivity).
  assert (H4 : lookup "prompts/demo.txt" (st_fs (desk "")) = Some (File "Hello")) by reflexivity.
  assert (H5 : refused (events (main CloudB [OptValue "--prompt" "demo"] offline (desk ""))) = [])
    by (vm_compute; reflexivity).
  pose proof (missing_credential_means_simulation CloudB [OptValue "--prompt" "demo"] offline
                (desk "") "prompts/demo.txt" "Hello" H1 H2 H3 H4 H5) as H.
  cbv zeta in H. destruct H as (_ & _ & Ho & _ & _ & out & content & Hw & Hr & _).
  repeat split; try assumption. exists out, content. split; assumption.
Defined.

(** The Ollama script with its daemon down. *)
Lemma unreachable_daemon_is_fatal_witness :
  ollama_list offline = ListRaises unreachable
  /\ consume Ollama.add_arguments [OptValue "--prompt" "demo"] Ollama.defaults false
     = Namespace {| Ollama.prompt := Some "demo"; Ollama.output := None;
                    Ollama.arg_model := Ollama.DEFAULT_MODEL; Ollama.list_models := false |}
  /\ Py.exit_status (outcome (Ollama.main [OptValue "--prompt" "demo"] offline (desk ""))) = 1%Z
  /\ opened (events (Ollama.main [OptValue "--prompt" "demo"] offline (desk ""))) = []
  /\ written (events (Ollama.main [OptValue "--prompt" "demo"] offline (desk ""))) = [].
Proof.
  assert (H1 : ollama_list offline = ListRaises unreachable) by reflexivity.
  assert (H2 : consume Ollama.add_arguments [OptValue "--prompt" "demo"] Ollama.defaults false
               = Namespace {| Ollama.prompt := Some "demo"; Ollama.output := None;
                              Ollama.arg_model := Ollama.DEFAULT_MODEL;
                              Ollama.list_models := false |}) by reflexivity.
  pose proof (unreachable_daemon_is_fatal [OptValue "--prompt" "demo"] offline (desk "")
                unreachable _ H1 H2 eq_refl) as H.
  cbv zeta in H. destruct H as (_ & He & Ho & _ & Hw & _).
  repeat split; assumption.
Defined.

(** A catalog that holds the requested model under a tag: no pull. *)
Lemma constructor_pulls_iff_no_match_witness :
  ollama_list online
  = ListResponse (Some [{| mi_model := Some "gemma3:12b-it-q8_0"; mi_name := None;
                           mi_size := Some 8149190253%Z; mi_modified_at := None |};
                        {| mi_model := None; mi_name := Some "llama3:latest";
                           mi_size := None; mi_modified_at := None |}])
  /\ pulled (events (Ollama.init (Some "llama3") online bare)) = []
  /\ pulled (events (Ollama.init (Some "mistral") online bare)) = ["mistral"].
Proof.
  assert (H1 : ollama_list online
               = ListResponse (Some [{| mi_model := Some "gemma3:12b-it-q8_0"; mi_name := None;
                                        mi_size := Some 8149190253%Z; mi_modified_at := None |};
                                     {| mi_model := None; mi_name := Some "llama3:latest";
                                        mi_size := None; mi_modified_at := None |}]))
    by reflexivity.
  pose proof (constructor_pulls_iff_no_match (Some "llama3") online bare _ H1) as Ha.
  pose proof (constructor_pulls_iff_no_match (Some "mistral") online bare _ H1) as Hb.
  cbv zeta in Ha, Hb. destruct Ha as (Ha & _). destruct Hb as (Hb & _).
  repeat split; assumption.
Defined.

(** The Ollama script in a directory without prompts. *)
Lemma only_the_local_script_creates_the_prompts_directory_witness :
  lookup "prompts" (st_fs bare) = None
  /\ glob_txt "prompts" (st_fs bare) = []
  /\ st_fs (final (find_prompt_file Local None offline bare)) = [("prompts", Dir)]
  /\ outcome (find_prompt_file Local None offline bare) = Py.Exits 1
  /\ st_fs (final (find_prompt_file CloudA None offline bare)) = [].
Proof.
  assert (H1 : lookup "prompts" (st_fs bare) = None) by reflexivity.
  assert (H2 : glob_txt "prompts" (st_fs bare) = []) by reflexivity.
  pose proof (only_the_local_script_creates_the_prompts_directory None offline bare H1 H2) as H.
  cbv zeta in H. destruct H as (_ & Hs & _ & _ & Hn & Hc).
  cbn [Py.truthy_opt] in Hn. destruct Hn as (Ho & _).
  destruct (Hc CloudA None offline bare) as (_ & Hf); [discriminate |].
  repeat split; assumption.
Defined.

(** [--list-models] with the daemon down. *)
Lemma list_models_returns_normally_witness :
  In (OptSwitch "--list-models") [OptSwitch "--list-models"]
  /\ consume Ollama.add_arguments [OptSwitch "--list-models"] Ollama.defaults false
     = Namespace {| Ollama.prompt := None; Ollama.output := None;
                    Ollama.arg_model := Ollama.DEFAULT_MODEL; Ollama.list_models := true |}
  /\ Py.exit_status (outcome (Ollama.main [OptSwitch "--list-models"] offline bare)) = 0%Z
  /\ printed (events (Ollama.main [OptSwitch "--list-models"] offline bare))
     = ["Available Ollama models:";
        "Error listing models: connection refused";
        "Make sure the Ollama service is running. You can start it by running 'ollama serve' in a terminal."].
Proof.
  assert (H1 : In (OptSwitch "--list-models") [OptSwitch "--list-models"])
    by (left; reflexivity).
  assert (H2 : consume Ollama.add_arguments [OptSwitch "--list-models"] Ollama.defaults false
               = Namespace {| Ollama.prompt := None; Ollama.output := None;
                              Ollama.arg_model := Ollama.DEFAULT_MODEL;
                              Ollama.list_models := true |}) by reflexivity.
  pose proof (list_models_returns_normally [OptSwitch "--list-models"] offline bare _ H1 H2) as H.
  cbv zeta in H. destruct H as (_ & He & _ & _ & _ & _ & _ & Hp).
  change (ollama_list offline) with (ListRaises unreachable) in Hp.
  repeat split; assumption.
Defined.

(** ** Supplement to C1: the saved file, line by line *)

Lemma split_lines_line a b :
  one_line a = true -> split_lines (a ++ LF ++ b) = a :: split_lines b.
Proof.
  induction a as [| c a IH]; cbn [one_line]; intros H.
  - reflexivity.
  - apply andb_prop in H as [Hc Ha]. apply negb_true_iff in Hc.
    cbn [append split_lines]. rewrite Hc, (IH Ha). reflexivity.
Qed.

(** When neither the prompt name nor the timestamp holds a line feed, the
    lines of the file the Gemini script writes are the five header lines,
    an empty line, and the lines of the response. *)
Lemma gemini_report_lines name ts response :
  one_line name = true -> one_line ts = true ->
  split_lines (Gemini.metadata name ts ++ response) =
  "---" :: ("prompt: " ++ name) :: ("submitted_at: " ++ ts)
  :: "model: gemini-2.5-flash-preview-04-17" :: "---" :: "" :: split_lines response.
Proof.
  intros Hn Ht. unfold Gemini.metadata. rewrite !append_assoc.
  rewrite (split_lines_line "---") by reflexivity.
  rewrite <- (append_assoc "prompt: " name), (split_lines_line ("prompt: " ++ name))
    by exact Hn.
  rewrite <- (append_assoc "submitted_at: " ts), (split_lines_line ("submitted_at: " ++ ts))
    by exact Ht.
  rewrite (split_lines_line "model: gemini-2.5-flash-preview-04-17") by reflexivity.
  rewrite (split_lines_line "---") by reflexivity.
  reflexivity.
Qed.

Lemma xai_report_lines name ts response :
  one_line name = true -> one_line ts = true ->
  split_lines (XAI.metadata name ts ++ response) =
  "---" :: ("prompt: " ++ name) :: ("submitted_at: " ++ ts)
  :: "---" :: "" :: split_lines response.
Proof.
  intros Hn Ht. unfold XAI.metadata. rewrite !append_assoc.
  rewrite (split_lines_line "---") by reflexivity.
  rewrite <- (append_assoc "prompt: " name), (split_lines_line ("prompt: " ++ name))
    by exact Hn.
  rewrite <- (append_assoc "submitted_at: " ts), (split_lines_line ("submitted_at: " ++ ts))
    by exact Ht.
  rewrite (split_lines_line "---") by reflexivity.
  reflexivity.
Qed.

Lemma ollama_report_lines self name ts response :
  one_line (Ollama.model self) = true -> one_line name = true -> one_line ts = true ->
  split_lines (Ollama.metadata self name ts ++ response) =
  "---" :: ("model: " ++ Ollama.model self) :: ("prompt: " ++ name)
  :: ("submitted_at: " ++ ts) :: "---" :: "" :: split_lines response.
Proof.
  intros Hm Hn Ht. unfold Ollama.metadata. rewrite !append_assoc.
  rewrite (split_lines_line "---") by reflexivity.
  rewrite <- (append_assoc "model: " (Ollama.model self)),
    (split_lines_line ("model: " ++ Ollama.model self)) by exact Hm.
  rewrite <- (append_assoc "prompt: " name), (split_lines_line ("prompt: " ++ name))
    by exact Hn.
  rewrite <- (append_assoc "submitted_at: " ts), (split_lines_line ("submitted_at: " ++ ts))
    by exact Ht.
  rewrite (split_lines_line "---") by reflexivity.
  reflexivity.
Qed.

(** * Further properties *)

(** ** The course of [main] *)

Lemma grown_refl fs : grown fs fs.
Proof. split; [intros q c; reflexivity | auto]. Qed.

Lemma grown_trans a b c : grown a b -> grown b c -> grown a c.
Proof.
  intros (F1 & D1) (F2 & D2). split.
  - intros q x. rewrite F2. apply F1.
  - intros q H. apply D2, D1. exact H.
Qed.

Lemma grown_store_dir d fs : lookup d fs = None -> grown fs (store d Dir fs).
Proof.
  intros Hn. split.
  - intros q c. split; [apply file_of_store_dir |].
    intros Hq. rewrite lookup_store_ne; [exact Hq |]. intros ->. congruence.
  - intros q Hq. rewrite lookup_store_ne; [exact Hq |]. intros ->. congruence.
Qed.

Lemma grown_with_dir d fs : grown fs (with_dir d fs).
Proof.
  unfold with_dir. destruct (lookup d fs) eqn:E; [apply grown_refl | apply grown_store_dir, E].
Qed.

Lemma ollama_init_calls_daemon h m : forallb daemon_call (ollama_init_calls h m) = true.
Proof.
  unfold ollama_init_calls. destruct (ollama_list h) as [e | models]; [reflexivity |].
  destruct (in_catalog m models); reflexivity.
Qed.

Lemma gemini_course argv h s :
  Completed CloudA argv h s (main CloudA argv h s) \/ Stopped s (main CloudA argv h s).
Proof.
  cbn [main]. pose proof (gemini_main_summary argv h s) as H. cbv zeta in H.
  assert (Hstop : forall o, Ends (Gemini.main argv h s) o (st_fs s) [] ->
                            Stopped s (Gemini.main argv h s)).
  { intros o (_ & Hf & Hs). exists []. rewrite Hf, Hs.
    split; [reflexivity | split; [left; reflexivity | apply grown_refl]]. }
  destruct (consume Gemini.add_arguments argv Gemini.defaults false) as [args | |] eqn:Hc;
    try (right; eapply Hstop; exact H).
  destruct (outcome (Gemini.find_prompt_file (Gemini.prompt args) h s)) as [pf | e0 | c0] eqn:Ho;
    try (right; eapply Hstop; exact H).
  assert (Hrd : forall e, Ends (Gemini.main argv h s) (Py.Raises e)
                               (with_dir "reports" (st_fs s)) [OpenRead pf] ->
                          Stopped s (Gemini.main argv h s)).
  { intros e (_ & Hf & Hs). exists []. rewrite Hf, Hs.
    split; [reflexivity | split; [right; exists pf; reflexivity | apply grown_with_dir]]. }
  assert (Hdone : forall prompt,
            lookup pf (with_dir "reports" (st_fs s)) = Some (File prompt) ->
            Ends (Gemini.main argv h s) (Py.Returns tt)
                 (saved (output_path "gemini" (Gemini.output args) pf (clock h (st_tick s)))
                        (Gemini.metadata (PathLib.stem pf) (strftime_iso (clock h (S (st_tick s))))
                         ++ gemini_answer h (gemini_client h) (Gemini.model args) prompt)
                        (with_dir "reports" (st_fs s)))
                 (OpenRead pf :: gemini_calls (gemini_client h) (Gemini.model args) prompt
                  ++ save_events
                       (output_path "gemini" (Gemini.output args) pf (clock h (st_tick s)))
                       (Gemini.metadata (PathLib.stem pf) (strftime_iso (clock h (S (st_tick s))))
                        ++ gemini_answer h (gemini_client h) (Gemini.model args) prompt)
                       (with_dir "reports" (st_fs s)))%list ->
            Completed CloudA argv h s (Gemini.main argv h s)).
  { intros prompt Hl (Hout & Hf & Hs).
    exists [], (Gemini.prompt args), (Gemini.output args), pf, prompt,
      (with_dir "reports" (st_fs s)), (Gemini.model args),
      (gemini_calls (gemini_client h) (Gemini.model args) prompt),
      (gemini_answer h (gemini_client h) (Gemini.model args) prompt).
    cbv zeta. cbn [invocation find_prompt_file backend_name header_of app].
    rewrite Hc. repeat split; try assumption; try apply grown_with_dir.
    destruct (gemini_client h); [right | left]; repeat split; discriminate. }
  destruct (lookup "reports" (st_fs s)) as [[c0 |] |].
  - destruct H as (e & H). right. eapply Hstop. exact H.
  - destruct (lookup pf (with_dir "reports" (st_fs s))) as [[prompt |] |] eqn:Hl.
    + left. eapply Hdone; [reflexivity | exact H].
    + destruct H as (e & H). right. eapply Hrd. exact H.
    + destruct H as (e & H). right. eapply Hrd. exact H.
  - destruct (lookup pf (with_dir "reports" (st_fs s))) as [[prompt |] |] eqn:Hl.
    + left. eapply Hdone; [reflexivity | exact H].
    + destruct H as (e & H). right. eapply Hrd. exact H.
    + destruct H as (e & H). right. eapply Hrd. exact H.
Qed.

Lemma xai_course argv h s :
  Completed CloudB argv h s (main CloudB argv h s) \/ Stopped s (main CloudB argv h s).
Proof.
  cbn [main]. pose proof (xai_main_summary argv h s) as H. cbv zeta in H.
  assert (Hstop : forall o, Ends (XAI.main argv h s) o (st_fs s) [] ->
                            Stopped s (XAI.main argv h s)).
  { intros o (_ & Hf & Hs). exists []. rewrite Hf, Hs.
    split; [reflexivity | split; [left; reflexivity | apply grown_refl]]. }
  destruct (consume XAI.add_arguments argv XAI.defaults false) as [args | |] eqn:Hc;
    try (right; eapply Hstop; exact H).
  destruct (outcome (XAI.find_prompt_file (XAI.prompt args) h s)) as [pf | e0 | c0] eqn:Ho;
    try (right; eapply Hstop; exact H).
  assert (Hinit : forall e, Ends (XAI.main argv h s) (Py.Raises e)
                                 (with_dir "reports" (st_fs s)) [] ->
                            Stopped s (XAI.main argv h s)).
  { intros e (_ & Hf & Hs). exists []. rewrite Hf, Hs.
    split; [reflexivity | split; [left; reflexivity | apply grown_with_dir]]. }
  assert (Hrd : forall e, Ends (XAI.main argv h s) (Py.Raises e)
                               (with_dir "reports" (st_fs s)) [OpenRead pf] ->
                          Stopped s (XAI.main argv h s)).
  { intros e (_ & Hf & Hs). exists []. rewrite Hf, Hs.
    split; [reflexivity | split; [right; exists pf; reflexivity | apply grown_with_dir]]. }
  assert (Hdone : forall client prompt,
            lookup pf (with_dir "reports" (st_fs s)) = Some (File prompt) ->
            Ends (XAI.main argv h s) (Py.Returns tt)
                 (saved (output_path "xai" (XAI.output args) pf (clock h (st_tick s)))
                        (XAI.metadata (PathLib.stem pf) (strftime_iso (clock h (S (st_tick s))))
                         ++ xai_answer h client prompt)
                        (with_dir "reports" (st_fs s)))
                 (OpenRead pf :: xai_calls client prompt
                  ++ save_events
                       (output_path "xai" (XAI.output args) pf (clock h (st_tick s)))
                       (XAI.metadata (PathLib.stem pf) (strftime_iso (clock h (S (st_tick s))))
                        ++ xai_answer h client prompt)
                       (with_dir "reports" (st_fs s)))%list ->
            Completed CloudB argv h s (XAI.main argv h s)).
  { intros client prompt Hl (Hout & Hf & Hs).
    exists [], (XAI.prompt args), (XAI.output args), pf, prompt,
      (with_dir "reports" (st_fs s)), "grok-3-beta",
      (xai_calls client prompt), (xai_answer h client prompt).
    cbv zeta. cbn [invocation find_prompt_file backend_name header_of app].
    rewrite Hc. repeat split; try assumption; try apply grown_with_dir.
    destruct client; [right | left]; repeat split; discriminate. }
  destruct (lookup "reports" (st_fs s)) as [[c0 |] |].
  1: { destruct H as (e & H). right. eapply Hstop. exact H. }
  all: destruct (xai_client h) as [client | e | c1];
    [| right; eapply Hinit; exact H | contradiction].
  all: destruct (lookup pf (with_dir "reports" (st_fs s))) as [[prompt |] |] eqn:Hl;
    [ left; eapply Hdone; [reflexivity | exact H]
    | destruct H as (e & H); right; eapply Hrd; exact H
    | destruct H as (e & H); right; eapply Hrd; exact H ].
Qed.

Lemma ollama_course argv h s :
  Completed Local argv h s (main Local argv h s) \/ Stopped s (main Local argv h s).
Proof.
  cbn [main]. pose proof (ollama_main_summary argv h s) as H. cbv zeta in H.
  assert (Hstop : forall o sig, forallb daemon_call sig = true ->
                    Ends (Ollama.main argv h s) o (st_fs s) sig ->
                    Stopped s (Ollama.main argv h s)).
  { intros o sig Hd (_ & Hf & Hs). exists sig. rewrite Hf, Hs.
    split; [exact Hd | split; [left; reflexivity | apply grown_refl]]. }
  destruct (consume Ollama.add_arguments argv Ollama.defaults false) as [args | |] eqn:Hc;
    try (right; eapply (Hstop _ []); [reflexivity | exact H]).
  destruct (Ollama.list_models args).
  { right. eapply (Hstop _ [OllamaList]); [reflexivity | exact H]. }
  destruct (find_frame Local (Ollama.prompt args) h s) as (_ & _ & Hfs).
  cbn [find_prompt_file] in Hfs.
  set (fs1 := st_fs (final (Ollama.find_prompt_file (Ollama.prompt args) h s))) in *.
  assert (G1 : grown (st_fs s) fs1).
  { destruct Hfs as [-> | (Hn & ->)]; [apply grown_refl | apply grown_store_dir, Hn]. }
  assert (G2 : grown (st_fs s) (with_dir "reports" fs1))
    by (eapply grown_trans; [exact G1 | apply grown_with_dir]).
  assert (Hs1 : forall o fs sig, grown (st_fs s) fs -> forallb daemon_call sig = true ->
                  Ends (Ollama.main argv h s) o fs sig -> Stopped s (Ollama.main argv h s)).
  { intros o fs sig Hg Hd (_ & Hf & Hs). exists sig. rewrite Hf, Hs.
    split; [exact Hd | split; [left; reflexivity | exact Hg]]. }
  destruct (outcome (Ollama.find_prompt_file (Ollama.prompt args) h s)) as [pf | e0 | c0] eqn:Ho;
    try (right; eapply (Hs1 _ fs1 []); [exact G1 | reflexivity | exact H]).
  remember (ollama_model (Some (Ollama.arg_model args))) as m eqn:Hm.
  pose proof (ollama_init_calls_daemon h m) as Hd.
  assert (Hrd : Ends (Ollama.main argv h s) (Py.Exits 1) (with_dir "reports" fs1)
                     (ollama_init_calls h m ++ [OpenRead pf])%list ->
                Stopped s (Ollama.main argv h s)).
  { intros (_ & Hf & Hs). exists (ollama_init_calls h m). rewrite Hf, Hs.
    split; [exact Hd | split; [right; exists pf; reflexivity | exact G2]]. }
  assert (Hdone : forall prompt,
            lookup pf (with_dir "reports" fs1) = Some (File prompt) ->
            Ends (Ollama.main argv h s) (Py.Returns tt)
                 (saved (output_path "ollama" (Ollama.output args) pf (clock h (st_tick s)))
                        (Ollama.metadata {| Ollama.model := m |} (PathLib.stem pf)
                           (strftime_iso (clock h (S (st_tick s))))
                         ++ ollama_answer h m prompt)
                        (with_dir "reports" fs1))
                 (ollama_init_calls h m ++ OpenRead pf :: OllamaGenerate m prompt
                  :: save_events
                       (output_path "ollama" (Ollama.output args) pf (clock h (st_tick s)))
                       (Ollama.metadata {| Ollama.model := m |} (PathLib.stem pf)
                          (strftime_iso (clock h (S (st_tick s))))
                        ++ ollama_answer h m prompt)
                       (with_dir "reports" fs1))%list ->
            Completed Local argv h s (Ollama.main argv h s)).
  { intros prompt Hl (Hout & Hf & Hs).
    exists (ollama_init_calls h m), (Ollama.prompt args), (Ollama.output args), pf, prompt,
      (with_dir "reports" fs1), m, [OllamaGenerate m prompt], (ollama_answer h m prompt).
    cbv zeta. cbn [invocation find_prompt_file backend_name header_of app].
    rewrite Hc. split; [reflexivity |]. split; [exact Ho |]. split; [exact Hout |].
    split; [exact Hs |]. split; [exact Hf |]. split; [exact G2 |]. split; [exact Hl |].
    split; [exact Hd |]. right. split; reflexivity. }
  destruct (lookup "reports" fs1) as [[c0 |] |].
  1: { destruct H as (e & H). right. eapply (Hs1 _ fs1 []); [exact G1 | reflexivity | exact H]. }
  all: destruct (ollama_init_failure h m) as [e |];
    [right; eapply (Hs1 _ _ _ G2 Hd); exact H |].
  all: destruct (lookup pf (with_dir "reports" fs1)) as [[prompt |] |] eqn:Hl;
    [ left; eapply Hdone; [reflexivity | exact H]
    | right; apply Hrd; exact H
    | right; apply Hrd; exact H ].
Qed.

(** Every run of [main] either goes through or stops with nothing to
    save. *)
Lemma main_course v argv h s :
  Completed v argv h s (main v argv h s) \/ Stopped s (main v argv h s).
Proof.
  destruct v; [apply gemini_course | apply xai_course | apply ollama_course].
Qed.

Lemma daemon_calls_quiet pre :
  forallb daemon_call pre = true ->
  opened pre = [] /\ submitted pre = [] /\ written pre = [] /\ refused pre = [].
Proof.
  induction pre as [| e pre IH]; [repeat split |].
  cbn [forallb]. intros H. apply andb_prop in H as [He Hp].
  destruct (IH Hp) as (Io & Is & Iw & Ir).
  destruct e; try discriminate; cbn; auto.
Qed.

Lemma skip_daemon_app pre rest :
  forallb daemon_call pre = true -> skip_daemon (pre ++ rest) = skip_daemon rest.
Proof.
  induction pre as [| e pre IH]; [reflexivity |].
  cbn [forallb app skip_daemon]. intros H. apply andb_prop in H as [He Hp].
  rewrite He. apply IH, Hp.
Qed.

Lemma skip_daemon_all pre : forallb daemon_call pre = true -> skip_daemon pre = [].
Proof.
  intros H. rewrite <- (app_nil_r pre). rewrite skip_daemon_app by exact H. reflexivity.
Qed.

Lemma submitted_submit_event v m p : submitted [submit_event v m p] = [(m, p)].
Proof. destruct v; reflexivity. Qed.

(** The projections of the events of a run that went through. *)
Lemma completed_projections pre pf calls out content fs2 :
  forallb daemon_call pre = true ->
  let sig := (pre ++ OpenRead pf :: calls ++ save_events out content fs2)%list in
  (calls = [] \/ exists v m p, calls = [submit_event v m p]) ->
  opened sig = [pf]
  /\ submitted sig = submitted calls
  /\ written sig = (if writable out fs2 then [(out, content)] else [])
  /\ refused sig = (if writable out fs2 then [] else [out]).
Proof.
  intros Hd sig Hc. subst sig.
  destruct (daemon_calls_quiet pre Hd) as (Qo & Qs & Qw & Qr).
  rewrite opened_app, submitted_app, written_app, refused_app, Qo, Qs, Qw, Qr.
  unfold save_events.
  destruct Hc as [-> | (v & m & p & ->)]; [| destruct v];
    destruct (writable out fs2); repeat split.
Qed.

Lemma stopped_projections s (r : Run unit) :
  Stopped s r ->
  submitted (events r) = [] /\ written (events r) = [] /\ refused (events r) = []
  /\ length (opened (events r)) <= 1
  /\ in_sequence (significant (events r)) = true.
Proof.
  intros (pre & Hd & Hs & _).
  destruct (daemon_calls_quiet pre Hd) as (Qo & Qs & Qw & Qr).
  rewrite <- submitted_significant, <- written_significant, <- refused_significant,
    <- opened_significant.
  destruct Hs as [-> | (pf & ->)].
  - rewrite Qo, Qs, Qw, Qr. unfold in_sequence. rewrite skip_daemon_all by exact Hd.
    repeat split. cbn. lia.
  - rewrite opened_app, submitted_app, written_app, refused_app, Qo, Qs, Qw, Qr.
    unfold in_sequence. rewrite skip_daemon_app by exact Hd.
    repeat split. cbn. lia.
Qed.

(** X1. Every run of [main], in each script, works in one sequence: calls
    to the daemon first (the Ollama script only), then one reading of the
    prompt file, then at most one submission, then one attempt to write.
    So a run reads at most one file, submits at most once and writes at
    most once, and it neither submits nor writes without having read. *)
Theorem main_works_in_one_sequence :
  forall (v : Script) (argv : list CliArg) (h : Host) (s : State),
  let evs := events (main v argv h s) in
  in_sequence (significant evs) = true
  /\ length (opened evs) <= 1
  /\ length (submitted evs) <= length (opened evs)
  /\ length (written evs) <= length (opened evs).
Proof.
  intros v argv h s evs. subst evs.
  destruct (main_course v argv h s) as [Hc | Hs].
  - destruct Hc as (pre & p & o & pf & prompt & fs2 & m & calls & answer & Hc).
    cbv zeta in Hc. destruct Hc as (_ & _ & _ & Hsig & _ & _ & _ & Hd & Hcalls).
    rewrite <- opened_significant, <- submitted_significant, <- written_significant, Hsig.
    assert (Hk : calls = [] \/ exists v m p, calls = [submit_event v m p]).
    { destruct Hcalls as [(-> & _) | (-> & _)]; [left; reflexivity | right; eauto]. }
    match type of Hsig with
    | context [save_events ?out ?content _] =>
        destruct (completed_projections pre pf calls out content fs2 Hd Hk)
          as (-> & -> & -> & _)
    end.
    split.
    + unfold in_sequence. rewrite skip_daemon_app by exact Hd. unfold save_events.
      destruct Hcalls as [(-> & _) | (-> & _)]; [| destruct v];
        destruct (writable _ fs2); reflexivity.
    + destruct Hcalls as [(-> & _) | (-> & _)]; [| rewrite submitted_submit_event];
        destruct (writable _ fs2); cbn; lia.
  - destruct (stopped_projections s _ Hs) as (-> & -> & _ & Ho & Hq).
    split; [exact Hq |]. cbn. lia.
Qed.

(** X2. A run of [main] changes no entry of the file system but the file
    it writes: every file or directory that was there and that the run
    did not write to is still there, unchanged. *)
Theorem main_changes_only_the_file_it_writes :
  forall (v : Script) (argv : list CliArg) (h : Host) (s : State) (q : string) (n : Node),
  lookup q (st_fs s) = Some n ->
  ~ In q (map fst (written (events (main v argv h s)))) ->
  lookup q (st_fs (final (main v argv h s))) = Some n.
Proof.
  intros v argv h s q n Hq Hw.
  assert (Hg : forall fs', grown (st_fs s) fs' -> lookup q fs' = Some n).
  { intros fs' (Hf & Hd). destruct n as [c |]; [apply Hf | apply Hd]; exact Hq. }
  destruct (main_course v argv h s) as [Hc | (pre & _ & _ & Hs)]; [| apply Hg, Hs].
  destruct Hc as (pre & p & o & pf & prompt & fs2 & m & calls & answer & Hc).
  cbv zeta in Hc. destruct Hc as (_ & _ & _ & Hsig & Hfs & Hgr & _ & Hd & Hcalls).
  assert (Hk : calls = [] \/ exists v m p, calls = [submit_event v m p]).
  { destruct Hcalls as [(-> & _) | (-> & _)]; [left; reflexivity | right; eauto]. }
  match type of Hsig with
  | context [save_events ?out ?content _] =>
      destruct (completed_projections pre pf calls out content fs2 Hd Hk)
        as (_ & _ & Hwr & _)
  end.
  rewrite <- written_significant, Hsig, Hwr in Hw. rewrite Hfs. unfold saved.
  destruct (writable _ fs2); [| apply Hg, Hgr].
  rewrite lookup_store_ne; [apply Hg, Hgr |].
  intros Heq. apply Hw. left. exact Heq.
Qed.

Lemma header_of_is_report v m name ts body : is_report v (header_of v m name ts ++ body) body.
Proof.
  destruct v; cbn [is_report header_of].
  - exists name, ts. reflexivity.
  - exists name, ts. reflexivity.
  - exists {| Ollama.model := m |}, name, ts. reflexivity.
Qed.

Lemma header_of_format v m name ts body :
  has_line ("prompt: " ++ name) (header_of v m name ts ++ body)
  /\ has_line ("submitted_at: " ++ ts) (header_of v m name ts ++ body).
Proof.
  destruct v; cbn [header_of].
  - destruct (gemini_content_format name ts body) as (_ & H1 & H2 & _). auto.
  - destruct (xai_content_format name ts body) as (_ & H1 & H2 & _). auto.
  - destruct (ollama_content_format {| Ollama.model := m |} name ts body) as (_ & H1 & H2 & _).
    auto.
Qed.

Lemma reply_text_of_answer v h m p t : service_answers v h m p t -> reply_text v h m p = t.
Proof.
  destruct v; cbn [service_answers reply_text]; unfold gemini_answer, ollama_answer.
  - intros ->. reflexivity.
  - intros (rest & ->). reflexivity.
  - intros ->. reflexivity.
Qed.

(** X3. In each script, when the network call answers with a text, that
    text is what the run saves, unchanged, after the header: [main]
    returns (exit status 0) and, unless the file system refuses the
    write, writes one file whose content is the script's header followed
    by exactly that text. *)
Theorem answer_is_saved_verbatim :
  forall (v : Script) (argv : list CliArg) (h : Host) (s : State) (model prompt t : string),
  In (model, prompt) (submitted (events (main v argv h s))) ->
  service_answers v h model prompt t ->
  refused (events (main v argv h s)) = [] ->
  let r := main v argv h s in
  outcome r = Py.Returns tt
  /\ exists out content,
       written (events r) = [(out, content)]
       /\ is_report v content t
       /\ body_after_header content t
       /\ lookup out (st_fs (final r)) = Some (File content).
Proof.
  intros v argv h s model prompt t Hin Ha Href r. subst r.
  destruct (main_course v argv h s) as [Hc | Hs].
  2: { destruct (stopped_projections s _ Hs) as (Hsub & _). rewrite Hsub in Hin. contradiction. }
  destruct Hc as (pre & p & o & pf & text & fs2 & m & calls & answer & Hc).
  cbv zeta in Hc. destruct Hc as (_ & _ & Ho & Hsig & Hfs & _ & _ & Hd & Hcalls).
  rewrite <- submitted_significant, Hsig in Hin.
  rewrite <- refused_significant, Hsig in Href.
  rewrite <- written_significant, Hsig.
  assert (Hk : calls = [] \/ exists v m p, calls = [submit_event v m p]).
  { destruct Hcalls as [(-> & _) | (-> & _)]; [left; reflexivity | right; eauto]. }
  match type of Hsig with
  | context [save_events ?out ?content _] =>
      destruct (completed_projections pre pf calls out content fs2 Hd Hk)
        as (_ & Hsub & Hwr & Hrf)
  end.
  rewrite Hsub in Hin. rewrite Hrf in Href. rewrite Hwr, Hfs. unfold saved.
  destruct Hcalls as [(-> & _) | (-> & ->)]; [contradiction |].
  rewrite submitted_submit_event in Hin. destruct Hin as [Hin | []].
  injection Hin as -> ->.
  rewrite (reply_text_of_answer v h model prompt t Ha) in *.
  destruct (writable _ fs2); [| discriminate].
  split; [exact Ho |]. eexists _, _. split; [reflexivity |].
  split; [apply header_of_is_report |].
  split; [| apply lookup_store_eq].
  destruct v; cbn [header_of].
  - apply gemini_content_format.
  - apply xai_content_format.
  - apply ollama_content_format.
Qed.

(** X4. Whenever a run of [main] writes a file, its path is the one given
    by [--output], or else [reports/<backend>_<stem>_<time>.md] with the
    stem of the prompt file that was found and the first reading of the
    clock; and its header names that stem as the prompt and the second
    reading of the clock, taken after the submission, as the time. *)
Theorem written_path_and_header :
  forall (v : Script) (argv : list CliArg) (h : Host) (s : State) (out content : string),
  In (out, content) (written (events (main v argv h s))) ->
  exists p o pf,
    invocation v argv = Namespace (p, o)
    /\ outcome (find_prompt_file v p h s) = Py.Returns pf
    /\ match o with
       | Some path => out = PathLib.Path path
       | None => out = "reports/" ++ backend_name v ++ "_" ++ PathLib.stem pf ++ "_"
                       ++ strftime_compact (clock h (st_tick s)) ++ ".md"
       end
    /\ has_line ("prompt: " ++ PathLib.stem pf) content
    /\ has_line ("submitted_at: " ++ strftime_iso (clock h (S (st_tick s)))) content.
Proof.
  intros v argv h s out content Hin.
  destruct (main_course v argv h s) as [Hc | Hs].
  2: { destruct (stopped_projections s _ Hs) as (_ & Hw & _). rewrite Hw in Hin. contradiction. }
  destruct Hc as (pre & p & o & pf & text & fs2 & m & calls & answer & Hc).
  cbv zeta in Hc. destruct Hc as (Hinv & Hfind & _ & Hsig & _ & _ & _ & Hd & Hcalls).
  rewrite <- written_significant, Hsig in Hin.
  assert (Hk : calls = [] \/ exists v m p, calls = [submit_event v m p]).
  { destruct Hcalls as [(-> & _) | (-> & _)]; [left; reflexivity | right; eauto]. }
  match type of Hsig with
  | context [save_events ?out ?content _] =>
      destruct (completed_projections pre pf calls out content fs2 Hd Hk)
        as (_ & _ & Hwr & _)
  end.
  rewrite Hwr in Hin. destruct (writable _ fs2); [| contradiction].
  destruct Hin as [Hin | []]. injection Hin as <- <-.
  exists p, o, pf. split; [exact Hinv |]. split; [exact Hfind |].
  split; [| apply header_of_format].
  destruct o as [path |]; [reflexivity |]. destruct v; reflexivity.
Qed.

Lemma ollama_header_model m name ts body :
  has_line ("model: " ++ m) (Ollama.metadata {| Ollama.model := m |} name ts ++ body).
Proof.
  exists ("---" ++ LF),
    ("prompt: " ++ name ++ LF ++ "submitted_at: " ++ ts ++ LF ++ "---" ++ LF ++ LF ++ body).
  unfold Ollama.metadata. cbn [Ollama.model]. split; [now rewrite !append_assoc |].
  right. exists "---". reflexivity.
Qed.

(** X5. In the Ollama script the header names the model the run worked
    with: when a run submits with a model and writes a file, the [model:]
    line of that file holds that very model. *)
Theorem ollama_header_names_the_model_used :
  forall (argv : list CliArg) (h : Host) (s : State) (out content model prompt : string),
  In (out, content) (written (events (main Local argv h s))) ->
  In (model, prompt) (submitted (events (main Local argv h s))) ->
  has_line ("model: " ++ model) content.
Proof.
  intros argv h s out content model prompt Hw Hin.
  destruct (main_course Local argv h s) as [Hc | Hs].
  2: { destruct (stopped_projections s _ Hs) as (Hsub & _). rewrite Hsub in Hin. contradiction. }
  destruct Hc as (pre & p & o & pf & text & fs2 & m & calls & answer & Hc).
  cbv zeta in Hc. destruct Hc as (_ & _ & _ & Hsig & _ & _ & _ & Hd & Hcalls).
  rewrite <- submitted_significant, Hsig in Hin.
  rewrite <- written_significant, Hsig in Hw.
  assert (Hk : calls = [] \/ exists v m p, calls = [submit_event v m p]).
  { destruct Hcalls as [(-> & _) | (-> & _)]; [left; reflexivity | right; eauto]. }
  match type of Hsig with
  | context [save_events ?out ?content _] =>
      destruct (completed_projections pre pf calls out content fs2 Hd Hk)
        as (_ & Hsub & Hwr & _)
  end.
  rewrite Hsub in Hin. rewrite Hwr in Hw.
  destruct Hcalls as [(_ & _ & Hv) | (-> & _)]; [congruence |].
  destruct Hin as [Hin | []]. injection Hin as -> ->.
  destruct (writable _ fs2); [| contradiction].
  destruct Hw as [Hw | []]. injection Hw as <- <-.
  apply ollama_header_model.
Qed.

(** X6. A refused write does not stop [main]: when the output file
    cannot be opened for writing, [save_response] swallows the error,
    [main] still returns (exit status 0), no file is written, and the
    files are the ones that were there. *)
Theorem refused_write_is_swallowed :
  forall (v : Script) (argv : list CliArg) (h : Host) (s : State),
  refused (events (main v argv h s)) <> [] ->
  let r := main v argv h s in
  outcome r = Py.Returns tt
  /\ Py.exit_status (outcome r) = 0%Z
  /\ written (events r) = []
  /\ length (refused (events r)) = 1
  /\ grown (st_fs s) (st_fs (final r)).
Proof.
  intros v argv h s Href r. subst r.
  destruct (main_course v argv h s) as [Hc | Hs].
  2: { destruct (stopped_projections s _ Hs) as (_ & _ & Hr & _). congruence. }
  destruct Hc as (pre & p & o & pf & text & fs2 & m & calls & answer & Hc).
  cbv zeta in Hc. destruct Hc as (_ & _ & Ho & Hsig & Hfs & Hg & _ & Hd & Hcalls).
  rewrite <- refused_significant, Hsig in Href.
  rewrite <- written_significant, <- refused_significant, Hsig, Ho, Hfs.
  assert (Hk : calls = [] \/ exists v m p, calls = [submit_event v m p]).
  { destruct Hcalls as [(-> & _) | (-> & _)]; [left; reflexivity | right; eauto]. }
  match type of Hsig with
  | context [save_events ?out ?content _] =>
      destruct (completed_projections pre pf calls out content fs2 Hd Hk)
        as (_ & _ & Hwr & Hrf)
  end.
  rewrite Hrf in Href. rewrite Hwr, Hrf. unfold saved.
  destruct (writable _ fs2); [congruence |].
  repeat split; try reflexivity; apply Hg.
Qed.

(** ** The exit status *)

Lemma gemini_status argv h s :
  let st := Py.exit_status (outcome (Gemini.main argv h s)) in
  (st = 0 \/ st = 1 \/ st = 2)%Z
  /\ (st = 2%Z <-> invocation CloudA argv = Error)
  /\ (invocation CloudA argv = Help -> st = 0%Z).
Proof.
  cbv zeta. pose proof (gemini_main_summary argv h s) as H. cbv zeta in H.
  unfold invocation.
  destruct (consume Gemini.add_arguments argv Gemini.defaults false) as [args | |].
  2, 3: destruct H as (-> & _); cbn; repeat split; auto; discriminate.
  assert (Hn : forall o : Py.Outcome unit,
            (Py.exit_status o = 0 \/ Py.exit_status o = 1)%Z ->
            (Py.exit_status o = 0 \/ Py.exit_status o = 1 \/ Py.exit_status o = 2)%Z
            /\ (Py.exit_status o = 2%Z
                <-> Namespace (Gemini.prompt args, Gemini.output args) = Error)
            /\ (Namespace (Gemini.prompt args, Gemini.output args) = Help
                -> Py.exit_status o = 0%Z)).
  { intros o Ho. split; [tauto |]. split; [split; [lia | discriminate] | discriminate]. }
  apply Hn.
  destruct (outcome (Gemini.find_prompt_file (Gemini.prompt args) h s)) as [pf | e0 | c0].
  2, 3: destruct H as (-> & _); cbn; auto.
  destruct (lookup "reports" (st_fs s)) as [[c0 |] |].
  1: destruct H as (e & -> & _); cbn; auto.
  all: destruct (lookup pf (with_dir "reports" (st_fs s))) as [[prompt |] |];
    [ destruct H as (-> & _) | destruct H as (e & -> & _) | destruct H as (e & -> & _) ];
    cbn; auto.
Qed.

Lemma xai_status argv h s :
  let st := Py.exit_status (outcome (XAI.main argv h s)) in
  (st = 0 \/ st = 1 \/ st = 2)%Z
  /\ (st = 2%Z <-> invocation CloudB argv = Error)
  /\ (invocation CloudB argv = Help -> st = 0%Z).
Proof.
  cbv zeta. pose proof (xai_main_summary argv h s) as H. cbv zeta in H.
  unfold invocation.
  destruct (consume XAI.add_arguments argv XAI.defaults false) as [args | |].
  2, 3: destruct H as (-> & _); cbn; repeat split; auto; discriminate.
  assert (Hn : forall o : Py.Outcome unit,
            (Py.exit_status o = 0 \/ Py.exit_status o = 1)%Z ->
            (Py.exit_status o = 0 \/ Py.exit_status o = 1 \/ Py.exit_status o = 2)%Z
            /\ (Py.exit_status o = 2%Z
                <-> Namespace (XAI.prompt args, XAI.output args) = Error)
            /\ (Namespace (XAI.prompt args, XAI.output args) = Help
                -> Py.exit_status o = 0%Z)).
  { intros o Ho. split; [tauto |]. split; [split; [lia | discriminate] | discriminate]. }
  apply Hn.
  destruct (outcome (XAI.find_prompt_file (XAI.prompt args) h s)) as [pf | e0 | c0].
  2, 3: destruct H as (-> & _); cbn; auto.
  destruct (lookup "reports" (st_fs s)) as [[c0 |] |].
  1: destruct H as (e & -> & _); cbn; auto.
  all: destruct (xai_client h) as [client | e | c1];
    [| destruct H as (-> & _); cbn; auto | contradiction].
  all: destruct (lookup pf (with_dir "reports" (st_fs s))) as [[prompt |] |];
    [ destruct H as (-> & _) | destruct H as (e & -> & _) | destruct H as (e & -> & _) ];
    cbn; auto.
Qed.

Lemma ollama_status argv h s :
  let st := Py.exit_status (outcome (Ollama.main argv h s)) in
  (st = 0 \/ st = 1 \/ st = 2)%Z
  /\ (st = 2%Z <-> invocation Local argv = Error)
  /\ (invocation Local argv = Help -> st = 0%Z).
Proof.
  cbv zeta. pose proof (ollama_main_summary argv h s) as H. cbv zeta in H.
  unfold invocation.
  destruct (consume Ollama.add_arguments argv Ollama.defaults false) as [args | |].
  2, 3: destruct H as (-> & _); cbn; repeat split; auto; discriminate.
  assert (Hn : forall o : Py.Outcome unit,
            (Py.exit_status o = 0 \/ Py.exit_status o = 1)%Z ->
            (Py.exit_status o = 0 \/ Py.exit_status o = 1 \/ Py.exit_status o = 2)%Z
            /\ (Py.exit_status o = 2%Z
                <-> Namespace (Ollama.prompt args, Ollama.output args) = Error)
            /\ (Namespace (Ollama.prompt args, Ollama.output args) = Help
                -> Py.exit_status o = 0%Z)).
  { intros o Ho. split; [tauto |]. split; [split; [lia | discriminate] | discriminate]. }
  apply Hn.
  destruct (Ollama.list_models args).
  1: destruct H as (-> & _); cbn; auto.
  destruct (outcome (Ollama.find_prompt_file (Ollama.prompt args) h s)) as [pf | e0 | c0].
  2, 3: destruct H as (-> & _); cbn; auto.
  destruct (lookup "reports" _) as [[c0 |] |].
  1: destruct H as (e & -> & _); cbn; auto.
  all: destruct (ollama_init_failure h _) as [e |];
    [destruct H as (-> & _); cbn; auto |].
  all: destruct (lookup pf _) as [[prompt |] |]; destruct H as (-> & _); cbn; auto.
Qed.

(** X7. The exit status of each script is 0, 1 or 2.  It is 2 exactly
    when the command line is rejected, and 0 when help is asked for.  A
    run that ends with another status than 0 has submitted nothing and
    written nothing, and has left every file as it was. *)
Theorem exit_status_of_main :
  forall (v : Script) (argv : list CliArg) (h : Host) (s : State),
  let r := main v argv h s in
  let st := Py.exit_status (outcome r) in
  (st = 0 \/ st = 1 \/ st = 2)%Z
  /\ (st = 2%Z <-> invocation v argv = Error)
  /\ (invocation v argv = Help -> st = 0%Z)
  /\ (st <> 0%Z ->
      submitted (events r) = [] /\ written (events r) = []
      /\ grown (st_fs s) (st_fs (final r))).
Proof.
  intros v argv h s r st. subst r st.
  assert (H : let st := Py.exit_status (outcome (main v argv h s)) in
              (st = 0 \/ st = 1 \/ st = 2)%Z
              /\ (st = 2%Z <-> invocation v argv = Error)
              /\ (invocation v argv = Help -> st = 0%Z))
    by (destruct v; [apply gemini_status | apply xai_status | apply ollama_status]).
  cbv zeta in H. destruct H as (H1 & H2 & H3).
  split; [exact H1 |]. split; [exact H2 |]. split; [exact H3 |].
  intros Hst. destruct (main_course v argv h s) as [Hc | Hs].
  - destruct Hc as (pre & p & o & pf & prompt & fs2 & m & calls & answer & Hc).
    cbv zeta in Hc. destruct Hc as (_ & _ & Ho & _). rewrite Ho in Hst. contradiction Hst.
    reflexivity.
  - destruct (stopped_projections s _ Hs) as (Hsub & Hw & _).
    destruct Hs as (pre & _ & _ & Hg). auto.
Qed.

(** ** Where the output goes *)

Lemma default_output_in_reports v pf now :
  exists f, output_path (backend_name v) None pf now = "reports/" ++ f.
Proof.
  unfold output_path, PathLib.join. destruct v; cbn [backend_name]; eexists; reflexivity.
Qed.

(** X8. Without [--output], a run changes nothing outside [reports]:
    the file it writes lies under [reports/], and every file or
    directory that was there, whose path does not begin with
    [reports/], is still there unchanged at the end of the run; in
    particular the prompt files are. *)
Theorem default_output_stays_in_reports :
  forall (v : Script) (argv : list CliArg) (h : Host) (s : State)
         (p : option string) (q : string) (n : Node),
  invocation v argv = Namespace (p, None) ->
  lookup q (st_fs s) = Some n ->
  Py.startswith q "reports/" = false ->
  let r := main v argv h s in
  lookup q (st_fs (final r)) = Some n
  /\ Forall (fun w => Py.startswith (fst w) "reports/" = true) (written (events r)).
Proof.
  intros v argv h s p q n Hinv Hq Hout r. subst r.
  assert (Hg : forall fs', grown (st_fs s) fs' -> lookup q fs' = Some n).
  { intros fs' (Hf & Hd). destruct n as [c |]; [apply Hf | apply Hd]; exact Hq. }
  destruct (main_course v argv h s) as [Hc | Hs].
  2: { destruct (stopped_projections s _ Hs) as (_ & Hw & _). rewrite Hw.
       destruct Hs as (pre & _ & _ & Hs). split; [apply Hg, Hs | constructor]. }
  destruct Hc as (pre & p' & o & pf & prompt & fs2 & m & calls & answer & Hc).
  cbv zeta in Hc. destruct Hc as (Hinv' & _ & _ & Hsig & Hfs & Hgr & _ & Hd & Hcalls).
  rewrite Hinv in Hinv'. injection Hinv' as <- <-.
  assert (Hk : calls = [] \/ exists v m p, calls = [submit_event v m p]).
  { destruct Hcalls as [(-> & _) | (-> & _)]; [left; reflexivity | right; eauto]. }
  match type of Hsig with
  | context [save_events ?out ?content _] =>
      destruct (completed_projections pre pf calls out content fs2 Hd Hk)
        as (_ & _ & Hwr & _)
  end.
  rewrite <- written_significant, Hsig, Hwr, Hfs. unfold saved.
  destruct (default_output_in_reports v pf (clock h (st_tick s))) as (f & Hf).
  rewrite Hf in *.
  assert (Hpre : Py.startswith ("reports/" ++ f) "reports/" = true)
    by (apply prefix_iff; exists f; reflexivity).
  destruct (writable _ fs2); [| split; [apply Hg, Hgr | constructor]].
  split; [| constructor; [exact Hpre | constructor]].
  rewrite lookup_store_ne; [apply Hg, Hgr |].
  intros <-. congruence.
Qed.

(** ** Answers without a text *)

Lemma reply_text_without_text v h m p t : answers_without_text v h m p t -> reply_text v h m p = t.
Proof.
  destruct v; cbn [answers_without_text reply_text]; unfold gemini_answer, ollama_answer.
  - intros (-> & ->). reflexivity.
  - intros [(-> & ->) | ((rest & ->) & ->)]; reflexivity.
  - intros (-> & ->). reflexivity.
Qed.

Lemma submit_prompt_without_text sub prompt model text h s :
  calls_service sub model ->
  answers_without_text (script_of sub) h model prompt text ->
  outcome (submit_prompt sub prompt model h s) = Py.Returns text.
Proof.
  destruct sub as [self | self | self]; cbn [calls_service script_of answers_without_text
    submit_prompt]; intros Hc Hr.
  - destruct (runs_gemini_submit self prompt model h s) as (Ho & _).
    rewrite Ho. unfold gemini_answer. destruct Hr as (-> & ->).
    destruct (Gemini.client self); [reflexivity | congruence].
  - destruct Hc as (Hc & ->).
    destruct (runs_xai_submit self prompt h s) as (Ho & _).
    rewrite Ho. unfold xai_answer.
    destruct (XAI.client self); [| congruence].
    destruct Hr as [(-> & ->) | ((rest & ->) & ->)]; reflexivity.
  - subst model.
    destruct (runs_ollama_submit self prompt h s) as (Ho & _).
    rewrite Ho. unfold ollama_answer. destruct Hr as (-> & ->). reflexivity.
Qed.

(** X9. An answer without a text is not an error of the run.  When the
    Gemini response has no text, or the xAI completion has no choice or
    a choice without content, [submit_prompt] returns the error report
    of the exception that reading the text raises; when the Ollama
    response has no ['response'] key it returns a fixed placeholder.
    [main] returns (exit status 0) and what it writes is the header
    followed by that text. *)
Theorem answer_without_text_is_saved_as_a_report :
  forall (v : Script) (argv : list CliArg) (h : Host) (s : State) (model prompt text : string),
  In (model, prompt) (submitted (events (main v argv h s))) ->
  answers_without_text v h model prompt text ->
  let r := main v argv h s in
  (forall sub s', script_of sub = v -> calls_service sub model ->
     outcome (submit_prompt sub prompt model h s') = Py.Returns text)
  /\ outcome r = Py.Returns tt
  /\ Py.exit_status (outcome r) = 0%Z
  /\ (forall out content,
        In (out, content) (written (events r)) ->
        is_report v content text /\ body_after_header content text).
Proof.
  intros v argv h s model prompt text Hin Ha r. subst r.
  split.
  { intros sub s' <- Hc. apply submit_prompt_without_text; assumption. }
  destruct (main_course v argv h s) as [Hc | Hs].
  2: { destruct (stopped_projections s _ Hs) as (Hsub & _). rewrite Hsub in Hin. contradiction. }
  destruct Hc as (pre & p & o & pf & txt & fs2 & m & calls & answer & Hc).
  cbv zeta in Hc. destruct Hc as (_ & _ & Ho & Hsig & _ & _ & _ & Hd & Hcalls).
  rewrite <- submitted_significant, Hsig in Hin.
  rewrite <- written_significant, Hsig, Ho.
  assert (Hk : calls = [] \/ exists v m p, calls = [submit_event v m p]).
  { destruct Hcalls as [(-> & _) | (-> & _)]; [left; reflexivity | right; eauto]. }
  match type of Hsig with
  | context [save_events ?out ?content _] =>
      destruct (completed_projections pre pf calls out content fs2 Hd Hk)
        as (_ & Hsub & Hwr & _)
  end.
  rewrite Hsub in Hin. rewrite Hwr.
  destruct Hcalls as [(-> & _) | (-> & ->)]; [contradiction |].
  rewrite submitted_submit_event in Hin. destruct Hin as [Hin | []].
  injection Hin as -> ->.
  rewrite (reply_text_without_text v h model prompt text Ha).
  split; [reflexivity |]. split; [reflexivity |].
  intros out content Hw. destruct (writable _ fs2); [| contradiction].
  destruct Hw as [Hw | []]. injection Hw as <- <-.
  split; [apply header_of_is_report |].
  destruct v; cbn [header_of].
  - apply gemini_content_format.
  - apply xai_content_format.
  - apply ollama_content_format.
Qed.

(** ** Finding the prompt file *)

Lemma join_is_not_the_directory f : PathLib.join "prompts" f <> "prompts".
Proof.
  unfold PathLib.join, Py.startswith.
  destruct (String.prefix "/" f) eqn:E.
  - apply prefix_iff in E as (t & ->). discriminate.
  - discriminate.
Qed.

Lemma lookup_join_with_dir f fs :
  lookup (PathLib.join "prompts" f) (with_dir "prompts" fs) = lookup (PathLib.join "prompts" f) fs.
Proof.
  unfold with_dir. destruct (lookup "prompts" fs); [reflexivity |].
  apply lookup_store_ne. intros H. symmetry in H. revert H. apply join_is_not_the_directory.
Qed.

(** What [find_prompt_file] does with a prompt name: its outcome and
    its events. *)
Lemma find_named_run v name h s :
  name <> "" ->
  match v with
  | Local => forall c, lookup "prompts" (st_fs s) <> Some (File c)
  | _ => True
  end ->
  let p := PathLib.join "prompts" (name ++ ".txt") in
  let r := find_prompt_file v (Some name) h s in
  st_stdin (final r) = st_stdin s
  /\ outcome r = match lookup p (st_fs s) with
                 | Some _ => Py.Returns p
                 | None => Py.Exits 1
                 end
  /\ events r =
     ((match v with Local => [Makedirs "prompts"] | _ => [] end)
      ++ match lookup p (st_fs s) with
         | Some _ => []
         | None =>
             Log ERROR ("Prompt file not found: " ++ p)
             :: match v with
                | Local => [Print ("Error: Prompt file '" ++ name
                                   ++ ".txt' not found in the 'prompts' directory.")]
                | _ => []
                end
         end)%list.
Proof.
  intros Hn Hv p r. subst p r.
  assert (Ht : Py.truthy_opt (Some name) = true) by (destruct name; [congruence | reflexivity]).
  assert (Hcloud :
    st_stdin (final (Gemini.find_prompt_file (Some name) h s)) = st_stdin s
    /\ outcome (Gemini.find_prompt_file (Some name) h s)
       = match lookup (PathLib.join "prompts" (name ++ ".txt")) (st_fs s) with
         | Some _ => Py.Returns (PathLib.join "prompts" (name ++ ".txt"))
         | None => Py.Exits 1
         end
    /\ events (Gemini.find_prompt_file (Some name) h s)
       = match lookup (PathLib.join "prompts" (name ++ ".txt")) (st_fs s) with
         | Some _ => []
         | None => [Log ERROR ("Prompt file not found: "
                               ++ PathLib.join "prompts" (name ++ ".txt"))]
         end).
  { unfold Gemini.find_prompt_file. cbv zeta. rewrite Ht. cbn [negb].
    change (PathLib.Path Gemini.PROMPTS_DIR) with "prompts".
    unfold path_exists, bind, get_fs, ret. cbn [outcome final events].
    destruct (lookup (PathLib.join "prompts" (name ++ ".txt")) (st_fs s)); cbn; auto. }
  destruct v; cbn [find_prompt_file app]; try rewrite xai_find_is_gemini_find; try exact Hcloud.
  unfold Ollama.find_prompt_file. cbv zeta. rewrite Ht. cbn [negb].
  change (PathLib.Path Ollama.PROMPTS_DIR) with "prompts".
  rewrite bind_outcome, bind_events, bind_final.
  pose proof (runs_os_makedirs "prompts" h s) as Hmk.
  destruct (lookup "prompts" (st_fs s)) as [[c |] |] eqn:Hl; [exfalso; eapply Hv; reflexivity | |].
  all: destruct Hmk as (Mo & Mf & _); rewrite Mo, Mf;
    rewrite os_makedirs_run, Hl; cbn [events];
    unfold path_exists, bind, get_fs, ret; cbn [outcome final events st_fs st_stdin];
    rewrite ?lookup_join_with_dir;
    destruct (lookup (PathLib.join "prompts" (name ++ ".txt")) (st_fs s)); cbn; auto.
Qed.

(** X10. With a non-empty prompt name, [find_prompt_file] of each script
    looks for [prompts/<name>.txt] and nothing else: it returns that path
    when it exists, and otherwise logs that the prompt file was not found
    and ends the process with [sys.exit(1)]; it never asks the operator.
    (For the Ollama script, [prompts] must not be a regular file, or the
    creation of the directory fails first.) *)
Theorem named_prompt_is_found_or_fatal :
  forall (v : Script) (name : string) (h : Host) (s : State),
  name <> "" ->
  match v with
  | Local => forall c, lookup "prompts" (st_fs s) <> Some (File c)
  | _ => True
  end ->
  let p := PathLib.join "prompts" (name ++ ".txt") in
  let r := find_prompt_file v (Some name) h s in
  asked (events r) = []
  /\ st_stdin (final r) = st_stdin s
  /\ match lookup p (st_fs s) with
     | Some _ => outcome r = Py.Returns p /\ error_log (events r) = []
     | None => outcome r = Py.Exits 1
               /\ error_log (events r) = ["Prompt file not found: " ++ p]
     end.
Proof.
  intros v name h s Hn Hv p r. subst p r.
  destruct (find_named_run v name h s Hn Hv) as (Hin & Ho & He).
  rewrite Ho, He. split; [| split; [exact Hin |]].
  - destruct v; destruct (lookup (PathLib.join _ _) (st_fs s)); reflexivity.
  - destruct (lookup (PathLib.join _ _) (st_fs s)); destruct v; split; reflexivity.
Qed.



(** A [main] that reaches the interactive selection raises what the
    selection raises. *)
Lemma main_raises_with_find v argv :
  interactive v argv = true ->
  exists name,
    Py.truthy_opt name = false
    /\ forall h s e,
         outcome (find_prompt_file v name h s) = Py.Raises e ->
         outcome (main v argv h s) = Py.Raises e
         /\ events (main v argv h s) = events (find_prompt_file v name h s).
Proof.
  destruct v; unfold interactive, main, find_prompt_file,
    Gemini.main, XAI.main, Ollama.main; intros Hi.
  - destruct (consume Gemini.add_arguments argv Gemini.defaults false) as [a | |] eqn:E;
      try discriminate.
    exists (Gemini.prompt a). split; [now destruct (Py.truthy_opt (Gemini.prompt a)) |].
    intros h s e He.
    rewrite bind_outcome, bind_events, parse_args_run, E. cbn [outcome final events].
    rewrite bind_outcome, bind_events, He. rewrite app_nil_r. split; reflexivity.
  - destruct (consume XAI.add_arguments argv XAI.defaults false) as [a | |] eqn:E;
      try discriminate.
    exists (XAI.prompt a). split; [now destruct (Py.truthy_opt (XAI.prompt a)) |].
    intros h s e He.
    rewrite bind_outcome, bind_events, parse_args_run, E. cbn [outcome final events].
    rewrite bind_outcome, bind_events, He. rewrite app_nil_r. split; reflexivity.
  - destruct (consume Ollama.add_arguments argv Ollama.defaults false) as [a | |] eqn:E;
      try discriminate.
    apply andb_prop in Hi as [Hp Hl].
    exists (Ollama.prompt a). split; [now destruct (Py.truthy_opt (Ollama.prompt a)) |].
    intros h s e He.
    rewrite bind_outcome, bind_events, parse_args_run, E. cbn [outcome final events].
    destruct (Ollama.list_models a); [discriminate |].
    rewrite bind_outcome, bind_events, He. rewrite app_nil_r. split; reflexivity.
Qed.

Lemma choose_at_end_of_input prompts h s :
  st_stdin s = [] ->
  outcome (choose prompts h s) = Py.Raises (Py.Exn Py.EOFError "EOF when reading a line")
  /\ error_log (events (choose prompts h s)) = []
  /\ asked (events (choose prompts h s)) = [LF ++ "Enter prompt number to use: "].
Proof.
  intros Hin. unfold choose.
  rewrite !bind_outcome, !bind_events, !print_numbered_run.
  cbn [outcome final events print emit]. unfold input. rewrite Hin. cbn [outcome events].
  split; [reflexivity |].
  unfold error_log, asked. cbn [app flat_map]. rewrite !flat_map_app.
  fold (error_log (numbered 1 prompts)). fold (asked (numbered 1 prompts)).
  rewrite error_log_numbered, asked_numbered. split; reflexivity.
Qed.

(** X12. When standard input is at its end, the interactive selection
    does not end with [sys.exit]: [input] raises [EOFError], which the
    handler for [ValueError] does not catch and which [main] lets
    through, so the process ends with a traceback and status 1, having
    logged no error and opened no file. *)
Theorem end_of_input_escapes_the_selection :
  forall (v : Script) (argv : list CliArg) (h : Host) (s : State) (p : string) (ps : list string),
  interactive v argv = true ->
  is_dir "prompts" (st_fs s) = true ->
  glob_txt "prompts" (st_fs s) = p :: ps ->
  st_stdin s = [] ->
  let r := find_prompt_file v None h s in
  let m := main v argv h s in
  outcome r = Py.Raises (Py.Exn Py.EOFError "EOF when reading a line")
  /\ outcome m = Py.Raises (Py.Exn Py.EOFError "EOF when reading a line")
  /\ Py.exit_status (outcome m) = 1%Z
  /\ error_log (events m) = []
  /\ significant (events m) = [].
Proof.
  intros v argv h s p ps Hi Hd Hg Hin r m. subst r m.
  destruct (choose_at_end_of_input (p :: ps) h s Hin) as (Co & Ce & _).
  destruct (find_interactive v None h s p ps eq_refl Hd Hg) as (Ho & _ & _).
  destruct (main_raises_with_find v argv Hi) as (name & Hn & Hmain).
  destruct (find_interactive v name h s p ps Hn Hd Hg) as (Ho' & _ & He').
  rewrite Co in Ho, Ho'.
  destruct (Hmain h s _ Ho') as (Mo & Me).
  destruct (find_frame v name h s) as (Hs & _).
  rewrite Mo, Me, Hs, He'. repeat split; try assumption.
  unfold error_log. rewrite flat_map_app. cbn [flat_map app].
  fold (error_log (events (choose (p :: ps) h s))). rewrite Ce.
  destruct v; reflexivity.
Qed.

(** ** Numbers printed and typed *)


Lemma digit_is_no_space c : Py.is_digit c = true -> Py.is_space c = false.
Proof.
  unfold Py.is_digit, Py.is_space. intros H.
  apply andb_prop in H as [H1 H2]. apply Nat.leb_le in H1. apply Nat.leb_le in H2.
  apply orb_false_iff. split; apply andb_false_iff.
  - right. apply Nat.leb_gt. lia.
  - right. apply Nat.leb_gt. lia.
Qed.

Lemma lstrip_no_space l : Forall (fun c => Py.is_space c = false) l -> Py.lstrip l = l.
Proof. intros H. destruct H as [| c l Hc _]; [reflexivity |]. cbn. now rewrite Hc. Qed.

Lemma strip_no_space l : Forall (fun c => Py.is_space c = false) l -> Py.strip l = l.
Proof.
  intros H. unfold Py.strip. rewrite (lstrip_no_space l H).
  rewrite lstrip_no_space by (apply Forall_rev, H). apply rev_involutive.
Qed.

Lemma digits_of_uint d :
  Forall (fun c => Py.is_digit c = true) (list_ascii_of_string (NilEmpty.string_of_uint d)).
Proof. induction d; cbn; constructor; auto. Qed.

Lemma digits_value_of_uint d : forall a : nat,
  Py.digits_value (Z.of_nat a) (list_ascii_of_string (NilEmpty.string_of_uint d))
  = Some (Z.of_nat (Nat.of_uint_acc d a)).
Proof.
  induction d; intros a; cbn [NilEmpty.string_of_uint list_ascii_of_string Py.digits_value
    Nat.of_uint_acc]; [reflexivity | ..].
  all: match goal with
       | |- context [Py.is_digit ?c] => change (Py.is_digit c) with true; cbv iota
       end.
  all: rewrite <- IHd; f_equal; rewrite Nat.tail_mul_spec;
    match goal with
    | |- context [Py.digit_value ?c] =>
        let v := eval vm_compute in (Py.digit_value c) in change (Py.digit_value c) with v
    end; lia.
Qed.

(** [int(str(n))] is [n]. *)
Lemma int_of_str n : Py.int (Py.str_of_nat n) = Some (Z.of_nat n).
Proof.
  unfold Py.str_of_nat, NilZero.string_of_uint.
  pose proof (Unsigned.of_to n) as Hn. unfold Nat.of_uint in Hn.
  destruct (Nat.to_uint n) as [| d | d | d | d | d | d | d | d | d | d] eqn:E.
  1: { cbn in Hn. subst n. reflexivity. }
  all: match goal with
       | |- Py.int (NilEmpty.string_of_uint ?u) = _ =>
           pose proof (digits_of_uint u) as Hd;
           pose proof (digits_value_of_uint u 0) as Hv
       end;
    rewrite Hn in Hv; unfold Py.int;
    rewrite strip_no_space
      by (eapply Forall_impl; [| exact Hd]; intros c; apply digit_is_no_space);
    cbn [NilEmpty.string_of_uint list_ascii_of_string] in *;
    cbn [Ascii.eqb Bool.eqb]; unfold Py.parse_unsigned;
    match goal with
    | |- context [Py.is_digit ?c] => change (Py.is_digit c) with true; cbv iota
    end; exact Hv.
Qed.

Lemma numbered_nth prompts : forall k i q,
  nth_error prompts i = Some q ->
  In (Print (Py.str_of_nat (k + i) ++ ". " ++ PathLib.stem q)) (numbered k prompts).
Proof.
  induction prompts as [| p rest IH]; intros k i q Hq; [destruct i; discriminate |].
  destruct i as [| i]; cbn [nth_error numbered] in *.
  - injection Hq as ->. rewrite Nat.add_0_r. left. reflexivity.
  - right. replace (k + S i) with (S k + i) by lia. apply IH, Hq.
Qed.

Lemma printed_in line evs : In (Print line) evs -> In line (printed evs).
Proof.
  intros H. unfold printed. apply in_flat_map. exists (Print line). split; [exact H | left; reflexivity].
Qed.

(** X13. The number printed beside a prompt selects that prompt: in the
    interactive selection of each script, the listing holds the line
    [<i>. <stem>] for the i-th prompt file (counted from 1), and typing
    that number makes [find_prompt_file] return that very file, without
    logging an error. *)
Theorem typing_the_listed_number_selects_the_prompt :
  forall (v : Script) (name : option string) (h : Host) (s : State)
         (prompts rest : list string) (i : nat) (q : string),
  Py.truthy_opt name = false ->
  is_dir "prompts" (st_fs s) = true ->
  glob_txt "prompts" (st_fs s) = prompts ->
  nth_error prompts i = Some q ->
  st_stdin s = Py.str_of_nat (S i) :: rest ->
  let r := find_prompt_file v name h s in
  In (Py.str_of_nat (S i) ++ ". " ++ PathLib.stem q) (printed (events r))
  /\ outcome r = Py.Returns q
  /\ error_log (events r) = []
  /\ st_stdin (final r) = rest.
Proof.
  intros v name h s prompts rest i q Hn Hd Hg Hq Hin r. subst r.
  destruct prompts as [| p ps]; [destruct i; discriminate |].
  destruct (find_interactive v name h s p ps Hn Hd Hg) as (Ho & Hf & He).
  destruct (choose_run (p :: ps) _ rest h s Hin) as (Co & Cf & Ce).
  set (s' := {| st_fs := st_fs s; st_stdin := rest; st_tick := st_tick s |}) in *.
  destruct (pick_run (p :: ps) (Py.str_of_nat (S i)) h s') as (_ & _ & Pm).
  rewrite int_of_str in Pm.
  assert (Hlt : i < List.length (p :: ps)) by (apply nth_error_Some; congruence).
  replace ((1 <=? Z.of_nat (S i)) && (Z.of_nat (S i) <=? Z.of_nat (List.length (p :: ps))))%Z
    with true in Pm
    by (symmetry; apply andb_true_intro; split; apply Z.leb_le; lia).
  destruct Pm as (q' & Hq' & Po & Pe).
  replace (Z.to_nat (Z.of_nat (S i) - 1)) with i in Hq' by lia.
  assert (q' = q) by congruence. subst q'.
  rewrite Ho, Hf, He, Co, Cf, Ce, Po, Pe.
  split; [| split; [reflexivity | split; [| reflexivity]]].
  - apply printed_in. apply in_or_app. right. right. right.
    apply in_or_app. left. apply (numbered_nth (p :: ps) 1 i q Hq).
  - unfold error_log. rewrite flat_map_app. cbn [flat_map app]. rewrite flat_map_app.
    fold (error_log (numbered 1 (p :: ps))). rewrite error_log_numbered.
    destruct v; reflexivity.
Qed.

(** ** Paths *)

(** A text is cut at the last occurrence of a character, or the
    character does not occur. *)
Lemma cut_at_last c s :
  (PathLib.before_last c s = None /\ PathLib.after_last c s = None)
  \/ exists b a,
       PathLib.before_last c s = Some b /\ PathLib.after_last c s = Some a
       /\ s = b ++ String c a /\ PathLib.after_last c a = None.
Proof.
  induction s as [| x r IH]; [left; split; reflexivity |].
  cbn [PathLib.before_last PathLib.after_last].
  destruct IH as [(Hb & Ha) | (b & a & Hb & Ha & Hs & Hn)].
  - rewrite Hb, Ha. destruct (Ascii.eqb_spec x c) as [-> | Hne].
    + right. exists "", r. repeat split. exact Ha.
    + left. split; reflexivity.
  - rewrite Hb, Ha. right. exists (String x b), a. repeat split; [| exact Hn].
    cbn. now rewrite Hs.
Qed.

Lemma after_last_head c r : PathLib.after_last c (String c r) <> None.
Proof.
  cbn [PathLib.after_last]. destruct (PathLib.after_last c r); [discriminate |].
  rewrite Ascii.eqb_refl. discriminate.
Qed.

Lemma length_append a b : String.length (a ++ b) = String.length a + String.length b.
Proof. induction a as [| x a IH]; cbn; [reflexivity | now rewrite IH]. Qed.

Lemma lookup_in p fs : In p (map fst fs) -> exists n, lookup p fs = Some n.
Proof.
  induction fs as [| [q n] fs IH]; [contradiction |].
  cbn [map fst lookup In]. intros [-> | H].
  - rewrite String.eqb_refl. eauto.
  - destruct (String.eqb q p); [eauto | apply IH, H].
Qed.

(** A path listed under [prompts] is [prompts/<stem>.txt], unless its
    name is [.txt]. *)
Lemma listed_path p fs :
  In p (glob_txt "prompts" fs) ->
  PathLib.name p <> ".txt" ->
  PathLib.stem p <> ""
  /\ PathLib.join "prompts" (PathLib.stem p ++ ".txt") = p
  /\ exists n, lookup p fs = Some n.
Proof.
  unfold glob_txt. intros Hin Hne. apply in_map_iff in Hin as ([q n] & <- & Hin).
  apply filter_In in Hin as (Hin & Hf). cbn [fst] in *.
  apply andb_prop in Hf as (Hpar & Hm). apply String.eqb_eq in Hpar.
  assert (Hl : exists n, lookup q fs = Some n).
  { apply lookup_in. apply in_map_iff. exists (q, n). split; [reflexivity | exact Hin]. }
  unfold PathLib.parent in Hpar.
  destruct (cut_at_last "/" q) as [(Hb & _) | (d & a & Hb & Ha & Hq & Hna)];
    rewrite Hb in Hpar; [discriminate |].
  assert (d = "prompts") by (destruct d; [discriminate | exact Hpar]). subst d.
  unfold PathLib.stem, PathLib.name in *. rewrite Ha in *.
  unfold PathLib.matches_txt in Hm.
  destruct (cut_at_last "." a) as [(Hb' & _) | (b & e & Hb' & Ha' & Hs & _)];
    rewrite Hb' in *; [discriminate |].
  rewrite Ha' in Hm. apply String.eqb_eq in Hm. subst e.
  assert (Hb0 : b <> "") by (intros ->; apply Hne; exact Hs).
  assert (Hlen : ((0 <? String.length b) && (String.length b <? String.length a - 1))%nat = true).
  { rewrite Hs, length_append. cbn [String.length].
    apply andb_true_intro. split; [| apply Nat.ltb_lt; lia].
    apply Nat.ltb_lt. destruct b; [congruence | cbn; lia]. }
  rewrite Hlen. split; [exact Hb0 |]. split; [| exact Hl].
  change (String "." "txt") with ".txt" in Hs. rewrite <- Hs.
  unfold PathLib.join, Py.startswith.
  destruct (String.prefix "/" a) eqn:Hp.
  - apply prefix_iff in Hp as (t & ->). exfalso. revert Hna. apply after_last_head.
  - symmetry. exact Hq.
Qed.

(** X14. The name shown in the listing is the name to ask for: for every
    prompt file that the listing shows, except a file named [.txt],
    [find_prompt_file] called with the stem of that file returns that
    very file, without asking and without logging an error.  (For the
    Ollama script, [prompts] must not be a regular file.) *)
Theorem listed_prompt_is_found_by_its_stem :
  forall (v : Script) (h : Host) (s : State) (p : string),
  In p (glob_txt "prompts" (st_fs s)) ->
  PathLib.name p <> ".txt" ->
  match v with
  | Local => forall c, lookup "prompts" (st_fs s) <> Some (File c)
  | _ => True
  end ->
  let r := find_prompt_file v (Some (PathLib.stem p)) h s in
  outcome r = Py.Returns p
  /\ asked (events r) = []
  /\ error_log (events r) = [].
Proof.
  intros v h s p Hin Hne Hv r. subst r.
  destruct (listed_path p (st_fs s) Hin Hne) as (Hstem & Hjoin & n & Hl).
  destruct (find_named_run v (PathLib.stem p) h s Hstem Hv) as (_ & Ho & He).
  rewrite Hjoin, Hl in Ho, He. rewrite Ho, He.
  destruct v; repeat split.
Qed.

(** ** Building the client *)

Lemma gemini_client_broken h k e :
  getenv h "GEMINI_API_KEY" = Some k -> genai_Client h k = Some e -> gemini_client h = None.
Proof.
  intros Hk He. unfold gemini_client. rewrite Hk, He. destruct (Py.truthy k); reflexivity.
Qed.

(** X15. A key that the Gemini client rejects is not fatal: when
    [genai.Client] raises, the constructor logs the error and keeps no
    client, and the run goes on as a simulation: [main] submits nothing,
    and whatever it writes is the header followed by the simulation
    text. *)
Theorem gemini_client_failure_means_simulation :
  forall (argv : list CliArg) (h : Host) (s : State) (k : string) (e : Py.exn),
  getenv h "GEMINI_API_KEY" = Some k ->
  k <> "" ->
  genai_Client h k = Some e ->
  let c := Gemini.init None h s in
  let r := main CloudA argv h s in
  (exists sub, outcome c = Py.Returns sub /\ Gemini.client sub = None)
  /\ error_log (events c) = ["Error initializing Gemini API client: " ++ Py.exn_msg e]
  /\ submitted (events r) = []
  /\ (forall out content,
        In (out, content) (written (events r)) ->
        is_report CloudA content Gemini.simulation_response).
Proof.
  intros argv h s k e Hk Hne He c r. subst c r.
  pose proof (gemini_client_broken h k e Hk He) as Hcl.
  split; [| split].
  - destruct (runs_gemini_init h s) as (sub & (Ho & _) & Hc).
    exists sub. rewrite Hc, Hcl. split; [exact Ho | reflexivity].
  - unfold Gemini.init, bind, ask, try_except. cbn [outcome final events].
    rewrite Hk. cbn [Py.or_else Py.truthy_opt].
    destruct k as [| a k']; [congruence |]. cbn [Py.truthy negb].
    cbn [outcome final events]. rewrite He. reflexivity.
  - cbn [main]. pose proof (gemini_main_summary argv h s) as H. cbv zeta in H.
    rewrite Hcl in H.
    destruct (consume Gemini.add_arguments argv Gemini.defaults false) as [args | |].
    2, 3: project H; split; [reflexivity | intros out content []].
    destruct (outcome (Gemini.find_prompt_file (Gemini.prompt args) h s)) as [pf | e0 | c0].
    2, 3: project H; split; [reflexivity | intros out content []].
    destruct (lookup "reports" (st_fs s)) as [[c0 |] |].
    1: destruct H as (e0 & H); project H; split; [reflexivity | intros out content []].
    all: destruct (lookup pf (with_dir "reports" (st_fs s))) as [[text |] |];
      [ project H; destruct H as (Ho & _); unfold save_events;
        cbn [gemini_calls gemini_answer app];
        destruct (writable _ (with_dir "reports" (st_fs s))); cbn;
        (split; [reflexivity |]);
        intros out content Hin; try contradiction;
        destruct Hin as [Hin | []]; injection Hin as <- <-; eexists _, _; reflexivity
      | destruct H as (e0 & H); project H; split; [reflexivity | intros out content []]
      | destruct H as (e0 & H); project H; split; [reflexivity | intros out content []] ].
Qed.

Lemma xai_client_broken h k e :
  getenv h "XAI_API_KEY" = Some k -> k <> "" ->
  OpenAI_with_transport h k = Some e -> Py.is_TypeError e = false ->
  xai_client h = Py.Raises e.
Proof.
  intros Hk Hne He Ht. unfold xai_client. rewrite Hk, He, Ht.
  destruct k; [congruence | reflexivity].
Qed.

(** X16. The xAI constructor guards the building of its client against
    [TypeError] only.  A [TypeError] of the first construction is logged
    as a warning and the default client is built instead, and what that
    second construction raises is not caught.  Any other exception of the
    first construction leaves the constructor at once: no submitter is
    built, and [main] never returns normally: it reads no prompt file,
    submits nothing and writes nothing, and when it gets as far as the
    constructor it ends with that exception (exit status 1). *)
Theorem xai_client_failure_is_not_caught :
  forall (argv : list CliArg) (h : Host) (s : State) (k : string) (e : Py.exn),
  getenv h "XAI_API_KEY" = Some k ->
  k <> "" ->
  OpenAI_with_transport h k = Some e ->
  let c := XAI.init None h s in
  let r := main CloudB argv h s in
  if Py.is_TypeError e then
    events c = [Log WARNING "Could not configure custom httpx transport, using default client"]
    /\ match OpenAI_default h k with
       | None => exists sub, outcome c = Py.Returns sub /\ XAI.client sub = Some k
       | Some e' => outcome c = Py.Raises e'
       end
  else
    outcome c = Py.Raises e
    /\ events c = []
    /\ outcome r <> Py.Returns tt
    /\ opened (events r) = [] /\ submitted (events r) = [] /\ written (events r) = []
    /\ (forall p o pf,
          invocation CloudB argv = Namespace (p, o) ->
          outcome (find_prompt_file CloudB p h s) = Py.Returns pf ->
          (forall c0, lookup "reports" (st_fs s) <> Some (File c0)) ->
          outcome r = Py.Raises e /\ Py.exit_status (outcome r) = 1%Z).
Proof.
  intros argv h s k e Hk Hne He c r. subst c r.
  assert (Hinit : XAI.init None h s =
            if Py.is_TypeError e then
              match OpenAI_default h k with
              | None => mkRun (Py.Returns {| XAI.api_key := Some k; XAI.client := Some k |}) s
                          [Log WARNING "Could not configure custom httpx transport, using default client"]
              | Some e' => mkRun (Py.Raises e') s
                          [Log WARNING "Could not configure custom httpx transport, using default client"]
              end
            else mkRun (Py.Raises e) s []).
  { unfold XAI.init, bind, ask, try_except. cbn [outcome final events].
    rewrite Hk. cbn [Py.or_else Py.truthy_opt].
    destruct k as [| a k']; [congruence |]. cbn [Py.truthy negb].
    cbn [ret outcome final events]. rewrite He. cbn [call_raising raise outcome final events].
    destruct (Py.is_TypeError e); [| reflexivity].
    cbn [logger_warning emit outcome final events].
    destruct (OpenAI_default h (String a k')); reflexivity. }
  rewrite Hinit. destruct (Py.is_TypeError e) eqn:Ht.
  - destruct (OpenAI_default h k) as [e' |]; (split; [reflexivity |]);
      [reflexivity | eexists; split; reflexivity].
  - split; [reflexivity |]. split; [reflexivity |].
    pose proof (xai_client_broken h k e Hk Hne He Ht) as Hcl.
    cbn [main invocation find_prompt_file].
    pose proof (xai_main_summary argv h s) as H. cbv zeta in H. rewrite Hcl in H.
    destruct (consume XAI.add_arguments argv XAI.defaults false) as [args | |].
    2, 3: project H; destruct H as (-> & _); split; [discriminate |];
      do 3 (split; [reflexivity |]); intros p o pf Hi; discriminate Hi.
    destruct (outcome (XAI.find_prompt_file (XAI.prompt args) h s)) as [pf | e0 | c0] eqn:Hfind.
    2, 3: project H; destruct H as (-> & _); split; [discriminate |];
      do 3 (split; [reflexivity |]); intros p o pf Hi Hf; injection Hi as <- <-; congruence.
    destruct (lookup "reports" (st_fs s)) as [[c0 |] |] eqn:Hrep.
    1: { destruct H as (e0 & H). project H. destruct H as (-> & _). split; [discriminate |].
         do 3 (split; [reflexivity |]).
         intros p o pf' _ _ Hr. exfalso. eapply Hr. reflexivity. }
    all: project H; destruct H as (-> & _); split; [discriminate |];
      do 3 (split; [reflexivity |]); intros p o pf' _ _ _; split; reflexivity.
Qed.

(** ** Pulling the model *)

Lemma error_log_app a b : error_log (a ++ b)%list = (error_log a ++ error_log b)%list.
Proof. apply flat_map_app. Qed.

Lemma find_model_quiet m models : forall h s,
  error_log (events (Ollama.find_model m models h s)) = [].
Proof.
  induction models as [| mi rest IH]; intros h s; cbn [Ollama.find_model]; [reflexivity |].
  destruct (Ollama.matches m (Ollama.model_name_of mi)); [reflexivity | apply IH].
Qed.

(** The error lines of the constructor: none when it returns, the error
    and the hint when it raises. *)
Lemma ollama_init_error_log marg h s :
  error_log (events (Ollama.init marg h s)) =
  match ollama_init_failure h (ollama_model marg) with
  | Some e => ["Error initializing Ollama: " ++ Py.exn_msg e;
               "Make sure the Ollama service is running. You can start it with 'ollama serve'"]
  | None => []
  end.
Proof.
  unfold Ollama.init. cbv zeta. fold (ollama_model marg).
  set (m := ollama_model marg).
  pose proof (runs_ollama_probe m h s) as Hp. cbv zeta in Hp.
  rewrite bind_events, error_log_app. cbn [logger_info emit outcome final events error_log flat_map app].
  rewrite bind_events, error_log_app, try_except_events, try_except_outcome, error_log_app.
  match type of Hp with
  | match _ with Some _ => Runs (?b _ _) _ _ _ | None => _ end => set (body := b) in *
  end.
  assert (Hq : error_log (events (body h s)) = []).
  { subst body. clear Hp.
    unfold bind, emit, ask. cbn [outcome final events].
    destruct (ollama_list h) as [e | models]; [reflexivity |].
    pose proof (find_model_quiet m) as Hf.
    assert (Hf' : error_log (events (match models with
                          | Some ((_ :: _) as l) => Ollama.find_model m l
                          | _ => ret false
                          end h s)) = []).
    { destruct models as [[| mi l] |]; try reflexivity. apply Hf. }
    destruct (match models with
              | Some ((_ :: _) as l) => Ollama.find_model m l
              | _ => ret false
              end h s) as [[found | e | c] s1 ev1]; cbn [events] in Hf'.
    2, 3: cbn [events]; rewrite !error_log_app, Hf'; reflexivity.
    destruct found; cbn [negb ret logger_info emit call_raising events].
    - rewrite !error_log_app, Hf'. reflexivity.
    - destruct (ollama_pull h m); cbn [raise ret call_raising events];
        rewrite !error_log_app, Hf'; reflexivity. }
  rewrite Hq. cbn [app].
  destruct (ollama_init_failure h m) as [e |]; destruct Hp as (Ho & _); rewrite Ho.
  - cbn [Py.is_Exception]. rewrite !bind_events, !bind_outcome.
    cbn [logger_error emit raise outcome final events error_log flat_map app]. reflexivity.
  - cbn [outcome ret events error_log flat_map app]. reflexivity.
Qed.

(** X17. A model that is missing and cannot be pulled is fatal: when the
    daemon lists its models, none matches, and [ollama.pull] raises, the
    constructor has tried that one pull, logs the error together with
    the hint to start the service, and raises; [main] then ends with
    exit status 1 without opening the prompt file, submitting or
    writing. *)
Theorem failed_pull_is_fatal :
  forall (argv : list CliArg) (h : Host) (s : State) (models : option (list ModelInfo))
         (e : Py.exn) (args : Ollama.Args),
  ollama_list h = ListResponse models ->
  consume Ollama.add_arguments argv Ollama.defaults false = Namespace args ->
  Ollama.list_models args = false ->
  in_catalog (ollama_model (Some (Ollama.arg_model args))) models = false ->
  ollama_pull h (ollama_model (Some (Ollama.arg_model args))) = Some e ->
  let m := ollama_model (Some (Ollama.arg_model args)) in
  let r := Ollama.main argv h s in
  (forall s',
     let c := Ollama.init (Some (Ollama.arg_model args)) h s' in
     outcome c = Py.Raises e
     /\ pulled (events c) = [m]
     /\ error_log (events c) =
        ["Error initializing Ollama: " ++ Py.exn_msg e;
         "Make sure the Ollama service is running. You can start it with 'ollama serve'"])
  /\ Py.exit_status (outcome r) = 1%Z
  /\ opened (events r) = []
  /\ submitted (events r) = []
  /\ written (events r) = []
  /\ grown (st_fs s) (st_fs (final r)).
Proof.
  intros argv h s models e args El Hc Hl Hcat Hpull m r. subst r.
  assert (Hfail : ollama_init_failure h m = Some e)
    by (unfold ollama_init_failure; rewrite El; fold m in Hcat; rewrite Hcat; exact Hpull).
  assert (Hcalls : ollama_init_calls h m = [OllamaList; OllamaPull m])
    by (unfold ollama_init_calls; rewrite El; fold m in Hcat; rewrite Hcat; reflexivity).
  split.
  { intros s'. cbv zeta.
    pose proof (runs_ollama_init (Some (Ollama.arg_model args)) h s') as H. cbv zeta in H.
    fold m in H. rewrite Hfail, Hcalls in H. destruct H as (Ho & _ & Hs).
    rewrite <- pulled_significant, Hs, ollama_init_error_log. fold m. rewrite Hfail.
    repeat split; auto. }
  split.
  - pose proof (ollama_main_summary argv h s) as H. cbv zeta in H.
    rewrite Hc, Hl in H. fold m in H. rewrite Hfail in H.
    destruct (outcome (Ollama.find_prompt_file (Ollama.prompt args) h s)) as [pf | e0 | c0].
    2, 3: destruct H as (-> & _); reflexivity.
    destruct (lookup "reports" _) as [[c0 |] |].
    1: destruct H as (e0 & -> & _); reflexivity.
    all: destruct H as (-> & _); reflexivity.
  - destruct (main_course Local argv h s) as [Hd | Hs].
    + exfalso. destruct Hd as (pre & p & o & pf & prompt & fs2 & m' & calls & answer & Hd).
      cbv zeta in Hd. destruct Hd as (_ & _ & Ho & _).
      pose proof (ollama_main_summary argv h s) as H. cbv zeta in H.
      rewrite Hc, Hl in H. fold m in H. rewrite Hfail in H. cbn [main] in Ho.
      destruct (outcome (Ollama.find_prompt_file (Ollama.prompt args) h s)) as [pf' | e0 | c0].
      2, 3: destruct H as (H & _); congruence.
      destruct (lookup "reports" _) as [[c0 |] |].
      1: destruct H as (e0 & H & _); congruence.
      all: destruct H as (H & _); congruence.
    + destruct (stopped_projections s _ Hs) as (Hsub & Hw & _).
      pose proof (ollama_main_summary argv h s) as H. cbv zeta in H.
      rewrite Hc, Hl in H. fold m in H. rewrite Hfail, Hcalls in H.
      destruct Hs as (pre & _ & _ & Hg). cbn [main] in *.
      split; [| auto].
      destruct (outcome (Ollama.find_prompt_file (Ollama.prompt args) h s)) as [pf' | e0 | c0].
      2, 3: project H; reflexivity.
      destruct (lookup "reports" _) as [[c0 |] |].
      1: destruct H as (e0 & H); project H; reflexivity.
      all: project H; reflexivity.
Qed.

(** ** Listing the models *)

Lemma print_models_lines models : forall h s,
  printed (events (Ollama.print_models models h s)) = map listing_line models.
Proof.
  induction models as [| m rest IH]; intros h s; cbn [Ollama.print_models map]; [reflexivity |].
  rewrite bind_events. cbn [print emit outcome final events app printed flat_map].
  fold (printed (events (Ollama.print_models rest h s))). rewrite IH. f_equal.
  unfold listing_line. destruct (mi_size m) as [z |]; reflexivity.
Qed.

(** X18. With the daemon answering, [--list-models] prints the title and
    then one line per entry of the catalog, in catalog order; a catalog
    without the key ['models'] gives the hint to pull a model, an empty
    catalog gives the title alone.  The name shown is the ['name'] key:
    an entry that carries its name under ['model'] only is listed as
    [unnamed], although the constructor finds it and does not pull. *)
Theorem list_models_prints_the_catalog :
  forall (argv : list CliArg) (h : Host) (s : State) (args : Ollama.Args)
         (models : option (list ModelInfo)),
  In (OptSwitch "--list-models") argv ->
  consume Ollama.add_arguments argv Ollama.defaults false = Namespace args ->
  ollama_list h = ListResponse models ->
  let r := Ollama.main argv h s in
  printed (events r) =
    "Available Ollama models:"
    :: match models with
       | Some l => map listing_line l
       | None => ["No models found. Try running 'ollama pull <model_name>' first."]
       end
  /\ forall mi m,
       In mi (catalog models) -> mi_name mi = None -> mi_model mi = Some m -> m <> "" ->
       In ("- unnamed (size: "
           ++ match mi_size mi with
              | Some z => if (0 <? z)%Z then Ollama.format_gb z else "N/A"
              | None => "N/A"
              end
           ++ ", modified: "
           ++ match mi_modified_at mi with Some d => d | None => "N/A" end ++ ")")
          (printed (events r))
       /\ pulled (events (Ollama.init (Some m) h s)) = [].
Proof.
  intros argv h s args models Hin Hc El r. subst r.
  assert (Hl : Ollama.list_models args = true)
    by (eapply consume_list_models; [right; exact Hin | exact Hc]).
  assert (Hp : printed (events (Ollama.main argv h s)) =
               "Available Ollama models:"
               :: match models with
                  | Some l => map listing_line l
                  | None => ["No models found. Try running 'ollama pull <model_name>' first."]
                  end).
  { rewrite ollama_main_unfold, bind_events, parse_args_run, Hc. cbn [outcome final events app].
    rewrite Hl. unfold ollama_listing.
    rewrite try_except_events, !bind_events, !bind_outcome.
    cbn [print emit ask outcome final events]. rewrite El.
    destruct models as [l |].
    - pose proof (runs_print_models l h s) as (Ho & _). rewrite Ho, app_nil_r.
      cbn [app printed flat_map]. fold (printed (events (Ollama.print_models l h s))).
      rewrite print_models_lines. reflexivity.
    - reflexivity. }
  split; [exact Hp |].
  intros mi m Hmi Hname Hmodel Hm. split.
  - rewrite Hp. right. destruct models as [l |]; [| contradiction]. cbn [catalog] in Hmi.
    apply in_map_iff. exists mi. split; [| exact Hmi].
    unfold listing_line. rewrite Hname. reflexivity.
  - pose proof (runs_ollama_init (Some m) h s) as H. cbv zeta in H.
    assert (Hmod : ollama_model (Some m) = m)
      by (unfold ollama_model; destruct m; [congruence | reflexivity]).
    rewrite Hmod in H.
    assert (Hs : significant (events (Ollama.init (Some m) h s)) = ollama_init_calls h m).
    { destruct (ollama_init_failure h m); apply H. }
    rewrite <- pulled_significant, Hs. unfold ollama_init_calls. rewrite El.
    assert (Hcat : in_catalog m models = true).
    { apply in_catalog_iff. exists mi. split; [exact Hmi |]. left.
      unfold Ollama.model_name_of. rewrite Hmodel.
      destruct m; [congruence | reflexivity]. }
    rewrite Hcat. reflexivity.
Qed.

(** ** What the Ollama script announces *)

Lemma in_events_bind {A B} (m : M A) (f : A -> M B) h s a s1 sig e :
  Runs (m h s) (Py.Returns a) s1 sig ->
  In e (events (f a h s1)) ->
  In e (events (bind m f h s)).
Proof.
  intros (Ho & Hf & _) Hin. rewrite bind_events, Ho, Hf. apply in_or_app. right. exact Hin.
Qed.

Lemma in_events_try {A} (body : M A) caught handler h s e :
  In e (events (body h s)) -> In e (events (try_except body caught handler h s)).
Proof. intros Hin. rewrite try_except_events. apply in_or_app. left. exact Hin. Qed.

(** A run of the Ollama script that gets as far as saving ends by
    printing where the response was saved. *)
Lemma ollama_tail_announces args pf prompt h s :
  (forall c, lookup "reports" (st_fs s) <> Some (File c)) ->
  ollama_init_failure h (ollama_model (Some (Ollama.arg_model args))) = None ->
  lookup pf (with_dir "reports" (st_fs s)) = Some (File prompt) ->
  In (Print (LF ++ "Response saved to: "
             ++ output_path "ollama" (Ollama.output args) pf (clock h (st_tick s))))
     (events (ollama_tail args pf h s)).
Proof.
  intros Hrep Hok Hpf. unfold ollama_tail. cbv zeta.
  change (PathLib.Path Ollama.REPORTS_DIR) with "reports".
  pose proof (runs_os_makedirs "reports" h (later 1 (st_fs s) s)) as Hmk.
  cbn [later st_fs st_stdin st_tick] in Hmk.
  destruct (lookup "reports" (st_fs s)) as [[c0 |] |] eqn:Hl; [exfalso; eapply Hrep; reflexivity | |].
  all: fold (later 1 (with_dir "reports" (st_fs s)) s) in Hmk;
    set (s2 := later 1 (with_dir "reports" (st_fs s)) s) in *;
    set (m := ollama_model (Some (Ollama.arg_model args))) in *;
    pose proof (runs_ollama_init (Some (Ollama.arg_model args)) h s2) as Hinit;
    cbv zeta in Hinit; fold m in Hinit; rewrite Hok in Hinit;
    pose proof (runs_open_read pf h s2) as Hrd;
    change (st_fs s2) with (with_dir "reports" (st_fs s)) in Hrd; rewrite Hpf in Hrd;
    eapply in_events_bind; [apply runs_datetime_now |];
    eapply in_events_bind; [exact Hmk |];
    apply in_events_try; unfold ollama_work;
    eapply in_events_bind; [exact Hinit |];
    eapply in_events_bind; [exact Hrd |];
    eapply in_events_bind; [apply runs_ollama_submit |];
    eapply in_events_bind; [apply runs_datetime_now |];
    match goal with
    | |- context [Ollama.save_response ?self ?r ?o ?n ?t] =>
        change (Ollama.save_response self r o n t)
          with (saving o (Ollama.metadata self n t ++ r))
    end;
    eapply in_events_bind; [apply runs_saving |];
    left; reflexivity.
Qed.

(** X19. The Ollama script announces the save whether or not it
    happened: a run that tries to write its output file, successfully or
    not, returns and has printed [Response saved to: <path>]; so the
    line is printed also when the file could not be opened for writing
    and nothing was saved. *)
Theorem ollama_announces_the_save_either_way :
  forall (argv : list CliArg) (h : Host) (s : State) (out : string),
  In out (refused (events (main Local argv h s)))
  \/ In out (map fst (written (events (main Local argv h s)))) ->
  let r := main Local argv h s in
  outcome r = Py.Returns tt
  /\ In (LF ++ "Response saved to: " ++ out) (printed (events r)).
Proof.
  intros argv h s out Hin r. subst r. cbn [main] in *.
  pose proof (ollama_main_summary argv h s) as H. cbv zeta in H.
  pose proof (runs_parse_args Ollama.add_arguments Ollama.defaults argv h s) as Hp.
  destruct (consume Ollama.add_arguments argv Ollama.defaults false) as [args | |].
  2, 3: project H; destruct Hin as [[] | []].
  destruct (Ollama.list_models args) eqn:Hl.
  1: project H; destruct Hin as [[] | []].
  destruct (find_frame Local (Ollama.prompt args) h s) as (_ & Ht & _).
  cbn [find_prompt_file] in Ht.
  destruct (outcome (Ollama.find_prompt_file (Ollama.prompt args) h s)) as [pf | e0 | c0] eqn:Ho.
  2, 3: project H; destruct Hin as [[] | []].
  set (s1 := final (Ollama.find_prompt_file (Ollama.prompt args) h s)) in *.
  remember (ollama_model (Some (Ollama.arg_model args))) as m eqn:Hm.
  destruct (ollama_init_calls_quiet h m) as (_ & Qw & _ & Qr).
  assert (Hrep : (forall c, lookup "reports" (st_fs s1) <> Some (File c))
                 \/ exists c, lookup "reports" (st_fs s1) = Some (File c)).
  { destruct (lookup "reports" (st_fs s1)) as [[c |] |];
      [right; eauto | left; discriminate | left; discriminate]. }
  destruct Hrep as [Hrep | (c & Hrep)].
  2: { rewrite Hrep in H. destruct H as (e0 & H). project H. destruct Hin as [[] | []]. }
  assert (Hnext : match ollama_init_failure h m with
                  | Some e => Ends (Ollama.main argv h s) (Py.Exits 1)
                                (with_dir "reports" (st_fs s1)) (ollama_init_calls h m)
                  | None =>
                      match lookup pf (with_dir "reports" (st_fs s1)) with
                      | Some (File prompt) =>
                          Ends (Ollama.main argv h s) (Py.Returns tt)
                            (saved (output_path "ollama" (Ollama.output args) pf
                                      (clock h (st_tick s)))
                               (Ollama.metadata {| Ollama.model := m |} (PathLib.stem pf)
                                  (strftime_iso (clock h (S (st_tick s))))
                                ++ ollama_answer h m prompt)
                               (with_dir "reports" (st_fs s1)))
                            (ollama_init_calls h m ++ OpenRead pf :: OllamaGenerate m prompt
                             :: save_events
                                  (output_path "ollama" (Ollama.output args) pf
                                     (clock h (st_tick s)))
                                  (Ollama.metadata {| Ollama.model := m |} (PathLib.stem pf)
                                     (strftime_iso (clock h (S (st_tick s))))
                                   ++ ollama_answer h m prompt)
                                  (with_dir "reports" (st_fs s1)))%list
                      | _ => Ends (Ollama.main argv h s) (Py.Exits 1)
                               (with_dir "reports" (st_fs s1))
                               (ollama_init_calls h m ++ [OpenRead pf])%list
                      end
                  end).
  { destruct (lookup "reports" (st_fs s1)) as [[c |] |];
      [exfalso; eapply Hrep; reflexivity | exact H | exact H]. }
  clear H.
  destruct (ollama_init_failure h m) as [e0 |] eqn:Hok.
  1: { project Hnext. rewrite Qr, Qw in Hin. destruct Hin as [[] | []]. }
  destruct (lookup pf (with_dir "reports" (st_fs s1))) as [[prompt |] |] eqn:Hpf.
  2, 3: project Hnext; rewrite refused_app, written_app, Qr, Qw in Hin;
    destruct Hin as [[] | []].
  assert (Hout : out = output_path "ollama" (Ollama.output args) pf (clock h (st_tick s))).
  { project Hnext. rewrite refused_app, written_app, Qr, Qw in Hin. unfold save_events in Hin.
    destruct (writable _ (with_dir "reports" (st_fs s1))); cbn in Hin;
      destruct Hin as [Hin | Hin]; try contradiction; destruct Hin as [<- | []]; reflexivity. }
  split; [apply Hnext |].
  apply printed_in. rewrite ollama_main_unfold.
  eapply in_events_bind; [exact Hp |]. cbv beta. rewrite Hl.
  eapply in_events_bind; [split; [exact Ho | split; reflexivity] |].
  fold s1. rewrite Hout, <- Ht. subst m.
  apply (ollama_tail_announces args pf prompt h s1 Hrep Hok Hpf).
Qed.

(** ** The further properties at sample worlds *)

(** The Gemini script without a key leaves the other prompt file alone. *)
Lemma main_changes_only_the_file_it_writes_witness :
  lookup "prompts/other.txt" (st_fs (desk "")) = Some (File "Bye")
  /\ ~ In "prompts/other.txt"
          (map fst (written (events (main CloudA [OptValue "--prompt" "demo"] offline (desk "")))))
  /\ lookup "prompts/other.txt"
            (st_fs (final (main CloudA [OptValue "--prompt" "demo"] offline (desk ""))))
     = Some (File "Bye").
Proof.
  assert (H1 : lookup "prompts/other.txt" (st_fs (desk "")) = Some (File "Bye")) by reflexivity.
  assert (H2 : ~ In "prompts/other.txt"
                    (map fst (written (events (main CloudA [OptValue "--prompt" "demo"]
                                                    offline (desk ""))))))
    by (vm_compute; intros [H | []]; discriminate H).
  pose proof (main_changes_only_the_file_it_writes CloudA [OptValue "--prompt" "demo"] offline
                (desk "") "prompts/other.txt" (File "Bye") H1 H2) as H.
  repeat split; assumption.
Defined.

(** The Ollama script against a daemon that answers. *)
Lemma answer_is_saved_verbatim_witness :
  In ("gemma3:12b-it-q8_0", "Hello")
     (submitted (events (main Local [OptValue "--prompt" "demo"] online (desk ""))))
  /\ service_answers Local online "gemma3:12b-it-q8_0" "Hello" "answer of gemma3:12b-it-q8_0"
  /\ refused (events (main Local [OptValue "--prompt" "demo"] online (desk ""))) = []
  /\ outcome (main Local [OptValue "--prompt" "demo"] online (desk "")) = Py.Returns tt
  /\ exists out content,
       written (events (main Local [OptValue "--prompt" "demo"] online (desk "")))
       = [(out, content)]
       /\ body_after_header content "answer of gemma3:12b-it-q8_0".
Proof.
  assert (H1 : In ("gemma3:12b-it-q8_0", "Hello")
                  (submitted (events (main Local [OptValue "--prompt" "demo"] online (desk "")))))
    by (vm_compute; left; reflexivity).
  assert (H2 : service_answers Local online "gemma3:12b-it-q8_0" "Hello"
                 "answer of gemma3:12b-it-q8_0") by reflexivity.
  assert (H3 : refused (events (main Local [OptValue "--prompt" "demo"] online (desk ""))) = [])
    by (vm_compute; reflexivity).
  pose proof (answer_is_saved_verbatim Local [OptValue "--prompt" "demo"] online (desk "")
                "gemma3:12b-it-q8_0" "Hello" "answer of gemma3:12b-it-q8_0" H1 H2 H3) as H.
  cbv zeta in H. destruct H as (Ho & out & content & Hw & _ & Hb & _).
  repeat split; try assumption. exists out, content. split; assumption.
Defined.

(** The file the Gemini script writes for the prompt [demo]. *)
Lemma written_path_and_header_witness :
  In ("reports/gemini_demo_20250602_132849.md",
      snd (hd ("", "") (written (events (main CloudA [OptValue "--prompt" "demo"]
                                              offline (desk ""))))))
     (written (events (main CloudA [OptValue "--prompt" "demo"] offline (desk ""))))
  /\ exists pf,
       has_line ("prompt: " ++ PathLib.stem pf)
                (snd (hd ("", "") (written (events (main CloudA [OptValue "--prompt" "demo"]
                                                         offline (desk "")))))).
Proof.
  assert (H1 : In ("reports/gemini_demo_20250602_132849.md",
                   snd (hd ("", "") (written (events (main CloudA [OptValue "--prompt" "demo"]
                                                           offline (desk ""))))))
                  (written (events (main CloudA [OptValue "--prompt" "demo"] offline (desk "")))))
    by (vm_compute; left; reflexivity).
  pose proof (written_path_and_header CloudA [OptValue "--prompt" "demo"] offline (desk "") _ _ H1)
    as H.
  destruct H as (p & o & pf & _ & _ & _ & Hp & _).
  split; [exact H1 | exists pf; exact Hp].
Defined.

(** The header of the Ollama script names the default model. *)
Lemma ollama_header_names_the_model_used_witness :
  In ("reports/ollama_demo_20250602_132849.md",
      snd (hd ("", "") (written (events (main Local [OptValue "--prompt" "demo"]
                                              online (desk ""))))))
     (written (events (main Local [OptValue "--prompt" "demo"] online (desk ""))))
  /\ In ("gemma3:12b-it-q8_0", "Hello")
        (submitted (events (main Local [OptValue "--prompt" "demo"] online (desk ""))))
  /\ has_line "model: gemma3:12b-it-q8_0"
              (snd (hd ("", "") (written (events (main Local [OptValue "--prompt" "demo"]
                                                       online (desk "")))))).
Proof.
  assert (H1 : In ("reports/ollama_demo_20250602_132849.md",
                   snd (hd ("", "") (written (events (main Local [OptValue "--prompt" "demo"]
                                                           online (desk ""))))))
                  (written (events (main Local [OptValue "--prompt" "demo"] online (desk "")))))
    by (vm_compute; left; reflexivity).
  assert (H2 : In ("gemma3:12b-it-q8_0", "Hello")
                  (submitted (events (main Local [OptValue "--prompt" "demo"] online (desk "")))))
    by (vm_compute; left; reflexivity).
  pose proof (ollama_header_names_the_model_used [OptValue "--prompt" "demo"] online (desk "")
                _ _ _ _ H1 H2) as H.
  repeat split; assumption.
Defined.

(** An output path in a directory that does not exist. *)
Lemma refused_write_is_swallowed_witness :
  refused (events (main CloudA [OptValue "--prompt" "demo"; OptValue "--output" "nowhere/out.md"]
                        offline (desk ""))) <> []
  /\ outcome (main CloudA [OptValue "--prompt" "demo"; OptValue "--output" "nowhere/out.md"]
                   offline (desk "")) = Py.Returns tt
  /\ written (events (main CloudA [OptValue "--prompt" "demo"; OptValue "--output" "nowhere/out.md"]
                           offline (desk ""))) = [].
Proof.
  assert (H1 : refused (events (main CloudA [OptValue "--prompt" "demo";
                                             OptValue "--output" "nowhere/out.md"]
                                     offline (desk ""))) <> [])
    by (vm_compute; discriminate).
  pose proof (refused_write_is_swallowed CloudA
                [OptValue "--prompt" "demo"; OptValue "--output" "nowhere/out.md"]
                offline (desk "") H1) as H.
  cbv zeta in H. destruct H as (Ho & _ & Hw & _).
  repeat split; assumption.
Defined.

(** The xAI script leaves the prompt it read as it was. *)
Lemma default_output_stays_in_reports_witness :
  invocation CloudB [OptValue "--prompt" "demo"] = Namespace (Some "demo", None)
  /\ lookup "prompts/demo.txt" (st_fs (desk "")) = Some (File "Hello")
  /\ Py.startswith "prompts/demo.txt" "reports/" = false
  /\ lookup "prompts/demo.txt"
            (st_fs (final (main CloudB [OptValue "--prompt" "demo"] offline (desk ""))))
     = Some (File "Hello").
Proof.
  assert (H1 : invocation CloudB [OptValue "--prompt" "demo"] = Namespace (Some "demo", None))
    by reflexivity.
  assert (H2 : lookup "prompts/demo.txt" (st_fs (desk "")) = Some (File "Hello")) by reflexivity.
  assert (H3 : Py.startswith "prompts/demo.txt" "reports/" = false) by reflexivity.
  pose proof (default_output_stays_in_reports CloudB [OptValue "--prompt" "demo"] offline
                (desk "") (Some "demo") "prompts/demo.txt" (File "Hello") H1 H2 H3) as H.
  cbv zeta in H. destruct H as (H & _).
  repeat split; assumption.
Defined.

(** A daemon whose response lacks the text. *)
Lemma answer_without_text_is_saved_as_a_report_witness :
  In ("gemma3:12b-it-q8_0", "Hello")
     (submitted (events (main Local [OptValue "--prompt" "demo"] misconfigured (desk ""))))
  /\ answers_without_text Local misconfigured "gemma3:12b-it-q8_0" "Hello" "No response generated."
  /\ outcome (main Local [OptValue "--prompt" "demo"] misconfigured (desk "")) = Py.Returns tt.
Proof.
  assert (H1 : In ("gemma3:12b-it-q8_0", "Hello")
                  (submitted (events (main Local [OptValue "--prompt" "demo"]
                                           misconfigured (desk "")))))
    by (vm_compute; left; reflexivity).
  assert (H2 : answers_without_text Local misconfigured "gemma3:12b-it-q8_0" "Hello"
                 "No response generated.") by (split; reflexivity).
  pose proof (answer_without_text_is_saved_as_a_report Local [OptValue "--prompt" "demo"]
                misconfigured (desk "") "gemma3:12b-it-q8_0" "Hello" "No response generated."
                H1 H2) as H.
  cbv zeta in H. destruct H as (_ & Ho & _).
  repeat split; assumption.
Defined.

(** The prompt [demo], asked for by name in the Ollama script. *)
Lemma named_prompt_is_found_or_fatal_witness :
  "demo" <> ""
  /\ (forall c, lookup "prompts" (st_fs (desk "")) <> Some (File c))
  /\ outcome (find_prompt_file Local (Some "demo") online (desk ""))
     = Py.Returns "prompts/demo.txt".
Proof.
  assert (H1 : "demo" <> "") by discriminate.
  assert (H2 : forall c, lookup "prompts" (st_fs (desk "")) <> Some (File c))
    by (intros c; vm_compute; discriminate).
  pose proof (named_prompt_is_found_or_fatal Local "demo" online (desk "") H1 H2) as H.
  cbv zeta in H. destruct H as (_ & _ & H).
  change (lookup (PathLib.join "prompts" ("demo" ++ ".txt")) (st_fs (desk "")))
    with (Some (File "Hello")) in H.
  destruct H as (H & _).
  repeat split; assumption.
Defined.


(** The interactive selection with nobody at the keyboard. *)
Lemma end_of_input_escapes_the_selection_witness :
  interactive CloudA [] = true
  /\ is_dir "prompts" (st_fs unattended) = true
  /\ glob_txt "prompts" (st_fs unattended) = ["prompts/demo.txt"; "prompts/other.txt"]
  /\ st_stdin unattended = []
  /\ Py.exit_status (outcome (main CloudA [] offline unattended)) = 1%Z.
Proof.
  assert (H1 : interactive CloudA [] = true) by reflexivity.
  assert (H2 : is_dir "prompts" (st_fs unattended) = true) by reflexivity.
  assert (H3 : glob_txt "prompts" (st_fs unattended)
               = ["prompts/demo.txt"; "prompts/other.txt"]) by reflexivity.
  assert (H4 : st_stdin unattended = []) by reflexivity.
  pose proof (end_of_input_escapes_the_selection CloudA [] offline unattended
                "prompts/demo.txt" ["prompts/other.txt"] H1 H2 H3 H4) as H.
  cbv zeta in H. destruct H as (_ & _ & H & _).
  repeat split; assumption.
Defined.

(** The second of two listed prompts, chosen by its number. *)
Lemma typing_the_listed_number_selects_the_prompt_witness :
  Py.truthy_opt None = false
  /\ is_dir "prompts" (st_fs (desk "2")) = true
  /\ glob_txt "prompts" (st_fs (desk "2")) = ["prompts/demo.txt"; "prompts/other.txt"]
  /\ nth_error ["prompts/demo.txt"; "prompts/other.txt"] 1 = Some "prompts/other.txt"
  /\ st_stdin (desk "2") = [Py.str_of_nat 2]
  /\ In "2. other" (printed (events (find_prompt_file Local None online (desk "2"))))
  /\ outcome (find_prompt_file Local None online (desk "2")) = Py.Returns "prompts/other.txt".
Proof.
  assert (H1 : Py.truthy_opt None = false) by reflexivity.
  assert (H2 : is_dir "prompts" (st_fs (desk "2")) = true) by reflexivity.
  assert (H3 : glob_txt "prompts" (st_fs (desk "2"))
               = ["prompts/demo.txt"; "prompts/other.txt"]) by reflexivity.
  assert (H4 : nth_error ["prompts/demo.txt"; "prompts/other.txt"] 1
               = Some "prompts/other.txt") by reflexivity.
  assert (H5 : st_stdin (desk "2") = [Py.str_of_nat 2]) by reflexivity.
  pose proof (typing_the_listed_number_selects_the_prompt Local None online (desk "2")
                ["prompts/demo.txt"; "prompts/other.txt"] [] 1 "prompts/other.txt"
                H1 H2 H3 H4 H5) as H.
  cbv zeta in H. destruct H as (Hp & Ho & _).
  repeat split; assumption.
Defined.

(** The second listed prompt, asked for by the name the listing shows. *)
Lemma listed_prompt_is_found_by_its_stem_witness :
  In "prompts/other.txt" (glob_txt "prompts" (st_fs (desk "")))
  /\ PathLib.name "prompts/other.txt" <> ".txt"
  /\ outcome (find_prompt_file CloudA (Some (PathLib.stem "prompts/other.txt")) offline (desk ""))
     = Py.Returns "prompts/other.txt".
Proof.
  assert (H1 : In "prompts/other.txt" (glob_txt "prompts" (st_fs (desk ""))))
    by (vm_compute; right; left; reflexivity).
  assert (H2 : PathLib.name "prompts/other.txt" <> ".txt") by (vm_compute; discriminate).
  pose proof (listed_prompt_is_found_by_its_stem CloudA offline (desk "") "prompts/other.txt"
                H1 H2 I) as H.
  cbv zeta in H. destruct H as (H & _).
  repeat split; assumption.
Defined.

(** A key that the Gemini client rejects. *)
Lemma gemini_client_failure_means_simulation_witness :
  getenv misconfigured "GEMINI_API_KEY" = Some "secret"
  /\ "secret" <> ""
  /\ genai_Client misconfigured "secret" = Some (Py.Exn Py.ValueError "invalid api key")
  /\ error_log (events (Gemini.init None misconfigured (desk "")))
     = ["Error initializing Gemini API client: invalid api key"]
  /\ submitted (events (main CloudA [OptValue "--prompt" "demo"] misconfigured (desk ""))) = [].
Proof.
  assert (H1 : getenv misconfigured "GEMINI_API_KEY" = Some "secret") by reflexivity.
  assert (H2 : "secret" <> "") by discriminate.
  assert (H3 : genai_Client misconfigured "secret"
               = Some (Py.Exn Py.ValueError "invalid api key")) by reflexivity.
  pose proof (gemini_client_failure_means_simulation [OptValue "--prompt" "demo"] misconfigured
                (desk "") "secret" _ H1 H2 H3) as H.
  cbv zeta in H. destruct H as (_ & He & Hs & _).
  repeat split; assumption.
Defined.

(** An xAI client that cannot be built, for another reason than a
    [TypeError]. *)
Lemma xai_client_failure_is_not_caught_witness :
  getenv misconfigured "XAI_API_KEY" = Some "secret"
  /\ "secret" <> ""
  /\ OpenAI_with_transport misconfigured "secret"
     = Some (Py.Exn Py.OtherException "proxy unreachable")
  /\ outcome (XAI.init None misconfigured (desk ""))
     = Py.Raises (Py.Exn Py.OtherException "proxy unreachable")
  /\ written (events (main CloudB [OptValue "--prompt" "demo"] misconfigured (desk ""))) = [].
Proof.
  assert (H1 : getenv misconfigured "XAI_API_KEY" = Some "secret") by reflexivity.
  assert (H2 : "secret" <> "") by discriminate.
  assert (H3 : OpenAI_with_transport misconfigured "secret"
               = Some (Py.Exn Py.OtherException "proxy unreachable")) by reflexivity.
  pose proof (xai_client_failure_is_not_caught [OptValue "--prompt" "demo"] misconfigured
                (desk "") "secret" _ H1 H2 H3) as H.
  cbv zeta in H.
  change (Py.is_TypeError (Py.Exn Py.OtherException "proxy unreachable")) with false in H.
  cbv iota in H. destruct H as (Ho & _ & _ & _ & _ & Hw & _).
  repeat split; assumption.
Defined.

(** A model the daemon does not have and cannot pull. *)
Lemma failed_pull_is_fatal_witness :
  consume Ollama.add_arguments [OptValue "--prompt" "demo"; OptValue "--model" "mistral"]
          Ollama.defaults false
  = Namespace {| Ollama.prompt := Some "demo"; Ollama.output := None;
                 Ollama.arg_model := "mistral"; Ollama.list_models := false |}
  /\ in_catalog "mistral"
       (Some [{| mi_model := Some "gemma3:12b-it-q8_0"; mi_name := None;
                 mi_size := Some 8149190253%Z; mi_modified_at := None |}]) = false
  /\ ollama_pull failing "mistral" = Some unreachable
  /\ Py.exit_status
       (outcome (Ollama.main [OptValue "--prompt" "demo"; OptValue "--model" "mistral"]
                             failing (desk ""))) = 1%Z
  /\ written (events (Ollama.main [OptValue "--prompt" "demo"; OptValue "--model" "mistral"]
                                  failing (desk ""))) = [].
Proof.
  assert (H1 : ollama_list failing
               = ListResponse (Some [{| mi_model := Some "gemma3:12b-it-q8_0"; mi_name := None;
                                        mi_size := Some 8149190253%Z; mi_modified_at := None |}]))
    by reflexivity.
  assert (H2 : consume Ollama.add_arguments
                 [OptValue "--prompt" "demo"; OptValue "--model" "mistral"] Ollama.defaults false
               = Namespace {| Ollama.prompt := Some "demo"; Ollama.output := None;
                              Ollama.arg_model := "mistral"; Ollama.list_models := false |})
    by reflexivity.
  assert (H3 : in_catalog "mistral"
                 (Some [{| mi_model := Some "gemma3:12b-it-q8_0"; mi_name := None;
                           mi_size := Some 8149190253%Z; mi_modified_at := None |}]) = false)
    by reflexivity.
  assert (H4 : ollama_pull failing "mistral" = Some unreachable) by reflexivity.
  pose proof (failed_pull_is_fatal [OptValue "--prompt" "demo"; OptValue "--model" "mistral"]
                failing (desk "") _ unreachable _ H1 H2 eq_refl H3 H4) as H.
  cbv zeta in H. destruct H as (_ & He & _ & _ & Hw & _).
  repeat split; assumption.
Defined.

(** The catalog of a daemon that answers: the first entry has its name
    under ['model'] only. *)
Lemma list_models_prints_the_catalog_witness :
  In (OptSwitch "--list-models") [OptSwitch "--list-models"]
  /\ consume Ollama.add_arguments [OptSwitch "--list-models"] Ollama.defaults false
     = Namespace {| Ollama.prompt := None; Ollama.output := None;
                    Ollama.arg_model := Ollama.DEFAULT_MODEL; Ollama.list_models := true |}
  /\ printed (events (Ollama.main [OptSwitch "--list-models"] online bare))
     = ["Available Ollama models:";
        "- unnamed (size: 7.6GB, modified: N/A)";
        "- llama3:latest (size: N/A, modified: N/A)"].
Proof.
  assert (H1 : In (OptSwitch "--list-models") [OptSwitch "--list-models"])
    by (left; reflexivity).
  assert (H2 : consume Ollama.add_arguments [OptSwitch "--list-models"] Ollama.defaults false
               = Namespace {| Ollama.prompt := None; Ollama.output := None;
                              Ollama.arg_model := Ollama.DEFAULT_MODEL;
                              Ollama.list_models := true |}) by reflexivity.
  assert (H3 : ollama_list online
               = ListResponse (Some [{| mi_model := Some "gemma3:12b-it-q8_0"; mi_name := None;
                                        mi_size := Some 8149190253%Z; mi_modified_at := None |};
                                     {| mi_model := None; mi_name := Some "llama3:latest";
                                        mi_size := None; mi_modified_at := None |}]))
    by reflexivity.
  pose proof (list_models_prints_the_catalog [OptSwitch "--list-models"] online bare _ _
                H1 H2 H3) as H.
  cbv zeta in H. destruct H as (Hp & _).
  repeat split; assumption.
Defined.

(** The Ollama script with an output path in a directory that does not
    exist. *)
Lemma ollama_announces_the_save_either_way_witness :
  In "nowhere/out.md"
     (refused (events (main Local [OptValue "--prompt" "demo"; OptValue "--output" "nowhere/out.md"]
                            online (desk ""))))
  /\ written (events (main Local [OptValue "--prompt" "demo"; OptValue "--output" "nowhere/out.md"]
                           online (desk ""))) = []
  /\ In (LF ++ "Response saved to: nowhere/out.md")
        (printed (events (main Local [OptValue "--prompt" "demo";
                                      OptValue "--output" "nowhere/out.md"]
                               online (desk "")))).
Proof.
  assert (H1 : In "nowhere/out.md"
                  (refused (events (main Local [OptValue "--prompt" "demo";
                                                OptValue "--output" "nowhere/out.md"]
                                         online (desk "")))))
    by (vm_compute; left; reflexivity).
  assert (H2 : written (events (main Local [OptValue "--prompt" "demo";
                                            OptValue "--output" "nowhere/out.md"]
                                     online (desk ""))) = [])
    by (vm_compute; reflexivity).
  pose proof (ollama_announces_the_save_either_way
                [OptValue "--prompt" "demo"; OptValue "--output" "nowhere/out.md"]
                online (desk "") "nowhere/out.md" (or_introl H1)) as H.
  cbv zeta in H. destruct H as (_ & H).
  repeat split; assumption.
Defined.
